(** * The Azure provider of the worker manager

    A shallow embedding of [services/worker-manager/src/providers/azure.js]:
    the gateway's error classifier, the provisioner ([provision], with the
    names it generates and the record it constructs), the resource step
    engine ([provisionResource], [removeResource]), the operation poller,
    the provision and removal pipelines, the scanner ([scanPrepare],
    [checkWorker], [scanCleanup]) and the registration verifier
    ([registerWorker]).

    JavaScript numbers that the provider handles (status codes, epoch
    milliseconds, capacities, back-off delays) are integers and are modelled
    as [Z].  Asynchronous code is sequential per worker ([await] on every
    call), so it is written in a state-and-exception monad over the worker
    record, the outside world and a chronological trace. *)

From Stdlib Require Import ZArith Ascii String List Bool Lia.
From stdpp Require Import base option list gmap strings.

Local Open Scope string_scope.
Local Open Scope Z_scope.

(** ** JavaScript values stored in [id] and [operation] fields

    The provider stores [false], [undefined], [true] or a string there and
    only ever tests them for truthiness. *)

Inductive jsval : Type :=
| JUndef
| JBool (b : bool)
| JStr (s : string).

Definition truthy (v : jsval) : bool :=
  match v with
  | JUndef => false
  | JBool b => b
  | JStr s => negb (String.eqb s "")
  end.

(** Truthiness of a number-or-undefined field ([capacity], [terminateAfter],
    [reregistrationTimeout]). *)
Definition truthy_num (n : option Z) : bool :=
  match n with
  | None => false
  | Some z => negb (z =? 0)
  end.

(** Truthiness of a string-or-undefined/false field ([vm.vmId]). *)
Definition truthy_str (o : option string) : bool :=
  match o with
  | None => false
  | Some s => negb (String.eqb s "")
  end.

(** [new Set([...]).has(x)] and [[...].includes(x)] on a possibly undefined
    string. *)
Definition has (set : list string) (x : option string) : bool :=
  match x with
  | None => false
  | Some s => existsb (String.eqb s) set
  end.

(** Rendering of a possibly undefined string inside a template literal. *)
Definition show (x : option string) : string :=
  match x with
  | None => "undefined"
  | Some s => s
  end.

Fixpoint join (sep : string) (l : list string) : string :=
  match l with
  | [] => ""
  | [x] => x
  | x :: rest => x ++ sep ++ join sep rest
  end.

(** ** Azure provisioning and power states (lines 24-27) *)

Definition successPowerStates : list string :=
  ["PowerState/running"; "PowerState/starting"].
Definition failPowerStates : list string :=
  ["PowerState/stopping"; "PowerState/stopped";
   "PowerState/deallocating"; "PowerState/deallocated"].
Definition successProvisioningStates : list string :=
  ["Succeeded"; "Creating"; "Updating"].
Definition failProvisioningStates : list string :=
  ["Failed"; "Deleting"; "Canceled"; "Deallocating"].

(** [_.some(powerStates, v => set.has(v))] *)
Definition some_in (set : list string) (powerStates : list string) : bool :=
  existsb (fun v => has set (Some v)) powerStates.

(** ** Errors *)

Record Err : Type := mkErr {
  statusCode : option Z;
  message : string;
  code : option string
}.

Definition Error (msg : string) : Err :=
  {| statusCode := None; message := msg; code := None |}.

(** [new ApiError('Signature validation error')] *)
Definition ApiError (msg : string) : Err := Error msg.

(** A [TypeError] raised by the runtime (property access on [undefined]). *)
Definition TypeError (msg : string) : Err := Error msg.

(** ** Rate-limited gateway: the error classifier (lines 95-104)

    The handler either returns a back-off descriptor or throws the error it
    was given. *)

Inductive Level : Type := notice | warning.

Record Backoff : Type := mkBackoff {
  backoff : Z;
  reason : string;
  level : Level
}.

Inductive outcome (A : Type) : Type :=
| Return (a : A)
| Throw (e : Err).
Arguments Return {A} a.
Arguments Throw {A} e.

Definition ge_num (x : option Z) (n : Z) : bool :=
  match x with
  | None => false
  | Some z => n <=? z
  end.

Definition errorHandler (_backoffDelay : Z) (err : Err) (tries : nat)
  : outcome Backoff :=
  if bool_decide (statusCode err = Some 429) then
    Return {| backoff := _backoffDelay * 50; reason := "rateLimit"; level := notice |}
  else if ge_num (statusCode err) 500 then
    Return {| backoff := _backoffDelay * 2 ^ Z.of_nat tries;
              reason := "errors"; level := warning |}
  else Throw err.

(** ** Data model: the worker record *)

Inductive WorkerState : Type := REQUESTED | RUNNING | STOPPING | STOPPED.

Global Instance WorkerState_eq_dec : EqDecision WorkerState.
Proof. solve_decision. Defined.

Definition state_name (s : WorkerState) : string :=
  match s with
  | REQUESTED => "requested"
  | RUNNING => "running"
  | STOPPING => "stopping"
  | STOPPED => "stopped"
  end.

(** The triple kept for each cloud resource in [providerData]. *)
Record Resource : Type := mkResource {
  r_name : string;
  r_operation : jsval;
  r_id : jsval
}.

Definition set_id (v : jsval) (r : Resource) : Resource :=
  {| r_name := r_name r; r_operation := r_operation r; r_id := v |}.
Definition set_operation (v : jsval) (r : Resource) : Resource :=
  {| r_name := r_name r; r_operation := v; r_id := r_id r |}.

(** One entry of [vm.config.networkProfile.networkInterfaces]. *)
Record NicRef : Type := mkNicRef { nr_id : jsval; nr_primary : bool }.

(** A disk description of a launch configuration; [ds_rest] stands for the
    properties the provider passes through untouched. *)
Record DiskSpec : Type := mkDiskSpec { ds_name : option string; ds_rest : string }.

Record CustomData : Type := mkCustomData {
  cd_workerPoolId : string;
  cd_providerId : string;
  cd_workerGroup : string;
  cd_rootUrl : string;
  cd_workerConfig : string
}.

(** [providerData.vm.config], as [provision] builds it (lines 179-199).
    [vc_tags] is the user's [cfg.tags], which [_.omit] leaves in place;
    [vc_rest] stands for every other pass-through property. *)
Record VmConfig : Type := mkVmConfig {
  vc_location : string;
  vc_subnetId : string;
  vc_tags : option (gmap string string);
  vc_rest : string;
  vc_computerName : string;
  vc_customData : CustomData;
  vc_networkInterfaces : list NicRef;
  vc_osDisk : DiskSpec;
  vc_dataDisks : list DiskSpec
}.

Definition set_networkInterfaces (l : list NicRef) (c : VmConfig) : VmConfig :=
  {| vc_location := vc_location c; vc_subnetId := vc_subnetId c;
     vc_tags := vc_tags c; vc_rest := vc_rest c;
     vc_computerName := vc_computerName c; vc_customData := vc_customData c;
     vc_networkInterfaces := l;
     vc_osDisk := vc_osDisk c; vc_dataDisks := vc_dataDisks c |}.

(** [providerData.vm]: the resource triple plus [computerName], [config] and
    [vmId].  [vm_vmId = None] stands for the falsy non-strings [false] (set by
    [provision]) and [undefined]. *)
Record VmData : Type := mkVmData {
  vm_res : Resource;
  vm_computerName : string;
  vm_config : VmConfig;
  vm_vmId : option string
}.

Definition set_vm_res (r : Resource) (v : VmData) : VmData :=
  {| vm_res := r; vm_computerName := vm_computerName v;
     vm_config := vm_config v; vm_vmId := vm_vmId v |}.
Definition set_vm_config (c : VmConfig) (v : VmData) : VmData :=
  {| vm_res := vm_res v; vm_computerName := vm_computerName v;
     vm_config := c; vm_vmId := vm_vmId v |}.
Definition set_vmId (i : option string) (v : VmData) : VmData :=
  {| vm_res := vm_res v; vm_computerName := vm_computerName v;
     vm_config := vm_config v; vm_vmId := i |}.

Record ProviderData : Type := mkProviderData {
  pd_location : string;
  pd_resourceGroupName : string;
  pd_workerConfig : option string;
  pd_tags : gmap string string;
  pd_vm : VmData;
  pd_ip : Resource;
  pd_nic : Resource;
  pd_disks : option (list Resource);
  pd_disk : option Resource;          (* the deprecated singular field *)
  pd_subnet_id : string;
  pd_terminateAfter : option Z;
  pd_reregistrationTimeout : option Z
}.

Definition set_vm (v : VmData) (p : ProviderData) : ProviderData :=
  {| pd_location := pd_location p; pd_resourceGroupName := pd_resourceGroupName p;
     pd_workerConfig := pd_workerConfig p; pd_tags := pd_tags p;
     pd_vm := v; pd_ip := pd_ip p; pd_nic := pd_nic p;
     pd_disks := pd_disks p; pd_disk := pd_disk p;
     pd_subnet_id := pd_subnet_id p; pd_terminateAfter := pd_terminateAfter p;
     pd_reregistrationTimeout := pd_reregistrationTimeout p |}.
Definition set_ip (r : Resource) (p : ProviderData) : ProviderData :=
  {| pd_location := pd_location p; pd_resourceGroupName := pd_resourceGroupName p;
     pd_workerConfig := pd_workerConfig p; pd_tags := pd_tags p;
     pd_vm := pd_vm p; pd_ip := r; pd_nic := pd_nic p;
     pd_disks := pd_disks p; pd_disk := pd_disk p;
     pd_subnet_id := pd_subnet_id p; pd_terminateAfter := pd_terminateAfter p;
     pd_reregistrationTimeout := pd_reregistrationTimeout p |}.
Definition set_nic (r : Resource) (p : ProviderData) : ProviderData :=
  {| pd_location := pd_location p; pd_resourceGroupName := pd_resourceGroupName p;
     pd_workerConfig := pd_workerConfig p; pd_tags := pd_tags p;
     pd_vm := pd_vm p; pd_ip := pd_ip p; pd_nic := r;
     pd_disks := pd_disks p; pd_disk := pd_disk p;
     pd_subnet_id := pd_subnet_id p; pd_terminateAfter := pd_terminateAfter p;
     pd_reregistrationTimeout := pd_reregistrationTimeout p |}.
Definition set_disks (d : option (list Resource)) (p : ProviderData) : ProviderData :=
  {| pd_location := pd_location p; pd_resourceGroupName := pd_resourceGroupName p;
     pd_workerConfig := pd_workerConfig p; pd_tags := pd_tags p;
     pd_vm := pd_vm p; pd_ip := pd_ip p; pd_nic := pd_nic p;
     pd_disks := d; pd_disk := pd_disk p;
     pd_subnet_id := pd_subnet_id p; pd_terminateAfter := pd_terminateAfter p;
     pd_reregistrationTimeout := pd_reregistrationTimeout p |}.
Definition set_terminateAfter (t : option Z) (p : ProviderData) : ProviderData :=
  {| pd_location := pd_location p; pd_resourceGroupName := pd_resourceGroupName p;
     pd_workerConfig := pd_workerConfig p; pd_tags := pd_tags p;
     pd_vm := pd_vm p; pd_ip := pd_ip p; pd_nic := pd_nic p;
     pd_disks := pd_disks p; pd_disk := pd_disk p;
     pd_subnet_id := pd_subnet_id p; pd_terminateAfter := t;
     pd_reregistrationTimeout := pd_reregistrationTimeout p |}.

Record Worker : Type := mkWorker {
  workerPoolId : string;
  providerId : string;
  workerGroup : string;
  workerId : string;
  capacity : option Z;
  state : WorkerState;
  lastModified : Z;
  lastChecked : Z;
  expires : Z;
  providerData : ProviderData
}.

Definition set_state (s : WorkerState) (w : Worker) : Worker :=
  {| workerPoolId := workerPoolId w; providerId := providerId w;
     workerGroup := workerGroup w; workerId := workerId w;
     capacity := capacity w; state := s;
     lastModified := lastModified w; lastChecked := lastChecked w;
     expires := expires w; providerData := providerData w |}.
Definition set_lastModified (t : Z) (w : Worker) : Worker :=
  {| workerPoolId := workerPoolId w; providerId := providerId w;
     workerGroup := workerGroup w; workerId := workerId w;
     capacity := capacity w; state := state w;
     lastModified := t; lastChecked := lastChecked w;
     expires := expires w; providerData := providerData w |}.
Definition set_lastChecked (t : Z) (w : Worker) : Worker :=
  {| workerPoolId := workerPoolId w; providerId := providerId w;
     workerGroup := workerGroup w; workerId := workerId w;
     capacity := capacity w; state := state w;
     lastModified := lastModified w; lastChecked := t;
     expires := expires w; providerData := providerData w |}.
Definition set_expires (t : Z) (w : Worker) : Worker :=
  {| workerPoolId := workerPoolId w; providerId := providerId w;
     workerGroup := workerGroup w; workerId := workerId w;
     capacity := capacity w; state := state w;
     lastModified := lastModified w; lastChecked := lastChecked w;
     expires := t; providerData := providerData w |}.
Definition set_providerData (p : ProviderData) (w : Worker) : Worker :=
  {| workerPoolId := workerPoolId w; providerId := providerId w;
     workerGroup := workerGroup w; workerId := workerId w;
     capacity := capacity w; state := state w;
     lastModified := lastModified w; lastChecked := lastChecked w;
     expires := expires w; providerData := p |}.

(** Mutation of [worker.providerData] in place. *)
Definition on_providerData (f : ProviderData -> ProviderData) (w : Worker) : Worker :=
  set_providerData (f (providerData w)) w.

(** The [resourceType] keys that name a single resource of [providerData]. *)
Inductive ResourceType : Type := ip | nic | vm.

Global Instance ResourceType_eq_dec : EqDecision ResourceType.
Proof. solve_decision. Defined.

Definition type_name (ty : ResourceType) : string :=
  match ty with ip => "ip" | nic => "nic" | vm => "vm" end.

(** [worker.providerData[resourceType]] *)
Definition typeData (p : ProviderData) (ty : ResourceType) : Resource :=
  match ty with
  | ip => pd_ip p
  | nic => pd_nic p
  | vm => vm_res (pd_vm p)
  end.

Definition on_typeData (ty : ResourceType) (f : Resource -> Resource)
    (p : ProviderData) : ProviderData :=
  match ty with
  | ip => set_ip (f (pd_ip p)) p
  | nic => set_nic (f (pd_nic p)) p
  | vm => set_vm (set_vm_res (f (vm_res (pd_vm p))) (pd_vm p)) p
  end.

(** What [removeResource] is pointed at: [{resourceType}] with no index, or
    [{resourceType: 'disks', index}]. *)
Inductive Target : Type :=
| Single (ty : ResourceType)
| Disks (index : nat).

Definition target_name (t : Target) : string :=
  match t with Single ty => type_name ty | Disks _ => "disks" end.

Definition on_target (t : Target) (f : Resource -> Resource)
    (p : ProviderData) : ProviderData :=
  match t with
  | Single ty => on_typeData ty f p
  | Disks i => set_disks (alter f i <$> pd_disks p) p
  end.

(** ** The cloud interface

    What the Azure SDK clients answer.  A call either throws an error or
    returns a value; [_enqueue] hands the call to the gateway, which retries
    according to [errorHandler], so an answer here is the final one. *)

Inductive Client : Type :=
| publicIPAddresses
| networkInterfaces
| virtualMachines
| disks.

Global Instance Client_eq_dec : EqDecision Client.
Proof. solve_decision. Defined.

(** The fields the provider reads from a resource returned by [client.get]. *)
Record CloudResource : Type := mkCloudResource {
  res_id : jsval;
  res_provisioningState : option string;
  res_vmId : option string;
  res_osDiskName : string;               (* storageProfile.osDisk.name *)
  res_dataDisks : option (list string)   (* storageProfile.dataDisks[*].name *)
}.

(** [request.getPollState()]: the [azureAsyncOperationHeaderValue] key may be
    absent. *)
Record PollState : Type := mkPollState {
  azureAsyncOperationHeaderValue : option jsval
}.

Record IpConfiguration : Type := mkIpConfiguration {
  ipc_name : string;
  ipc_privateIPAllocationMethod : string;
  ipc_subnet_id : string;
  ipc_publicIPAddress_id : jsval
}.

Inductive ResourceConfig : Type :=
| IpConfig (location publicIPAllocationMethod : string)
| NicConfig (location : string) (ipConfigurations : list IpConfiguration)
| VmConfigWithSecrets (cfg : VmConfig) (adminUsername adminPassword : string).

(** The body [{...resourceConfig, tags: worker.providerData.tags}] of a
    create request: the [tags] key comes last in the spread, so it replaces
    any [tags] of [resourceConfig]. *)
Record CreateBody : Type := mkCreateBody {
  body_config : ResourceConfig;
  body_tags : gmap string string
}.

Record OpError : Type := mkOpError { oe_message : string; oe_code : option string }.
Record OpBody : Type := mkOpBody { ob_status : string; ob_error : option OpError }.
Record OpResponse : Type := mkOpResponse { op_status : Z; op_parsedBody : option OpBody }.

Record CloudAPI (C : Type) : Type := mkCloudAPI {
  api_get : Client -> string -> string -> C -> (Err + CloudResource) * C;
  api_beginCreateOrUpdate :
    Client -> string -> string -> CreateBody -> C -> (Err + PollState) * C;
  api_beginDeleteMethod : Client -> string -> string -> C -> (Err + PollState) * C;
  api_instanceView : string -> string -> C -> (Err + list string) * C;
  api_sendLongRunningRequest : jsval -> C -> (Err + OpResponse) * C;
  (* the wall clock, in epoch milliseconds *)
  api_now : C -> Z;
  (* whether [WorkerPool.get] finds the worker's pool *)
  api_workerPool : C -> bool;
  (* [nicerId().slice(0, 20)] and [generateAdminPassword()] *)
  api_secrets : C -> string * string
}.
Arguments api_get {C}.
Arguments api_beginCreateOrUpdate {C}.
Arguments api_beginDeleteMethod {C}.
Arguments api_instanceView {C}.
Arguments api_sendLongRunningRequest {C}.
Arguments api_now {C}.
Arguments api_workerPool {C}.
Arguments api_secrets {C}.

(** ** Observable events *)

Record ErrorReport : Type := mkErrorReport {
  er_kind : string;
  er_title : string;
  er_description : string;
  er_code : option string
}.

Inductive Event : Type :=
| Get (client : Client) (rg name : string) (answer : Err + CloudResource)
| BeginCreateOrUpdate (client : Client) (rg name : string) (body : CreateBody)
    (answer : Err + PollState)
| BeginDeleteMethod (client : Client) (rg name : string) (answer : Err + PollState)
| InstanceView (rg name : string) (answer : Err + list string)
| OpRead (op : jsval) (answer : Err + OpResponse)
| LogWorkerRemoved (reason : string)
| LogWorkerRunning
| LogRegistrationErrorWarning (msg : string)
| ReportError (report : ErrorReport)
| Update (w : Worker).            (* the record written by [worker.update] *)

(** An entry of the trace: the event and the worker record as it was when the
    event was issued. *)
Record Entry : Type := mkEntry { at_worker : Worker; event : Event }.

Section Provider.

Context {C : Type} (cloud : CloudAPI C).

(** ** Program state and the monad *)

Record St : Type := mkSt {
  worker : Worker;
  world : C;
  trace : list Entry;                               (* oldest first *)
  seen : option (gmap string Z);                    (* this.seen *)
  errors : option (gmap string (list ErrorReport))  (* this.errors *)
}.

Definition M (A : Type) : Type := St -> outcome A * St.

Definition ret {A} (a : A) : M A := fun s => (Return a, s).

Definition bind {A B} (m : M A) (k : A -> M B) : M B :=
  fun s =>
    match m s with
    | (Return a, s') => k a s'
    | (Throw e, s') => (Throw e, s')
    end.

Definition throw {A} (e : Err) : M A := fun s => (Throw e, s).

(** [try { body } catch (err) { handler }] *)
Definition try_catch {A} (body : M A) (handler : Err -> M A) : M A :=
  fun s =>
    match body s with
    | (Return a, s') => (Return a, s')
    | (Throw e, s') => handler e s'
    end.

Notation "x <- c1 ;; c2" := (bind c1 (fun x => c2))
  (at level 100, c1 at next level, right associativity).
Notation "c1 ;; c2" := (bind c1 (fun _ => c2))
  (at level 100, right associativity).

Definition getWorker : M Worker := fun s => (Return (worker s), s).

Definition emit (e : Event) : M unit :=
  fun s => (Return tt,
            {| worker := worker s; world := world s;
               trace := trace s ++ [ {| at_worker := worker s; event := e |} ];
               seen := seen s; errors := errors s |}).

(** Modelled from the spec: [Worker.update] of [../data] is not among the
    sources.  "update is a read-modify-write under a row-scoped transaction":
    the mutator runs on the record, the result is persisted and is what the
    caller's [worker] object holds afterwards. *)
Definition update (modifier : Worker -> Worker) : M unit :=
  fun s =>
    let w' := modifier (worker s) in
    (Return tt,
     {| worker := w'; world := world s;
        trace := trace s ++ [ {| at_worker := worker s; event := Update w' |} ];
        seen := seen s; errors := errors s |}).

(** A call through [this._enqueue]: the world answers and moves on, and the
    call and its answer are recorded. *)
Definition enqueue {A} (call : C -> (Err + A) * C) (ev : Err + A -> Event) : M A :=
  fun s =>
    let '(answer, c') := call (world s) in
    let s' := {| worker := worker s; world := c';
                 trace := trace s ++ [ {| at_worker := worker s; event := ev answer |} ];
                 seen := seen s; errors := errors s |} in
    match answer with
    | inl e => (Throw e, s')
    | inr a => (Return a, s')
    end.

(** [new Date()], [Date.now()], [this._now()] *)
Definition now : M Z := fun s => (Return (api_now cloud (world s)), s).

(** [WorkerPool.get(this.db, worker.workerPoolId)] *)
Definition WorkerPool_get : M bool :=
  fun s => (Return (api_workerPool cloud (world s)), s).

Definition reportError (kind title description : string) : M unit :=
  emit (ReportError {| er_kind := kind; er_title := title;
                       er_description := description; er_code := None |}).

Definition set_seen (m : option (gmap string Z)) : M unit :=
  fun s => (Return tt,
            {| worker := worker s; world := world s; trace := trace s;
               seen := m; errors := errors s |}).

Definition set_errors (m : option (gmap string (list ErrorReport))) : M unit :=
  fun s => (Return tt,
            {| worker := worker s; world := world s; trace := trace s;
               seen := seen s; errors := m |}).

Definition get_seen : M (option (gmap string Z)) := fun s => (Return (seen s), s).
Definition get_errors : M (option (gmap string (list ErrorReport))) :=
  fun s => (Return (errors s), s).

(** [async scanPrepare()] *)
Definition scanPrepare : M unit :=
  set_seen (Some ∅) ;; set_errors (Some ∅).

(** [errors.push(report)] where [errors] is [this.errors[workerPoolId]]. *)
Definition errors_push (report : ErrorReport) : M unit :=
  w <- getWorker ;;
  errs <- get_errors ;;
  match errs with
  | None => throw (TypeError "Cannot read properties of undefined")
  | Some m =>
    match m !! workerPoolId w with
    | None => throw (TypeError "Cannot read properties of undefined (reading 'push')")
    | Some l => set_errors (Some (<[workerPoolId w := (l ++ [report])%list]> m))
    end
  end.

(** ** Resource step engine: removal (lines 818-902) *)

Definition deletingStates : list string := ["Deleting"; "Deallocating"; "Deallocated"].

Definition removeResource (client : Client) (target : Target) : M bool :=
  w <- getWorker ;;
  typeData <-
    match target with
    | Single ty => ret (typeData (providerData w) ty)
    | Disks index =>
      match pd_disks (providerData w) with
      | None =>
        throw (Error "Error removing worker: providerData does not contain resourceType disks")
      | Some ds =>
        match ds !! index with
        | Some d => ret d
        | None => throw (TypeError "Cannot read properties of undefined (reading 'id')")
        end
      end
    end ;;
  let rg := pd_resourceGroupName (providerData w) in
  (* lookup resource by name: [inl b] is an early [return b], [inr d] carries
     [shouldDelete] *)
  looked <-
    (if negb (truthy (r_id typeData)) then
       try_catch
         (res <- enqueue (api_get cloud client rg (r_name typeData))
                         (Get client rg (r_name typeData)) ;;
          ret (inr (negb (has deletingStates (res_provisioningState res)))))
         (fun err =>
            if bool_decide (statusCode err = Some 404) then
              update (on_providerData
                        (on_target target (fun r => set_id (JBool false) (set_operation JUndef r)))) ;;
              ret (inl true)
            else throw err)
     else ret (inr false)) ;;
  match looked with
  | inl b => ret b
  | inr shouldDelete =>
    (if truthy (r_id typeData) || shouldDelete then
       deleteRequest <- enqueue (api_beginDeleteMethod cloud client rg (r_name typeData))
                                (BeginDeleteMethod client rg (r_name typeData)) ;;
       update (on_providerData
                 (on_target target
                    (fun r =>
                       let r' := set_id (JBool false) r in
                       match azureAsyncOperationHeaderValue deleteRequest with
                       | Some v => set_operation v r'
                       | None => r'
                       end)))
     else ret tt) ;;
    ret false
  end.

(** ** Removal pipeline (lines 907-1010) *)

(** The loop over [worker.providerData.disks]; [disksDeleted] is the
    accumulator. *)
Fixpoint removeDisks (indices : list nat) (disksDeleted : bool) : M bool :=
  match indices with
  | [] => ret disksDeleted
  | i :: rest =>
    success <- removeResource disks (Disks i) ;;
    removeDisks rest (if success then disksDeleted else false)
  end.

Definition deletion_error (err : Err) : ErrorReport :=
  {| er_kind := "deletion-error"; er_title := "Deletion Error";
     er_description := message err; er_code := code err |}.

Definition removeWorker (reason : string) : M WorkerState :=
  emit (LogWorkerRemoved reason) ;;
  w <- getWorker ;;
  if bool_decide (state w = STOPPED) then ret STOPPED
  else
    try_catch
      (vmDeleted <- removeResource virtualMachines (Single vm) ;;
       w <- getWorker ;;
       if negb vmDeleted || truthy (r_id (vm_res (pd_vm (providerData w)))) then ret STOPPING
       else
       nicDeleted <- removeResource networkInterfaces (Single nic) ;;
       w <- getWorker ;;
       if negb nicDeleted || truthy (r_id (pd_nic (providerData w))) then ret STOPPING
       else
       ipDeleted <- removeResource publicIPAddresses (Single ip) ;;
       w <- getWorker ;;
       if negb ipDeleted || truthy (r_id (pd_ip (providerData w))) then ret STOPPING
       else
       match pd_disks (providerData w) with
       | None => throw (TypeError "Cannot read properties of undefined (reading 'length')")
       | Some ds =>
         disksDeleted <- removeDisks (seq 0 (length ds)) true ;;
         w <- getWorker ;;
         if negb disksDeleted
            || existsb (fun d => truthy (r_id d)) (default [] (pd_disks (providerData w)))
         then ret STOPPING
         else
           t <- now ;;
           update (fun w => set_state STOPPED (set_lastChecked t (set_lastModified t w))) ;;
           ret STOPPED
       end)
      (fun err =>
         w <- getWorker ;;
         errs <- get_errors ;;
         let m := default ∅ errs in
         let l := default [] (m !! workerPoolId w) in
         set_errors (Some (<[workerPoolId w := (l ++ [deletion_error err])%list]> m)) ;;
         ret STOPPING).

(** ** Operation poller (lines 409-462): [true] means "in progress" *)

Definition handleOperation (op : jsval) : M bool :=
  polled <- try_catch
              (resp <- enqueue (api_sendLongRunningRequest cloud op) (OpRead op) ;;
               ret (Some resp))
              (fun _ => ret None) ;;
  match polled with
  | None => ret true
  | Some resp =>
    if op_status resp =? 404 then ret false
    else
      match op_parsedBody resp with
      | Some body =>
        if String.eqb (ob_status body) "InProgress" then ret true
        else
          match ob_error body with
          | Some e =>
            errors_push {| er_kind := "operation-error"; er_title := "Operation Error";
                           er_description := oe_message e; er_code := oe_code e |} ;;
            ret false
          | None => ret false
          end
      | None => ret false
      end
  end.

(** ** Resource step engine: provisioning (lines 482-564) *)

Definition provisionResource (client : Client) (resourceType : ResourceType)
    (resourceConfig : ResourceConfig)
    (modifyFn : Worker -> CloudResource -> Worker) : M unit :=
  w <- getWorker ;;
  let typeData := typeData (providerData w) resourceType in
  let rg := pd_resourceGroupName (providerData w) in
  (* [true] is an early [return worker] *)
  returned <-
    (if negb (truthy (r_id typeData)) then
       try_catch
         (resource <- enqueue (api_get cloud client rg (r_name typeData))
                              (Get client rg (r_name typeData)) ;;
          (if has failProvisioningStates (res_provisioningState resource) then
             update (on_providerData (on_typeData resourceType (set_operation JUndef))) ;;
             removeWorker (type_name resourceType ++ " has state "
                           ++ show (res_provisioningState resource)) ;;
             ret tt
           else
             update (fun w =>
                       modifyFn
                         (on_providerData
                            (on_typeData resourceType
                               (fun r => set_operation JUndef (set_id (res_id resource) r))) w)
                         resource)) ;;
          ret true)
         (fun err =>
            if negb (bool_decide (statusCode err = Some 404)) then throw err
            else if truthy (r_operation typeData) then
              errs <- get_errors ;;
              match errs with
              | None => throw (TypeError "Cannot read properties of undefined")
              | Some _ =>
                op <- handleOperation (r_operation typeData) ;;
                (if negb op then
                   update (on_providerData (on_typeData resourceType (set_operation JUndef))) ;;
                   removeWorker "operation expired" ;;
                   ret tt
                 else ret tt) ;;
                ret true
              end
            else ret false)
     else ret false) ;;
  if returned : bool then ret tt
  else if negb (truthy (r_id typeData)) then
    w <- getWorker ;;
    let body := {| body_config := resourceConfig; body_tags := pd_tags (providerData w) |} in
    resourceRequest <-
      enqueue (api_beginCreateOrUpdate cloud client rg (r_name typeData) body)
              (BeginCreateOrUpdate client rg (r_name typeData) body) ;;
    update (on_providerData
              (on_typeData resourceType
                 (set_operation
                    (default JUndef (azureAsyncOperationHeaderValue resourceRequest)))))
  else ret tt.

(** ** Provision pipeline (lines 572-673) *)

Definition nicModifyFunc (w : Worker) (nic : CloudResource) : Worker :=
  on_providerData
    (fun p =>
       set_vm (set_vm_config
                 (set_networkInterfaces [ {| nr_id := res_id nic; nr_primary := true |} ]
                                        (vm_config (pd_vm p)))
                 (pd_vm p)) p) w.

Definition vmModifyFunc (w : Worker) (vm : CloudResource) : Worker :=
  let disk n := {| r_name := n; r_operation := JUndef; r_id := JBool true |} in
  on_providerData
    (set_disks (Some (disk (res_osDiskName vm)
                      :: map disk (default [] (res_dataDisks vm))))) w.

Definition workerConfigWithSecrets (cfg : VmConfig) : M ResourceConfig :=
  fun s =>
    let '(adminUsername, adminPassword) := api_secrets cloud (world s) in
    (Return (VmConfigWithSecrets cfg adminUsername adminPassword), s).

Definition provisionResources : M WorkerState :=
  try_catch
    (w <- getWorker ;;
     let ipConfig := IpConfig (pd_location (providerData w)) "Dynamic" in
     provisionResource publicIPAddresses ip ipConfig (fun w _ => w) ;;
     w <- getWorker ;;
     if negb (truthy (r_id (pd_ip (providerData w)))) then ret (state w)
     else
     let nicConfig :=
       NicConfig (pd_location (providerData w))
         [ {| ipc_name := r_name (pd_nic (providerData w));
              ipc_privateIPAllocationMethod := "Dynamic";
              ipc_subnet_id := pd_subnet_id (providerData w);
              ipc_publicIPAddress_id := r_id (pd_ip (providerData w)) |} ] in
     provisionResource networkInterfaces nic nicConfig nicModifyFunc ;;
     w <- getWorker ;;
     if negb (truthy (r_id (pd_nic (providerData w)))) then ret (state w)
     else
     vmConfig <- workerConfigWithSecrets (vm_config (pd_vm (providerData w))) ;;
     provisionResource virtualMachines vm vmConfig vmModifyFunc ;;
     w <- getWorker ;;
     if negb (truthy (r_id (vm_res (pd_vm (providerData w))))) then ret (state w)
     else ret RUNNING)
    (fun err =>
       workerPool <- WorkerPool_get ;;
       (if workerPool : bool then
          reportError "creation-error" "VM Creation Error" (message err)
        else ret tt) ;;
       removeWorker ("VM Creation Error: " ++ message err)).

(** ** Scanner (lines 675-791) *)

Definition fetchVmInfo : M (option string * option string) :=
  w <- getWorker ;;
  vmInfo <- enqueue (api_get cloud virtualMachines
                       (pd_resourceGroupName (providerData w))
                       (r_name (vm_res (pd_vm (providerData w)))))
                    (Get virtualMachines
                       (pd_resourceGroupName (providerData w))
                       (r_name (vm_res (pd_vm (providerData w))))) ;;
  w <- getWorker ;;
  (if negb (truthy_str (vm_vmId (pd_vm (providerData w)))) then
     update (on_providerData (fun p => set_vm (set_vmId (res_vmId vmInfo) (pd_vm p)) p))
   else ret tt) ;;
  ret (res_provisioningState vmInfo, res_vmId vmInfo).

(** [this.seen[pool] += n] *)
Definition seen_add (pool : string) (n : Z) : M unit :=
  sn <- get_seen ;;
  match sn with
  | None => throw (TypeError "Cannot read properties of undefined")
  | Some m => set_seen (Some (<[pool := default 0 (m !! pool) + n]> m))
  end.

Definition day : Z := 24 * 60 * 60 * 1000.
Definition week : Z := 7 * day.

Definition checkWorker : M unit :=
  w <- getWorker ;;
  (* update providerdata from deprecated disk to disks if applicable *)
  (match pd_disk (providerData w) with
   | Some d => update (on_providerData (fun p => set_disks (Some [d]) p))
   | None => ret tt
   end) ;;
  w <- getWorker ;;
  let pool := workerPoolId w in
  sn <- get_seen ;;
  match sn with
  | None => throw (TypeError "Cannot read properties of undefined")
  | Some sm =>
  set_seen (Some (<[pool := default 0 (sm !! pool)]> sm)) ;;
  errs <- get_errors ;;
  match errs with
  | None => throw (TypeError "Cannot read properties of undefined")
  | Some em =>
  set_errors (Some (<[pool := default [] (em !! pool)]> em)) ;;
  w <- getWorker ;;
  let state0 := state w in
  state' <-
    try_catch
      (info <- fetchVmInfo ;;
       let provisioningState := fst info in
       w <- getWorker ;;
       powerStates <- enqueue (api_instanceView cloud
                                 (pd_resourceGroupName (providerData w))
                                 (r_name (vm_res (pd_vm (providerData w)))))
                              (InstanceView
                                 (pd_resourceGroupName (providerData w))
                                 (r_name (vm_res (pd_vm (providerData w))))) ;;
       if has successProvisioningStates provisioningState
          && some_in successPowerStates powerStates then
         w <- getWorker ;;
         seen_add pool (if truthy_num (capacity w) then default 1 (capacity w) else 1) ;;
         t <- now ;;
         (if expires w <? t + day then
            t' <- now ;; update (set_expires (t' + week))
          else ret tt) ;;
         w <- getWorker ;;
         t <- now ;;
         if truthy_num (pd_terminateAfter (providerData w))
            && (default 0 (pd_terminateAfter (providerData w)) <? t)
         then removeWorker "terminateAfter time exceeded"
         else ret state0
       else if has failProvisioningStates provisioningState
               || some_in failPowerStates powerStates then
         removeWorker ("failed state; provisioningState=" ++ show provisioningState
                       ++ ", powerStates=" ++ join ", " powerStates)
       else
         workerPool <- WorkerPool_get ;;
         (if workerPool : bool then
            reportError "creation-error"
              "Encountered unknown VM provisioningState or powerStates"
              ("Unknown provisioningState " ++ show provisioningState
               ++ " or powerStates: " ++ join ", " powerStates)
          else ret tt) ;;
         ret state0)
      (fun err =>
         if negb (bool_decide (statusCode err = Some 404)) then throw err
         else
           match state0 with
           | REQUESTED => provisionResources
           | STOPPING => removeWorker "continuing removal"
           | _ => removeWorker ("vm in " ++ state_name state0 ++ " not found")
           end) ;;
  t <- now ;;
  update (fun w =>
            set_state state'
              (set_lastChecked t
                 (if bool_decide (state w = state') then w else set_lastModified t w)))
  end end.

(** ** Registration verifier (lines 271-395)

    The PKCS#7 and X.509 work is done by [node-forge] and [crypto]; their
    functions are parameters.  [None] and [false] stand for a call that
    throws or an assertion that fails. *)

(** What [JSON.parse] returned, as far as [registerWorker] reads it.
    [JsonNull] is the JSON [null]: reading a property of it throws.  Any
    other value is a [JsonValue]: [vmId] is its [vmId] property ([None] when
    it has none), [timeStamp] its [timeStamp] property ([None] when it has
    none, or holds [null], so that reading [expiresOn] of it throws).  Of a
    [timeStamp] only [new Date(timeStamp.expiresOn)] is kept, [None] standing
    for an invalid date. *)
Inductive Payload : Type :=
| JsonNull
| JsonValue (vmId : option string) (timeStamp : option (option Z)).

(** [payload.vmId], where it can be read. *)
Definition p_vmId (payload : Payload) : option string :=
  match payload with
  | JsonValue vmId _ => vmId
  | JsonNull => None
  end.

(** [new Date(payload.timeStamp.expiresOn)], where it can be read and is a
    date. *)
Definition p_expiresOn (payload : Payload) : option Z :=
  match payload with
  | JsonValue _ (Some expiresOn) => expiresOn
  | _ => None
  end.

Record Registration : Type := mkRegistration {
  reg_expires : Z;
  reg_workerConfig : option string
}.

Section Registration.

Context {Message Certificate : Type}.
(* forge.asn1.fromDer + forge.pkcs7.messageFromAsn1 on the decoded document *)
Context (messageFromDer : string -> option Message).
(* content, the single certificate and the raw signature *)
Context (messageParts : Message -> option (string * Certificate * string)).
(* crypto.createVerify('RSA-SHA256') against the certificate's public key *)
Context (verify : Certificate -> string -> string -> bool).
(* forge.pki.verifyCertificateChain(this.caStore, [crt]) *)
Context (verifyCertificateChain : Certificate -> bool).
Context (JSON_parse : string -> option Payload).

Definition signature_error : Err := ApiError "Signature validation error".

Definition reject {A} (msg : string) : M A :=
  emit (LogRegistrationErrorWarning msg) ;; throw signature_error.

(** [assert.equal(payload.vmId, workerVmId)] on strings or [undefined]. *)
Definition vmId_equal (a b : option string) : bool := bool_decide (a = b).

Definition hours96 : Z := 96 * 60 * 60 * 1000.

Definition registerWorker (document : string) : M Registration :=
  match messageFromDer document with
  | None => reject "Error extracting PKCS#7 message"
  | Some msg =>
  match messageParts msg with
  | None => reject "Error extracting PKCS#7 message content"
  | Some (content, crt, sig) =>
  if negb (verify crt sig content) then reject "Error verifying PKCS#7 message signature"
  else if negb (verifyCertificateChain crt) then reject "Error verifying certificate chain"
  else
  match JSON_parse content with
  | None => reject "Payload was not valid JSON"
  | Some payload =>
    w <- getWorker ;;
    workerVmId <-
      (if negb (truthy_str (vm_vmId (pd_vm (providerData w)))) then
         info <- fetchVmInfo ;; ret (snd info)
       else ret (vm_vmId (pd_vm (providerData w)))) ;;
    match payload with
    | JsonNull =>
      (* [payload.vmId] throws, and so does the handler, which reads it again
         for its log entry *)
      throw (TypeError "Cannot read properties of null (reading 'vmId')")
    | JsonValue vmId timeStamp =>
    if negb (vmId_equal vmId workerVmId) then reject "vmId mismatch"
    else
    match timeStamp with
    | None =>
      (* [payload.timeStamp.expiresOn] throws, and so does the handler, which
         reads it again for its log entry *)
      throw (TypeError "Cannot read properties of undefined (reading 'expiresOn')")
    | Some expiresOn =>
    t <- now ;;
    if negb (match expiresOn with Some e => t <? e | None => false end)
    then reject "Expired message"
    else
    w <- getWorker ;;
    if negb (bool_decide (state w = REQUESTED)) then reject "Worker was already running."
    else
    t96 <- now ;;
    tre <- now ;;
    let expires :=
      if truthy_num (pd_reregistrationTimeout (providerData w))
      then tre + default 0 (pd_reregistrationTimeout (providerData w))
      else t96 + hours96 in
    emit LogWorkerRunning ;;
    t <- now ;;
    update (fun w =>
              on_providerData (set_terminateAfter (Some expires))
                (set_state RUNNING (set_lastModified t w))) ;;
    w <- getWorker ;;
    ret {| reg_expires := expires; reg_workerConfig := pd_workerConfig (providerData w) |}
    end end
  end end end.

End Registration.

(** A sequence of [n] invocations of the same operation on the worker. *)
Fixpoint repeat_op {A} (m : M A) (n : nat) (s : St) : St :=
  match n with
  | O => s
  | S n' => repeat_op m n' (snd (m s))
  end.

End Provider.

(** ** Provisioner: the record created for one launch configuration
    (lines 143-260) *)

Record LaunchConfig : Type := mkLaunchConfig {
  capacityPerInstance : Z;
  lc_subnetId : string;
  lc_location : string;
  lc_tags : option (gmap string string);
  lc_workerConfig : option string;
  lc_osDisk : DiskSpec;                    (* storageProfile.osDisk *)
  lc_dataDisks : option (list DiskSpec);   (* storageProfile.dataDisks *)
  lc_rest : string
}.

(** What [provision] reads from [this] and from the worker pool. *)
Record ProviderContext : Type := mkProviderContext {
  this_providerId : string;
  this_rootUrl : string;
  this_resourceGroupName : string;
  pool_workerPoolId : string;
  pool_owner : string
}.

(** The names drawn from [nicerId()]. *)
Record Names : Type := mkNames {
  virtualMachineName : string;
  computerName : string;
  ipAddressName : string;
  networkInterfaceName : string
}.

(** [_.omit(disk, 'name')] *)
Definition omit_name (d : DiskSpec) : DiskSpec :=
  {| ds_name := None; ds_rest := ds_rest d |}.

Definition reserved_tags (this : ProviderContext) (workerGroup : string)
    (user : gmap string string) : gmap string string :=
  <["owner" := pool_owner this]>
    (<["root-url" := this_rootUrl this]>
       (<["worker-pool-id" := pool_workerPoolId this]>
          (<["worker-group" := workerGroup]>
             (<["provider-id" := this_providerId this]>
                (<["managed-by" := "taskcluster"]>
                   (<["created-by" := "taskcluster-wm-" ++ this_providerId this]> user)))))).

(** The body of the [cfgs.map(async cfg => ...)] closure of [provision].
    [created] and [expires] stand for the defaults of [Worker.fromApi], which
    is not among the sources; the spec gives the state: "Each worker row is
    persisted with state=requested". *)
Definition provision_cfg (this : ProviderContext) (cfg : LaunchConfig) (names : Names)
    (terminateAfter reregistrationTimeout : option Z) (created expires : Z)
  : outcome Worker :=
  let workerGroup := lc_location cfg in
  if String.eqb workerGroup "" then Throw (Error "cfg.location is not set")
  else
    let customData :=
      {| cd_workerPoolId := pool_workerPoolId this;
         cd_providerId := this_providerId this;
         cd_workerGroup := workerGroup;
         cd_rootUrl := this_rootUrl this;
         cd_workerConfig := default "{}" (lc_workerConfig cfg) |} in
    let osDisk := omit_name (lc_osDisk cfg) in
    let dataDisks := map omit_name (default [] (lc_dataDisks cfg)) in
    let config :=
      {| vc_location := lc_location cfg; vc_subnetId := lc_subnetId cfg;
         vc_tags := lc_tags cfg; vc_rest := lc_rest cfg;
         vc_computerName := computerName names; vc_customData := customData;
         vc_networkInterfaces := [];
         vc_osDisk := osDisk; vc_dataDisks := dataDisks |} in
    let providerData :=
      {| pd_location := lc_location cfg;
         pd_resourceGroupName := this_resourceGroupName this;
         pd_workerConfig := lc_workerConfig cfg;
         pd_tags := reserved_tags this workerGroup (default ∅ (lc_tags cfg));
         pd_vm := {| vm_res := {| r_name := virtualMachineName names;
                                  r_operation := JBool false; r_id := JBool false |};
                     vm_computerName := computerName names;
                     vm_config := config;
                     vm_vmId := None |};
         pd_ip := {| r_name := ipAddressName names;
                     r_operation := JBool false; r_id := JBool false |};
         pd_nic := {| r_name := networkInterfaceName names;
                      r_operation := JBool false; r_id := JBool false |};
         pd_disks := Some [];
         pd_disk := None;
         pd_subnet_id := lc_subnetId cfg;
         pd_terminateAfter := terminateAfter;
         pd_reregistrationTimeout := reregistrationTimeout |} in
    Return {| workerPoolId := pool_workerPoolId this;
              providerId := this_providerId this;
              workerGroup := workerGroup;
              workerId := virtualMachineName names;
              capacity := Some (capacityPerInstance cfg);
              state := REQUESTED;
              lastModified := created; lastChecked := created;
              expires := expires;
              providerData := providerData |}.

Definition reserved_keys : list string :=
  ["created-by"; "managed-by"; "provider-id"; "worker-group";
   "worker-pool-id"; "root-url"; "owner"].

(** The value [provision] computes for a reserved key. *)
Definition computed_tag (this : ProviderContext) (workerGroup key : string)
  : option string :=
  if String.eqb key "created-by" then Some ("taskcluster-wm-" ++ this_providerId this)
  else if String.eqb key "managed-by" then Some "taskcluster"
  else if String.eqb key "provider-id" then Some (this_providerId this)
  else if String.eqb key "worker-group" then Some workerGroup
  else if String.eqb key "worker-pool-id" then Some (pool_workerPoolId this)
  else if String.eqb key "root-url" then Some (this_rootUrl this)
  else if String.eqb key "owner" then Some (pool_owner this)
  else None.

(** ** Operations on one worker, for statements about arbitrary sequences *)

Inductive Operation : Type :=
| DoScanPrepare
| DoCheckWorker
| DoProvisionResources
| DoRemoveWorker (reason : string).

Definition run_op {C} (cloud : CloudAPI C) (op : Operation) (s : St) : St :=
  match op with
  | DoScanPrepare => (scanPrepare s).2
  | DoCheckWorker => (checkWorker cloud s).2
  | DoProvisionResources => (provisionResources cloud s).2
  | DoRemoveWorker reason => (removeWorker cloud reason s).2
  end.

Definition run_ops {C} (cloud : CloudAPI C) (ops : list Operation) (s : St) : St :=
  fold_left (fun s op => run_op cloud op s) ops s.

(** ** A scripted cloud for examples

    The world is the clock; every answer is fixed in advance. *)

Definition not_found : Err :=
  {| statusCode := Some 404; message := "not found"; code := Some "ResourceNotFound" |}.

Definition scripted (get : Client -> Err + CloudResource)
    (view : Err + list string) (poll : Err + OpResponse) : CloudAPI Z :=
  {| api_get := fun client _ _ t => (get client, t);
     api_beginCreateOrUpdate :=
       fun client _ name _ t =>
         (inr {| azureAsyncOperationHeaderValue := Some (JStr ("op/" ++ name)) |}, t);
     api_beginDeleteMethod :=
       fun client _ name t =>
         (inr {| azureAsyncOperationHeaderValue := Some (JStr ("op/" ++ name)) |}, t);
     api_instanceView := fun _ _ t => (view, t);
     api_sendLongRunningRequest := fun _ t => (poll, t);
     api_now := fun t => t;
     api_workerPool := fun _ => true;
     api_secrets := fun _ => ("admin", "secret") |}.

Definition in_progress : OpResponse :=
  {| op_status := 200;
     op_parsedBody := Some {| ob_status := "InProgress"; ob_error := None |} |}.

(** Nothing exists and nothing progresses. *)
Definition empty_cloud : CloudAPI Z :=
  scripted (fun _ => inl not_found) (inl not_found) (inr in_progress).

Definition found (i : string) (provisioningState : string) (vmId : option string)
  : CloudResource :=
  {| res_id := JStr i; res_provisioningState := Some provisioningState;
     res_vmId := vmId; res_osDiskName := "osdisk"; res_dataDisks := None |}.

(** The virtual machine exists in the given provisioning state and reports
    the given power states; no other resource exists. *)
Definition vm_cloud (provisioningState : string) (vmId : option string)
    (powerStates : Err + list string) : CloudAPI Z :=
  scripted (fun client =>
              match client with
              | virtualMachines => inr (found "id/some vm" provisioningState vmId)
              | _ => inl not_found
              end)
           powerStates (inr in_progress).

Definition sample_config : VmConfig :=
  {| vc_location := "westus"; vc_subnetId := "some/subnet"; vc_tags := None;
     vc_rest := "{}"; vc_computerName := "computer";
     vc_customData := {| cd_workerPoolId := "foo/bar"; cd_providerId := "azure";
                         cd_workerGroup := "westus"; cd_rootUrl := "https://tc.example.com";
                         cd_workerConfig := "{}" |};
     vc_networkInterfaces := []; vc_osDisk := {| ds_name := None; ds_rest := "{}" |};
     vc_dataDisks := [] |}.

(** A worker in the shape of the test suite's [baseProviderData]. *)
Definition sample_worker (st : WorkerState) (ipId nicId vmId : jsval)
    (vmVmId : option string) (ds : option (list Resource)) (legacy : option Resource)
  : Worker :=
  {| workerPoolId := "foo/bar"; providerId := "azure"; workerGroup := "westus";
     workerId := "whatever"; capacity := Some 1; state := st;
     lastModified := 0; lastChecked := 0; expires := 10 * day;
     providerData :=
       {| pd_location := "westus"; pd_resourceGroupName := "rgrp";
          pd_workerConfig := None; pd_tags := ∅;
          pd_vm := {| vm_res := {| r_name := "some vm"; r_operation := JUndef; r_id := vmId |};
                      vm_computerName := "computer"; vm_config := sample_config;
                      vm_vmId := vmVmId |};
          pd_ip := {| r_name := "some ip"; r_operation := JUndef; r_id := ipId |};
          pd_nic := {| r_name := "some nic"; r_operation := JUndef; r_id := nicId |};
          pd_disks := ds; pd_disk := legacy;
          pd_subnet_id := "some/subnet";
          pd_terminateAfter := None; pd_reregistrationTimeout := None |} |}.

(** The state a scan starts from: [scanPrepare] has run, at clock [t]. *)
Definition scan_start (w : Worker) (t : Z) : @St Z :=
  {| worker := w; world := t; trace := [];
     seen := Some ∅; errors := Some ∅ |}.

Definition events (s : @St Z) : list Event := map event (trace s).

(** ** Generated names (lines 29-32 and 146-151)

    A string is a sequence of code units below 256; [slugid.nice()] draws
    from the URL-safe base64 alphabet. *)

(** [String.prototype.toLowerCase] on one code unit: the Latin capital
    letters, plain (A-Z) and accented (U+00C0-U+00DE, but for the
    multiplication sign U+00D7), move down by 32. *)
Definition lower_unit (c : ascii) : ascii :=
  let n := nat_of_ascii c in
  if ((65 <=? n) && (n <=? 90))%nat then ascii_of_nat (n + 32)
  else if ((192 <=? n) && (n <=? 222) && negb (n =? 215))%nat then ascii_of_nat (n + 32)
  else c.

Fixpoint toLowerCase (s : string) : string :=
  match s with
  | EmptyString => EmptyString
  | String c rest => String (lower_unit c) (toLowerCase rest)
  end.

(** The character class [[A-Za-z0-9]]. *)
Definition alphanumeric (c : ascii) : bool :=
  let n := nat_of_ascii c in
  ((65 <=? n) && (n <=? 90) || (97 <=? n) && (n <=? 122)
   || (48 <=? n) && (n <=? 57))%nat.

(** [s.replace(/[^A-Za-z0-9]/g, '')] *)
Fixpoint keep_alphanumeric (s : string) : string :=
  match s with
  | EmptyString => EmptyString
  | String c rest =>
    if alphanumeric c then String c (keep_alphanumeric rest) else keep_alphanumeric rest
  end.

(** [s.slice(0, n)] *)
Fixpoint slice (n : nat) (s : string) : string :=
  match n, s with
  | S n', String c rest => String c (slice n' rest)
  | _, _ => EmptyString
  end.

(** [nicerId()], given the three slugs that [slugid.nice()] returns. *)
Definition nicerId (slug1 slug2 slug3 : string) : string :=
  keep_alphanumeric (toLowerCase (slug1 ++ slug2 ++ slug3)).

(** The names [provision] draws for one worker (lines 146-151): five calls
    of [nicerId()], in the order of the source; [slug i] is the answer of
    the [i]-th call of [slugid.nice()]. *)
Definition draw_names (slug : nat -> string) : Names :=
  let id (k : nat) :=
    nicerId (slug (3 * k)%nat) (slug (3 * k + 1)%nat) (slug (3 * k + 2)%nat) in
  {| virtualMachineName := slice 38 ("vm-" ++ id 0%nat ++ "-" ++ id 1%nat);
     computerName := slice 15 (id 2%nat);
     ipAddressName := slice 24 ("pip-" ++ id 3%nat);
     networkInterfaceName := slice 24 ("nic-" ++ id 4%nat) |}.

(** ** Provisioner: how many workers to request (lines 121-143)

    The loop [while (toSpawn > 0)] of [provision].  [sample i] is what the
    [i]-th call of [_.sample(workerPool.config.launchConfigs)] returns,
    [None] standing for the [undefined] it returns on an empty array, on
    which [cfg.capacityPerInstance] throws.  [fuel] bounds the number of
    iterations; [None] is a loop that is still running when it is used up. *)
Fixpoint pick_cfgs (fuel : nat) (sample : nat -> option LaunchConfig) (i : nat)
    (toSpawn : Z) (cfgs : list LaunchConfig) : option (outcome (list LaunchConfig)) :=
  if 0 <? toSpawn then
    match fuel with
    | O => None
    | S fuel' =>
      match sample i with
      | None =>
        Some (Throw (TypeError
                       "Cannot read properties of undefined (reading 'capacityPerInstance')"))
      | Some cfg =>
        pick_cfgs fuel' sample (S i) (toSpawn - capacityPerInstance cfg)
                  (cfgs ++ [cfg])%list
      end
    end
  else Some (Return cfgs).

(** The first rejection among the promises of a [Promise.all], and the
    value of a promise that was fulfilled. *)
Fixpoint first_failure {A} (results : list (outcome A)) : option Err :=
  match results with
  | [] => None
  | Throw e :: _ => Some e
  | Return _ :: rest => first_failure rest
  end.

Definition returned {A} (r : outcome A) : option A :=
  match r with
  | Return a => Some a
  | Throw _ => None
  end.

(** [Promise.all(cfgs.map(async cfg => ...))]: every closure runs up to its
    [worker.create]; the rows of those that get there are created, and the
    whole rejects with the first error if one of them threw. *)
Definition create_all (results : list (outcome Worker)) : outcome unit * list Worker :=
  (match first_failure results with
   | Some e => Throw e
   | None => Return tt
   end,
   omap returned results).

(** [async provision({workerPool, workerInfo})].  [toSpawn] is the answer of
    [this.estimator.simple], [terminateAfter] and [reregistrationTimeout]
    those of [Provider.interpretLifecycle]; [slug j] is the supply of slugs
    for the [j]-th worker.  The result is the outcome and the rows
    created. *)
Definition provision (this : ProviderContext) (toSpawn : Z)
    (sample : nat -> option LaunchConfig) (slug : nat -> nat -> string)
    (terminateAfter reregistrationTimeout : option Z) (created expires : Z)
    (fuel : nat) : option (outcome unit * list Worker) :=
  if toSpawn =? 0 then Some (Return tt, [])
  else
    match pick_cfgs fuel sample 0 toSpawn [] with
    | None => None
    | Some (Throw e) => Some (Throw e, [])
    | Some (Return cfgs) =>
      Some (create_all
              (imap (fun j cfg =>
                       provision_cfg this cfg (draw_names (slug j))
                                     terminateAfter reregistrationTimeout created expires)
                    cfgs))
    end.

(** ** After the scan (lines 796-809)

    [async scanCleanup()].  [workerPool pool] says whether [WorkerPool.get]
    finds the pool.  The result is the outcome and the error reports filed,
    each with the pool it is filed for (the [scanSeen] log entry is left
    out).  The pools of [this.seen] are handled by concurrent closures
    ([Promise.all]), in no order that matters: each files its reports
    whatever happens in the others, and the whole rejects with the first
    error if one of them threw. *)

(** The closure for one pool: the reports to file, or the [TypeError] of
    [this.errors[workerPoolId].length] when there is no list. *)
Definition cleanup_pool (workerPool : string -> bool)
    (errors : option (gmap string (list ErrorReport))) (pool : string)
  : outcome (list (string * ErrorReport)) :=
  if negb (workerPool pool) then Return []
  else
    match errors with
    | None => Throw (TypeError "Cannot read properties of undefined")
    | Some em =>
      match em !! pool with
      | None => Throw (TypeError "Cannot read properties of undefined (reading 'length')")
      | Some reports => Return (map (fun report => (pool, report)) reports)
      end
    end.

Definition scanCleanup (workerPool : string -> bool)
    (seen : option (gmap string Z)) (errors : option (gmap string (list ErrorReport)))
  : outcome unit * list (string * ErrorReport) :=
  match seen with
  | None => (Throw (TypeError "Cannot convert undefined or null to object"), [])
  | Some sm =>
    let results := map (fun entry => cleanup_pool workerPool errors entry.1) (map_to_list sm) in
    (match first_failure results with
     | Some e => Throw e
     | None => Return tt
     end,
     concat (omap returned results))
  end.

(** The state in which the scanner turns to the row [w]. *)
Definition with_worker {C} (w : Worker) (s : @St C) : @St C :=
  {| worker := w; world := world s; trace := trace s; seen := seen s; errors := errors s |}.

(** Modelled from the spec: the scanner's loop is not among the sources.
    "Scanner iterates all workers"; "errors for one worker do not stop the
    scan": one [checkWorker] pass per row, on the same [this.seen] and
    [this.errors], whatever a pass returns or throws. *)
Definition scan {C} (cloud : CloudAPI C) (rows : list Worker) (s : @St C) : @St C :=
  fold_left (fun s w => (checkWorker cloud (with_worker w s)).2) rows s.


(** * Specification vocabulary *)

(** The character classes [[a-z0-9]] and [[-a-z0-9]], and strings made of
    the units of a class. *)
Definition lower_alphanumeric (c : ascii) : bool :=
  let n := nat_of_ascii c in
  ((97 <=? n) && (n <=? 122) || (48 <=? n) && (n <=? 57))%nat.

Definition name_unit (c : ascii) : bool :=
  lower_alphanumeric c || (nat_of_ascii c =? 45)%nat.

Fixpoint all_units (p : ascii -> bool) (s : string) : bool :=
  match s with
  | EmptyString => true
  | String c rest => p c && all_units p rest
  end.

(** [s.startsWith(p)] *)
Fixpoint starts_with (p s : string) : bool :=
  match p, s with
  | EmptyString, _ => true
  | String a p', String b s' => Ascii.eqb a b && starts_with p' s'
  | String _ _, EmptyString => false
  end.

(** The capacity a list of launch configurations, or of worker rows, adds
    up to. *)
Definition capacity_of (cfgs : list LaunchConfig) : Z :=
  fold_right (fun cfg n => capacityPerInstance cfg + n) 0 cfgs.

Definition capacity_sum (ws : list Worker) : Z :=
  fold_right (fun w n => default 0 (capacity w) + n) 0 ws.

(** A row as [provision] leaves it: requested, nothing allocated. *)
Definition blank (w : Worker) : Prop :=
  state w = REQUESTED
  /\ r_id (pd_ip (providerData w)) = JBool false
  /\ r_id (pd_nic (providerData w)) = JBool false
  /\ r_id (vm_res (pd_vm (providerData w))) = JBool false
  /\ pd_disks (providerData w) = Some []
  /\ workerId w = r_name (vm_res (pd_vm (providerData w))).


Local Open Scope list_scope.

Section Vocabulary.

Context {C : Type} (cloud : CloudAPI C).

(** [wp m s Q]: running [m] from [s] ends, with a value or an exception, in
    a state that satisfies [Q]. *)
Definition wp {A} (m : @M C A) (s : St) (Q : outcome A -> @St C -> Prop) : Prop :=
  Q (m s).1 (m s).2.

(** One recorded step: the worker and the world may change, one entry is
    appended, the scan maps stay. *)
Definition step_to (s : @St C) (w' : Worker) (c' : C) (ev : Event) (s' : St) : Prop :=
  worker s' = w' /\ world s' = c'
  /\ trace s' = trace s ++ [ {| at_worker := worker s; event := ev |} ]
  /\ seen s' = seen s /\ errors s' = errors s.

(** A step that leaves worker, world and trace alone. *)
Definition silent (s s' : @St C) : Prop :=
  worker s' = worker s /\ world s' = world s /\ trace s' = trace s.

(** [ext fr ok s0 s]: [s] is reached from [s0] by appending entries to the
    trace; the worker record stayed within [fr] of the one in [s0], at every
    recorded moment too, and every appended entry satisfies [ok]. *)
Definition ext (fr : Worker -> Worker -> Prop) (ok : Entry -> Prop)
    (s0 s : @St C) : Prop :=
  fr (worker s0) (worker s)
  /\ exists d, trace s = trace s0 ++ d
               /\ Forall (fun e => fr (worker s0) (at_worker e) /\ ok e) d.

(** [providerData.tags] and the legacy [providerData.disk] are as they were. *)
Definition frame (w w' : Worker) : Prop :=
  pd_tags (providerData w') = pd_tags (providerData w)
  /\ pd_disk (providerData w') = pd_disk (providerData w).

(** A create request carries the tags the record held when it was issued. *)
Definition tagged (e : Entry) : Prop :=
  match event e with
  | BeginCreateOrUpdate _ _ _ body _ =>
    body_tags body = pd_tags (providerData (at_worker e))
  | _ => True
  end.

(** [state], [lastModified] and the ip, nic and vm triples are as they were. *)
Definition steady (w w' : Worker) : Prop :=
  (state w', lastModified w')
  = (state w, lastModified w)
  /\ (pd_ip (providerData w'), pd_nic (providerData w'), vm_res (pd_vm (providerData w')))
     = (pd_ip (providerData w), pd_nic (providerData w), vm_res (pd_vm (providerData w))).

(** Neither a create nor a delete request. *)
Definition quiet (e : Entry) : Prop :=
  match event e with
  | BeginCreateOrUpdate _ _ _ _ _ | BeginDeleteMethod _ _ _ _ => False
  | _ => True
  end.

(** The client [removeWorker] uses for a target. *)
Definition client_of (t : Target) : Client :=
  match t with
  | Single vm => virtualMachines
  | Single nic => networkInterfaces
  | Single ip => publicIPAddresses
  | Disks _ => disks
  end.

(** The resource that must be gone before a resource of [client] is
    deleted, and the [id] the record holds for it. *)
Definition prerequisite (client : Client) : option Client :=
  match client with
  | virtualMachines => None
  | networkInterfaces => Some virtualMachines
  | publicIPAddresses => Some networkInterfaces
  | disks => Some publicIPAddresses
  end.

Definition prereq_id (client : Client) (w : Worker) : jsval :=
  match client with
  | virtualMachines => JUndef
  | networkInterfaces => r_id (vm_res (pd_vm (providerData w)))
  | publicIPAddresses => r_id (pd_nic (providerData w))
  | disks => r_id (pd_ip (providerData w))
  end.

(** The resource triple a row keeps for the vm, the nic or the ip. *)
Definition row_resource (client : Client) (w : Worker) : option Resource :=
  match client with
  | virtualMachines => Some (vm_res (pd_vm (providerData w)))
  | networkInterfaces => Some (pd_nic (providerData w))
  | publicIPAddresses => Some (pd_ip (providerData w))
  | disks => None
  end.

(** Among the entries [d], a GET sent to [client] for the resource [name]
    of the resource group [rg] was answered 404. *)
Definition found_gone (client : Client) (rg name : string) (d : list Entry) : Prop :=
  exists e err,
    e ∈ d /\ event e = Get client rg name (inl err) /\ statusCode err = Some 404.

(** Among the entries [d], the resource that the row [w] keeps for [client]
    was looked up and found gone: the GET named the row's own resource group
    and the name the row holds for that resource, and was answered 404. *)
Definition verified_gone (w : Worker) (client : Client) (d : list Entry) : Prop :=
  exists res,
    row_resource client w = Some res
    /\ found_gone client (pd_resourceGroupName (providerData w)) (r_name res) d.

(** What must hold of a delete request [e], given the entries [pre] that
    precede it: the prerequisite of the row that issues the delete was found
    gone, and that row holds no [id] for it. *)
Definition delete_allowed (pre : list Entry) (e : Entry) : Prop :=
  match event e with
  | BeginDeleteMethod client _ _ _ =>
    match prerequisite client with
    | Some p =>
      verified_gone (at_worker e) p pre /\ truthy (prereq_id client (at_worker e)) = false
    | None => True
    end
  | _ => True
  end.

(** Every delete request in [d] was allowed where it stands. *)
Definition ordered (d : list Entry) : Prop :=
  forall i e, d !! i = Some e -> delete_allowed (take i d) e.

(** The resource group and the names of the vm, the nic and the ip, which
    no step rewrites. *)
Definition same_names (w w' : Worker) : Prop :=
  pd_resourceGroupName (providerData w') = pd_resourceGroupName (providerData w)
  /\ forall ty, r_name (typeData (providerData w') ty)
                = r_name (typeData (providerData w) ty).

Definition prereq_same (client : Client) (w w' : Worker) : Prop :=
  prereq_id client w' = prereq_id client w /\ same_names w w'.

(** The resource triple [removeResource] is pointed at. *)
Definition target_resource (t : Target) (w : Worker) : option Resource :=
  match t with
  | Single ty => Some (typeData (providerData w) ty)
  | Disks i => pd_disks (providerData w) ≫= (fun ds => ds !! i)
  end.

(** The entries [removeResource] makes for [client]. *)
Definition of_client (client : Client) (e : Entry) : Prop :=
  match event e with
  | Get c _ _ _ | BeginDeleteMethod c _ _ _ => c = client
  | Update _ => True
  | _ => False
  end.

(** The entries a run has appended so far are ordered, and the deletion of
    a resource of [client] may start. *)
Definition stage (client : Client) (s0 s : @St C) : Prop :=
  exists d, trace s = trace s0 ++ d /\ ordered d
            /\ match prerequisite client with
               | Some p =>
                 verified_gone (worker s) p d /\ truthy (prereq_id client (worker s)) = false
               | None => True
               end.

Definition ordered_since (s0 s : @St C) : Prop :=
  exists d, trace s = trace s0 ++ d /\ ordered d.

Definition is_create (client : Client) (e : Entry) : bool :=
  match event e with
  | BeginCreateOrUpdate c _ _ _ _ => bool_decide (c = client)
  | _ => false
  end.

(** The number of [beginCreateOrUpdate] requests to [client] in a trace. *)
Fixpoint creates (client : Client) (tr : list Entry) : nat :=
  match tr with
  | [] => 0%nat
  | e :: rest => ((if is_create client e then 1 else 0) + creates client rest)%nat
  end.

(** The client [provisionResources] uses for a resource type. *)
Definition client_for (ty : ResourceType) : Client :=
  match ty with
  | ip => publicIPAddresses
  | nic => networkInterfaces
  | vm => virtualMachines
  end.

(** The poll of an operation is answered "in progress" (a failed poll is
    read as in progress too). *)
Definition polls_in_progress (answer : Err + OpResponse) : Prop :=
  match answer with
  | inl _ => True
  | inr resp =>
    op_status resp <> 404%Z
    /\ exists body, op_parsedBody resp = Some body /\ ob_status body = "InProgress"%string
  end.

(** A cloud that reports no progress: every GET by name is answered 404,
    every create request is accepted and returns an operation URL, and every
    poll of an operation says it is in progress. *)
Definition no_progress : Prop :=
  (forall client rg name c,
      exists err, (api_get cloud client rg name c).1 = inl err
                  /\ statusCode err = Some 404%Z)
  /\ (forall client rg name body c,
         exists ps, (api_beginCreateOrUpdate cloud client rg name body c).1 = inr ps
                    /\ truthy (default JUndef (azureAsyncOperationHeaderValue ps)) = true)
  /\ (forall op c, polls_in_progress (api_sendLongRunningRequest cloud op c).1).

(** Whether a create request for the resource is still to be issued. *)
Definition credit (client : Client) (w : Worker) : nat :=
  let pending r := if truthy (r_id r) || truthy (r_operation r) then 0%nat else 1%nat in
  match client with
  | publicIPAddresses => pending (pd_ip (providerData w))
  | networkInterfaces => pending (pd_nic (providerData w))
  | virtualMachines => pending (vm_res (pd_vm (providerData w)))
  | disks => 0%nat
  end.

(** From [s] to [s'] no client got more create requests than it had credit
    for. *)
Definition within_credit (s s' : @St C) : Prop :=
  errors s' = errors s
  /\ forall client,
      (creates client (trace s') + credit client (worker s')
       <= creates client (trace s) + credit client (worker s))%nat.

(** [removeWorker] was invoked with [reason] among the entries [d]. *)
Definition removed_with (reason : string) (d : list Entry) : Prop :=
  exists e, e ∈ d /\ event e = LogWorkerRemoved reason.

(** The payload's timestamp has not expired at time [t]. *)
Definition fresh_at (payload : Payload) (t : Z) : Prop :=
  exists e, p_expiresOn payload = Some e /\ (t < e)%Z.

(** The record after [fetchVmInfo] has written the fetched vmId, and the state
    after that fetch. *)
Definition with_vmId (v : option string) (w : Worker) : Worker :=
  on_providerData (fun p => set_vm (set_vmId v (pd_vm p)) p) w.

Definition fetched (s : @St C) (c1 : C) (r : CloudResource) : St :=
  {| worker := with_vmId (res_vmId r) (worker s); world := c1;
     trace := trace s
              ++ [ {| at_worker := worker s;
                      event := Get virtualMachines
                                 (pd_resourceGroupName (providerData (worker s)))
                                 (r_name (vm_res (pd_vm (providerData (worker s)))))
                                 (inr r) |};
                   {| at_worker := worker s;
                      event := Update (with_vmId (res_vmId r) (worker s)) |} ];
     seen := seen s; errors := errors s |}.

(** What [registerWorker] goes on to do once the document has yielded
    [payload] (lines 341-395). *)
Definition after_parsing (payload : Payload) : M Registration :=
  bind getWorker
    (fun w =>
       bind (if negb (truthy_str (vm_vmId (pd_vm (providerData w)))) then
               bind (fetchVmInfo cloud) (fun info => ret info.2)
             else ret (vm_vmId (pd_vm (providerData w))))
         (fun workerVmId =>
            match payload with
            | JsonNull =>
              throw (TypeError "Cannot read properties of null (reading 'vmId')")
            | JsonValue vmId timeStamp =>
            if negb (vmId_equal vmId workerVmId) then reject "vmId mismatch"
            else
            match timeStamp with
            | None =>
              throw (TypeError "Cannot read properties of undefined (reading 'expiresOn')")
            | Some expiresOn =>
              bind (now cloud)
                (fun t =>
                   if negb (match expiresOn with
                            | Some e => t <? e
                            | None => false
                            end)
                   then reject "Expired message"
                   else
                     bind getWorker
                       (fun w =>
                          if negb (bool_decide (state w = REQUESTED))
                          then reject "Worker was already running."
                          else
                            bind (now cloud) (fun t96 =>
                            bind (now cloud) (fun tre =>
                            let expires :=
                              if truthy_num (pd_reregistrationTimeout (providerData w))
                              then tre + default 0 (pd_reregistrationTimeout (providerData w))
                              else t96 + hours96 in
                            bind (emit LogWorkerRunning) (fun _ =>
                            bind (now cloud) (fun t =>
                            bind (update
                                    (fun w =>
                                       on_providerData (set_terminateAfter (Some expires))
                                         (set_state RUNNING (set_lastModified t w))))
                              (fun _ =>
                            bind getWorker (fun w =>
                            ret {| reg_expires := expires;
                                   reg_workerConfig :=
                                     pd_workerConfig (providerData w) |}))))))))
            end end)).

(** The state after the refusal of a duplicate registration was logged. *)
Definition already_running (s : @St C) : St :=
  {| worker := worker s; world := world s;
     trace := trace s
              ++ [ {| at_worker := worker s;
                      event := LogRegistrationErrorWarning "Worker was already running." |} ];
     seen := seen s; errors := errors s |}.

(** Only [providerData] may differ between the two records. *)
Definition providerData_only (w w' : Worker) : Prop :=
  w' = set_providerData (providerData w') w.

(** Not a create request. *)
Definition not_a_create (e : Entry) : Prop :=
  match event e with
  | BeginCreateOrUpdate _ _ _ _ _ => False
  | _ => True
  end.

Definition any_entry (e : Entry) : Prop := True.

(** The entries the removal steps, the poller and the vmId fetch make: a
    GET, a delete request, a poll, a write of the row, the log entry of
    [removeWorker]. *)
Definition footprint_entry (e : Entry) : Prop :=
  match event e with
  | Get _ _ _ _ | BeginDeleteMethod _ _ _ _ | OpRead _ _ | Update _
  | LogWorkerRemoved _ => True
  | _ => False
  end.

(** The [terminateAfter] a registration at time [t] gives the worker: the
    pool's [reregistrationTimeout] from now if there is one, 96 hours from
    now otherwise. *)
Definition lease (w : Worker) (t : Z) : Z :=
  if truthy_num (pd_reregistrationTimeout (providerData w))
  then t + default 0 (pd_reregistrationTimeout (providerData w))
  else t + hours96.

(** The record a registration at time [t] writes, and the state after it. *)
Definition run_from (w : Worker) (t : Z) : Worker :=
  on_providerData (set_terminateAfter (Some (lease w t)))
                  (set_state RUNNING (set_lastModified t w)).

Definition registered (s : @St C) : St :=
  let t := api_now cloud (world s) in
  {| worker := run_from (worker s) t; world := world s;
     trace := trace s
              ++ [ {| at_worker := worker s; event := LogWorkerRunning |};
                   {| at_worker := worker s; event := Update (run_from (worker s) t) |} ];
     seen := seen s; errors := errors s |}.

(** The state after a registration was refused with the log message [msg]. *)
Definition refused (msg : string) (s : @St C) : St :=
  {| worker := worker s; world := world s;
     trace := trace s
              ++ [ {| at_worker := worker s; event := LogRegistrationErrorWarning msg |} ];
     seen := seen s; errors := errors s |}.

(** The payload can be read and carries a vmId other than [v]. *)
Definition foreign (payload : Payload) (v : option string) : Prop :=
  exists vmId timeStamp, payload = JsonValue vmId timeStamp /\ vmId <> v.

(** The payload carries the vmId [v] and a [timeStamp] whose [expiresOn] is
    no date, or a date not later than [t]. *)
Definition stale (payload : Payload) (v : option string) (t : Z) : Prop :=
  exists expiresOn,
    payload = JsonValue v (Some expiresOn)
    /\ forall e, expiresOn = Some e -> (e <= t)%Z.

(** The checks cannot read the payload: it is [null], or it carries the
    vmId [v] but no [timeStamp]. *)
Definition unreadable (payload : Payload) (v : option string) : Prop :=
  payload = JsonNull \/ payload = JsonValue v None.

(** The scanner's test of a healthy VM (lines 722-725). *)
Definition healthy (r : CloudResource) (powerStates : list string) : bool :=
  has successProvisioningStates (res_provisioningState r)
  && some_in successPowerStates powerStates.

(** [worker.capacity || 1] *)
Definition capacity_or_one (w : Worker) : Z :=
  if truthy_num (capacity w) then default 1 (capacity w) else 1.

(** [terminateAfter] is set and lies before [t]. *)
Definition overdue (w : Worker) (t : Z) : bool :=
  truthy_num (pd_terminateAfter (providerData w))
  && (default 0 (pd_terminateAfter (providerData w)) <? t).

(** A look at the cloud or a write of the row: no request that changes the
    cloud, no log entry, no error report. *)
Definition calm (e : Entry) : Prop :=
  match event e with
  | Get _ _ _ _ | InstanceView _ _ _ | Update _ => True
  | _ => False
  end.

(** The scanner's test of a failed VM (lines 740-742). *)
Definition failing (r : CloudResource) (powerStates : list string) : bool :=
  has failProvisioningStates (res_provisioningState r)
  || some_in failPowerStates powerStates.

(** The report the scanner files for a VM it cannot classify. *)
Definition unknown_state_report (r : CloudResource) (powerStates : list string)
  : ErrorReport :=
  {| er_kind := "creation-error";
     er_title := "Encountered unknown VM provisioningState or powerStates";
     er_description := "Unknown provisioningState " +:+ show (res_provisioningState r)
                       +:+ " or powerStates: " +:+ join ", " powerStates;
     er_code := None |}.

(** The error reports filed among the entries [d], oldest first. *)
Definition reports_of (d : list Entry) : list ErrorReport :=
  omap (fun e => match event e with ReportError report => Some report | _ => None end) d.

(** [calm], or an error report. *)
Definition calm_or_report (e : Entry) : Prop :=
  match event e with
  | Get _ _ _ _ | InstanceView _ _ _ | Update _ | ReportError _ => True
  | _ => False
  end.

(** Only [providerData.disks] may differ between the two records. *)
Definition disks_only (w w' : Worker) : Prop :=
  w' = on_providerData (set_disks (pd_disks (providerData w'))) w.

(** What [removeResource] writes to a resource it has found gone. *)
Definition forget (r : Resource) : Resource :=
  set_id (JBool false) (set_operation JUndef r).

(** The cloud says of every VM it is asked for that it is being deleted. *)
Definition vm_being_deleted : Prop :=
  forall rg name c,
    exists r c', api_get cloud virtualMachines rg name c = (inr r, c')
                 /\ has deletingStates (res_provisioningState r) = true.

(** The log entry of [removeWorker], or a GET of the VM. *)
Definition waiting (e : Entry) : Prop :=
  match event e with
  | LogWorkerRemoved _ | Get virtualMachines _ _ _ => True
  | _ => False
  end.

(** [this.errors] after [report] was pushed for [pool]; a missing map or
    list is created first. *)
Definition pushed (pool : string) (report : ErrorReport)
    (errs : option (gmap string (list ErrorReport)))
  : option (gmap string (list ErrorReport)) :=
  Some (<[pool := default [] (default ∅ errs !! pool) ++ [report]]> (default ∅ errs)).

(** A create request among the entries of one [provisionResource] call: it
    goes to the call's client, for the resource of the call's type as the
    row names it, with the call's configuration, and the row is the one the
    call was given. *)
Definition create_of (client : Client) (ty : ResourceType) (cfg : ResourceConfig)
    (w : Worker) (e : Entry) : Prop :=
  match event e with
  | BeginCreateOrUpdate c rg name body _ =>
    c = client /\ rg = pd_resourceGroupName (providerData w)
    /\ name = r_name (typeData (providerData w) ty)
    /\ body_config body = cfg /\ at_worker e = w
  | _ => True
  end.

(** A create request is in order when the row it was issued for holds what
    the request builds on: the ip's id for a network interface, whose body
    must name that ip; the network interface's id for a VM, whose body must
    be the row's [vm.config]; nothing for an ip.  Disks are never created. *)
Definition in_order (e : Entry) : Prop :=
  match event e with
  | BeginCreateOrUpdate c rg name body _ =>
    let p := providerData (at_worker e) in
    rg = pd_resourceGroupName p
    /\ match c with
       | publicIPAddresses =>
         name = r_name (pd_ip p)
         /\ body_config body = IpConfig (pd_location p) "Dynamic"
       | networkInterfaces =>
         name = r_name (pd_nic p)
         /\ truthy (r_id (pd_ip p)) = true
         /\ body_config body
            = NicConfig (pd_location p)
                [ {| ipc_name := r_name (pd_nic p);
                     ipc_privateIPAllocationMethod := "Dynamic";
                     ipc_subnet_id := pd_subnet_id p;
                     ipc_publicIPAddress_id := r_id (pd_ip p) |} ]
       | virtualMachines =>
         name = r_name (vm_res (pd_vm p))
         /\ truthy (r_id (pd_nic p)) = true
         /\ exists adminUsername adminPassword,
             body_config body
             = VmConfigWithSecrets (vm_config (pd_vm p)) adminUsername adminPassword
       | disks => False
       end
  | _ => True
  end.

(** The report [provisionResources] files for an error of the pipeline. *)
Definition creation_error_report (err : Err) : ErrorReport :=
  {| er_kind := "creation-error"; er_title := "VM Creation Error";
     er_description := message err; er_code := None |}.

(** Every pool counted in [this.seen] has a list in [this.errors]. *)
Definition covered (s : @St C) : Prop :=
  exists sm em,
    seen s = Some sm /\ errors s = Some em
    /\ forall pool, is_Some (sm !! pool) -> is_Some (em !! pool).

(** [covered], and [pool] has a list in [this.errors]. *)
Definition covered_at (pool : string) (s : @St C) : Prop :=
  exists sm em,
    seen s = Some sm /\ errors s = Some em
    /\ (forall p, is_Some (sm !! p) -> is_Some (em !! p))
    /\ is_Some (em !! pool).

(** The reason the scanner gives [removeWorker] for a worker in state [st]
    whose VM is not found (lines 773-779). *)
Definition vanished_reason (st : WorkerState) : string :=
  match st with
  | STOPPING => "continuing removal"
  | _ => "vm in " +:+ state_name st +:+ " not found"
  end.

(** The resource was found by name in a state that is not a failed one, and
    has an id. *)
Definition usable (r : CloudResource) : Prop :=
  has failProvisioningStates (res_provisioningState r) = false
  /\ truthy (res_id r) = true.

(** A disk of a VM that was found: known by name, to be deleted with the
    worker. *)
Definition attached_disk (name : string) : Resource :=
  {| r_name := name; r_operation := JUndef; r_id := JBool true |}.


Section SignedDocument.

Context {Message Certificate : Type}.
Context (messageFromDer : string -> option Message).
Context (messageParts : Message -> option (string * Certificate * string)).
Context (verify : Certificate -> string -> string -> bool).
Context (verifyCertificateChain : Certificate -> bool).
Context (JSON_parse : string -> option Payload).

(** The document passes the PKCS#7, signature, chain and JSON steps and
    yields [payload]. *)
Definition well_signed (document : string) (payload : Payload) : Prop :=
  exists msg content crt sig,
    messageFromDer document = Some msg
    /\ messageParts msg = Some (content, crt, sig)
    /\ verify crt sig content = true
    /\ verifyCertificateChain crt = true
    /\ JSON_parse content = Some payload.

End SignedDocument.

End Vocabulary.

(** * Scenarios for worked examples *)


Definition old_disk : Resource :=
  {| r_name := "old"; r_operation := JUndef; r_id := JBool false |}.

(** The worker of the test "updates deprecated disk providerdata to disks":
    a legacy [disk] and no [disks]. *)
Definition legacy_start : @St Z :=
  scan_start (sample_worker RUNNING (JBool false) (JBool false) (JBool false)
                            None None (Some old_disk)) 5.

(** A worker that has both the legacy [disk] and a two-element [disks]. *)
Definition legacy_and_disks_start : @St Z :=
  scan_start (sample_worker RUNNING (JBool false) (JBool false) (JBool false)
                            None
                            (Some [ {| r_name := "d0"; r_operation := JUndef;
                                       r_id := JStr "id/d0" |};
                                    {| r_name := "d1"; r_operation := JUndef;
                                       r_id := JStr "id/d1" |} ])
                            (Some old_disk)) 5.

(** A healthy VM: provisioned and running. *)
Definition healthy_cloud : CloudAPI Z :=
  vm_cloud "Succeeded" (Some "vm-1") (inr ["PowerState/running"]).



(** The VM exists but its instance view is not there yet. *)
Definition no_view_cloud : CloudAPI Z :=
  vm_cloud "Succeeded" (Some "vm-1") (inl not_found).

Definition running_start : @St Z :=
  scan_start (sample_worker RUNNING (JStr "id/ip") (JStr "id/nic") (JStr "id/vm")
                            (Some "vm-1") (Some []) None) 5.

(** A requested worker whose ip and nic are allocated and whose VM create
    request has gone out; it has not registered. *)
Definition unregistered_start : @St Z :=
  scan_start (sample_worker REQUESTED (JStr "id/ip") (JStr "id/nic") (JBool false)
                            None (Some []) None) 5.

(** The worker of S3: everything allocated, one disk. *)
Definition allocated_start : @St Z :=
  scan_start (sample_worker RUNNING (JStr "id/ip") (JStr "id/nic") (JStr "id/vm")
                            (Some "vm-1")
                            (Some [ {| r_name := "d0"; r_operation := JUndef;
                                       r_id := JStr "id/d0" |} ])
                            None) 5.

(** A fresh worker: nothing allocated. *)
Definition fresh_start : @St Z :=
  scan_start (sample_worker REQUESTED (JBool false) (JBool false) (JBool false)
                            None (Some []) None) 5.

(** A running worker whose record holds no vmId yet. *)
Definition running_no_vmId_start : @St Z :=
  scan_start (sample_worker RUNNING (JStr "id/ip") (JStr "id/nic") (JStr "id/vm")
                            None (Some []) None) 5.

(** A stand-in for the PKCS#7 machinery: the document is its own content,
    the content "null" is the JSON [null], any other content is the vmId of
    a payload that expires at time 1000. *)
Definition toy_messageFromDer (document : string) : option string :=
  if String.eqb document "" then None else Some document.
Definition toy_messageParts (msg : string) : option (string * unit * string) :=
  Some (msg, tt, "signature").
Definition toy_verify (crt : unit) (sig content : string) : bool :=
  String.eqb sig "signature".
Definition toy_verifyCertificateChain (crt : unit) : bool := true.
Definition toy_JSON_parse (content : string) : option Payload :=
  if String.eqb content "null" then Some JsonNull
  else Some (JsonValue (Some content) (Some (Some 1000))).

Definition toy_registerWorker (cloud : CloudAPI Z) (document : string)
  : @St Z -> outcome Registration * @St Z :=
  registerWorker cloud toy_messageFromDer toy_messageParts toy_verify
                 toy_verifyCertificateChain toy_JSON_parse document.

Definition sample_this : ProviderContext :=
  {| this_providerId := "azure"; this_rootUrl := "https://tc.example.com";
     this_resourceGroupName := "rgrp"; pool_workerPoolId := "foo/bar";
     pool_owner := "whatever@example.com" |}.

(** The launch configuration of the test "provision with custom tags named
    after built-in tags", with one more tag of the user's own. *)
Definition sample_cfg : LaunchConfig :=
  {| capacityPerInstance := 1; lc_subnetId := "some/subnet"; lc_location := "westus";
     lc_tags := Some (<["created-by" := "me!"]> (<["mytag" := "myvalue"]> ∅));
     lc_workerConfig := None;
     lc_osDisk := {| ds_name := Some "my_os_disk"; ds_rest := "{}" |};
     lc_dataDisks := None; lc_rest := "{}" |}.

Definition sample_names : Names :=
  {| virtualMachineName := "vm-abc-def"; computerName := "abc";
     ipAddressName := "pip-abc"; networkInterfaceName := "nic-abc" |}.

Definition sample_provisioned : Worker :=
  match provision_cfg sample_this sample_cfg sample_names (Some 6000) None 5 (5 + week) with
  | Return w => w
  | Throw _ => sample_worker REQUESTED JUndef JUndef JUndef None None None
  end.


Definition provisioned_start : @St Z :=
  {| worker := sample_provisioned; world := 5; trace := [];
     seen := None; errors := None |}.

(** A requested worker whose resources are all allocated and whose vmId is
    on record: it is about to register. *)
Definition requested_start : @St Z :=
  scan_start (sample_worker REQUESTED (JStr "id/ip") (JStr "id/nic") (JStr "id/vm")
                            (Some "vm-1") (Some []) None) 5.

(** The running worker, one millisecond past its [terminateAfter]. *)
Definition overdue_start : @St Z :=
  scan_start (on_providerData (set_terminateAfter (Some 4)) (worker running_start)) 5.

Definition server_error : Err :=
  {| statusCode := Some 500; message := "internal error"; code := Some "InternalError" |}.

(** Every GET and every instance view fails with a 500. *)
Definition broken_cloud : CloudAPI Z :=
  scripted (fun _ => inl server_error) (inl server_error) (inr in_progress).

(** The VM is provisioned but reports no power state yet. *)
Definition silent_cloud : CloudAPI Z :=
  vm_cloud "Succeeded" (Some "vm-1") (inr []).

(** The VM is being deleted. *)
Definition deleting_cloud : CloudAPI Z :=
  vm_cloud "Deleting" (Some "vm-1") (inl not_found).

(** A stopping worker whose delete requests have all gone out: no id is
    left on the row, one disk included. *)
Definition gone_start : @St Z :=
  scan_start (sample_worker STOPPING (JBool false) (JBool false) (JBool false)
                            (Some "vm-1")
                            (Some [ {| r_name := "d0"; r_operation := JUndef;
                                       r_id := JBool false |} ])
                            None) 5.

(** A stopping worker whose VM delete request has gone out; the nic and the
    ip are still there. *)
Definition deleting_start : @St Z :=
  scan_start (sample_worker STOPPING (JStr "id/ip") (JStr "id/nic") (JBool false)
                            (Some "vm-1") (Some []) None) 5.

(** A requested worker whose ip create request has gone out, in a scan that
    has an error list for its pool. *)
Definition pending_start : @St Z :=
  {| worker := on_providerData
                 (set_ip {| r_name := "some ip"; r_operation := JStr "op/some ip";
                            r_id := JBool false |})
                 (worker fresh_start);
     world := 5; trace := [];
     seen := Some (<["foo/bar" := 0]> ∅); errors := Some (<["foo/bar" := []]> ∅) |}.

(** Everything exists: every GET by name finds a provisioned resource. *)
Definition complete_cloud : CloudAPI Z :=
  scripted (fun _ => inr (found "id/found" "Succeeded" (Some "vm-1")))
           (inr ["PowerState/running"]) (inr in_progress).

(** The slugs of a provisioning round: every draw gives the same one. *)
Definition sample_slug (j i : nat) : string := "Yx3_kPq-R0aGmVtb2ZsUQw".

(** A launch configuration that offers no capacity. *)
Definition idle_cfg : LaunchConfig :=
  {| capacityPerInstance := 0; lc_subnetId := "some/subnet"; lc_location := "westus";
     lc_tags := None; lc_workerConfig := None;
     lc_osDisk := {| ds_name := None; ds_rest := "{}" |};
     lc_dataDisks := None; lc_rest := "{}" |}.


(** * Properties *)

Section Properties.

Context {C : Type} (cloud : CloudAPI C).

(* States and computations are over the world [C] throughout. *)
Local Abbreviation St := (@St C).
Local Abbreviation M := (@M C).

Implicit Types s : St.

(** ** A weakest-precondition reading of the monad

    [wp m s Q]: running [m] from [s] ends, with a value or an exception, in
    a state that satisfies [Q]. *)

Lemma wp_mono {A} (m : M A) s (Q Q' : outcome A -> St -> Prop) :
  wp m s Q -> (forall r s', Q r s' -> Q' r s') -> wp m s Q'.
Proof. unfold wp. auto. Qed.

Lemma wp_ret {A} (a : A) s (Q : outcome A -> St -> Prop) :
  Q (Return a) s -> wp (ret a) s Q.
Proof. auto. Qed.

Lemma wp_throw {A} e s (Q : outcome A -> St -> Prop) :
  Q (Throw e) s -> wp (throw e) s Q.
Proof. auto. Qed.

Lemma wp_bind {A B} (m : M A) (k : A -> M B) s (Q : outcome B -> St -> Prop) :
  wp m s (fun r s' => match r with
                      | Return a => wp (k a) s' Q
                      | Throw e => Q (Throw e) s'
                      end) ->
  wp (bind m k) s Q.
Proof. unfold wp, bind. destruct (m s) as [[a|e] s']; auto. Qed.

Lemma wp_try_catch {A} (m : M A) (h : Err -> M A) s (Q : outcome A -> St -> Prop) :
  wp m s (fun r s' => match r with
                      | Return a => Q (Return a) s'
                      | Throw e => wp (h e) s' Q
                      end) ->
  wp (try_catch m h) s Q.
Proof. unfold wp, try_catch. destruct (m s) as [[a|e] s']; auto. Qed.

Lemma wp_getWorker s (Q : outcome Worker -> St -> Prop) :
  Q (Return (worker s)) s -> wp getWorker s Q.
Proof. auto. Qed.

Lemma wp_now s (Q : outcome Z -> St -> Prop) :
  Q (Return (api_now cloud (world s))) s -> wp (now cloud) s Q.
Proof. auto. Qed.

Lemma wp_WorkerPool_get s (Q : outcome bool -> St -> Prop) :
  Q (Return (api_workerPool cloud (world s))) s -> wp (WorkerPool_get cloud) s Q.
Proof. auto. Qed.

Lemma wp_get_seen s (Q : outcome _ -> St -> Prop) :
  Q (Return (seen s)) s -> wp get_seen s Q.
Proof. auto. Qed.

Lemma wp_get_errors s (Q : outcome _ -> St -> Prop) :
  Q (Return (errors s)) s -> wp get_errors s Q.
Proof. auto. Qed.

Lemma wp_workerConfigWithSecrets cfg s (Q : outcome ResourceConfig -> St -> Prop) :
  Q (Return (VmConfigWithSecrets cfg (api_secrets cloud (world s)).1
                                     (api_secrets cloud (world s)).2)) s ->
  wp (workerConfigWithSecrets cloud cfg) s Q.
Proof.
  unfold wp, workerConfigWithSecrets.
  destruct (api_secrets cloud (world s)); auto.
Qed.

Lemma wp_emit ev s (Q : outcome unit -> St -> Prop) :
  (forall s', step_to s (worker s) (world s) ev s' -> Q (Return tt) s') ->
  wp (emit ev) s Q.
Proof. intros H. apply H. repeat split. Qed.

Lemma wp_reportError kind title description s (Q : outcome unit -> St -> Prop) :
  (forall s', step_to s (worker s) (world s)
                (ReportError {| er_kind := kind; er_title := title;
                                er_description := description; er_code := None |}) s' ->
              Q (Return tt) s') ->
  wp (reportError kind title description) s Q.
Proof. apply wp_emit. Qed.

Lemma wp_update f s (Q : outcome unit -> St -> Prop) :
  (forall s', step_to s (f (worker s)) (world s) (Update (f (worker s))) s' ->
              Q (Return tt) s') ->
  wp (update f) s Q.
Proof. intros H. apply H. repeat split. Qed.

Lemma wp_enqueue {A} (call : C -> (Err + A) * C) ev s (Q : outcome A -> St -> Prop) :
  (forall e c' s',
      call (world s) = (inl e, c') ->
      step_to s (worker s) c' (ev (inl e)) s' -> Q (Throw e) s') ->
  (forall a c' s',
      call (world s) = (inr a, c') ->
      step_to s (worker s) c' (ev (inr a)) s' -> Q (Return a) s') ->
  wp (enqueue call ev) s Q.
Proof.
  intros He Ha. unfold wp, enqueue.
  destruct (call (world s)) as [[e|a] c'] eqn:E.
  - eapply He; [done|]. repeat split.
  - eapply Ha; [done|]. repeat split.
Qed.

Lemma wp_set_seen m s (Q : outcome unit -> St -> Prop) :
  (forall s', silent s s' -> seen s' = m -> errors s' = errors s -> Q (Return tt) s') ->
  wp (set_seen m) s Q.
Proof. intros H. apply H; repeat split. Qed.

Lemma wp_set_errors m s (Q : outcome unit -> St -> Prop) :
  (forall s', silent s s' -> seen s' = seen s -> errors s' = m -> Q (Return tt) s') ->
  wp (set_errors m) s Q.
Proof. intros H. apply H; repeat split. Qed.

(** Structural steps of a [wp] goal. *)
Ltac wp_struct :=
  lazymatch goal with
  | |- wp (bind _ _) _ _ => apply wp_bind
  | |- wp (try_catch _ _) _ _ => apply wp_try_catch
  | |- wp (ret _) _ _ => apply wp_ret
  | |- wp (throw _) _ _ => apply wp_throw
  | |- wp getWorker _ _ => apply wp_getWorker
  | |- wp (now _) _ _ => apply wp_now
  | |- wp (WorkerPool_get _) _ _ => apply wp_WorkerPool_get
  | |- wp get_seen _ _ => apply wp_get_seen
  | |- wp get_errors _ _ => apply wp_get_errors
  | |- wp (workerConfigWithSecrets _ _) _ _ => apply wp_workerConfigWithSecrets
  end;
  cbv beta iota zeta; cbn [worker world trace seen errors].

Ltac wp_case :=
  lazymatch goal with
  | |- wp (if ?b then _ else _) _ _ => destruct b eqn:?
  | |- wp (match ?x with _ => _ end) _ _ => destruct x eqn:?
  end.

(** ** Invariants along a run

    [ext fr ok s0 s]: [s] is reached from [s0] by appending entries to the
    trace; the worker record stayed within [fr] of the one in [s0], at every
    recorded moment too, and every appended entry satisfies [ok]. *)

Section Invariant.

Context (fr : Worker -> Worker -> Prop) `{!PreOrder fr} (ok : Entry -> Prop).

Lemma ext_refl s : ext fr ok s s.
Proof.
  split; [reflexivity|]. exists []. split; [by rewrite app_nil_r | constructor].
Qed.

Lemma ext_trans s1 s2 s3 : ext fr ok s1 s2 -> ext fr ok s2 s3 -> ext fr ok s1 s3.
Proof.
  intros [F1 (d1 & T1 & A1)] [F2 (d2 & T2 & A2)].
  split; [by etrans|].
  exists (d1 ++ d2). split; [by rewrite T2, T1, app_assoc|].
  apply Forall_app. split; [done|].
  eapply Forall_impl; [exact A2|]. intros e [? ?]. split; [by etrans | done].
Qed.

Lemma ext_step s0 s w' c' ev s' :
  ext fr ok s0 s -> step_to s w' c' ev s' ->
  fr (worker s) w' -> ok {| at_worker := worker s; event := ev |} -> ext fr ok s0 s'.
Proof.
  intros H0 (Hw & _ & Ht & _) Hf He.
  eapply ext_trans; [exact H0|].
  split; [by rewrite Hw|].
  eexists. split; [exact Ht|]. repeat constructor; [reflexivity | done].
Qed.

Lemma ext_silent s0 s s' : ext fr ok s0 s -> silent s s' -> ext fr ok s0 s'.
Proof.
  intros [F (d & T & A)] (Hw & _ & Ht).
  split; [by rewrite Hw|]. exists d. by rewrite Ht.
Qed.

Lemma ext_intro {A} (m : M A) :
  (forall s0 s, ext fr ok s0 s -> wp m s (fun _ s' => ext fr ok s0 s')) ->
  forall s, wp m s (fun _ s' => ext fr ok s s').
Proof. intros H s. apply H, ext_refl. Qed.

End Invariant.

Create HintDb frames discriminated.

(** Side conditions of a step: the modifier stays within the frame, the
    entry is acceptable. *)
Ltac frame_solve :=
  cbv beta;
  try solve [ eauto with frames | reflexivity | split; reflexivity
            | etrans; [| solve [eauto] ]; eauto with frames
            | repeat case_match; split; reflexivity ].

Ltac ok_solve := cbv beta; try solve [ exact I | reflexivity | eauto with frames ].

(** Advance the running [ext] hypothesis over the primitive step [Hstep]. *)
Ltac ext_advance Hstep :=
  lazymatch type of Hstep with
  | step_to ?s _ _ _ ?s' =>
    lazymatch goal with
    | Hext : ext ?fr ?ok ?s0 s |- _ =>
      let H := fresh "Hext" in
      assert (H : ext fr ok s0 s')
        by (eapply (ext_step fr ok); [exact Hext | exact Hstep | frame_solve | ok_solve ]);
      clear Hstep
    end
  | silent ?s ?s' =>
    lazymatch goal with
    | Hext : ext ?fr ?ok ?s0 s |- _ =>
      let H := fresh "Hext" in
      assert (H : ext fr ok s0 s') by (exact (ext_silent fr ok _ _ _ Hext Hstep));
      clear Hstep
    end
  end.

Ltac ext_prim :=
  let s' := fresh "s" in
  let Hstep := fresh "Hstep" in
  lazymatch goal with
  | |- wp (emit _) _ _ => apply wp_emit; intros s' Hstep
  | |- wp (reportError _ _ _) _ _ => apply wp_reportError; intros s' Hstep
  | |- wp (update _) _ _ => apply wp_update; intros s' Hstep
  | |- wp (enqueue _ _) _ _ => apply wp_enqueue; intros ? ? s' ? Hstep
  | |- wp (set_seen _) _ _ => apply wp_set_seen; intros s' Hstep ? ?
  | |- wp (set_errors _) _ _ => apply wp_set_errors; intros s' Hstep ? ?
  end;
  ext_advance Hstep; cbv beta iota.

(** Use an already proved [ext] specification of a callee. *)
Ltac ext_call lem :=
  eapply wp_mono; [solve [apply lem; auto with frames]|];
  let r := fresh "r" in
  let s' := fresh "s" in
  let H := fresh "Hcall" in
  intros r s' H; cbv beta in H;
  lazymatch type of H with
  | ext ?fr ?ok ?s _ =>
    lazymatch goal with
    | Hext : ext fr ok ?s0 s |- _ =>
      let H' := fresh "Hext" in
      assert (H' : ext fr ok s0 s') by (exact (ext_trans fr ok _ _ _ Hext H));
      clear H
    end
  end;
  destruct r; cbv beta iota.

(** Calls whose [ext] specification is known; extended as lemmas are proved. *)
Ltac ext_known := fail.

Ltac ext_leaf :=
  lazymatch goal with
  | |- ext _ _ _ _ => assumption
  end.

Ltac ext_go := repeat first [ wp_struct | ext_prim | ext_known | wp_case | ext_leaf ].

Ltac ext_start :=
  lazymatch goal with
  | |- forall s, wp _ s _ => apply ext_intro; [typeclasses eauto|]
  | |- wp _ ?s _ => revert s; apply ext_intro; [typeclasses eauto|]
  end;
  let s0 := fresh "s0" in
  let s := fresh "s" in
  let Hext := fresh "Hext" in
  intros s0 s Hext.

(** ** What no operation touches

    [providerData.tags] and the legacy [providerData.disk] are never
    written, and every create request carries the worker's tags. *)

Global Instance frame_preorder : PreOrder frame.
Proof.
  split.
  - by intros w.
  - intros w1 w2 w3 [] []. split; congruence.
Qed.

Lemma frame_refl w : frame w w.
Proof. done. Qed.

Lemma frame_on_target t f w : frame w (on_providerData (on_target t f) w).
Proof. by destruct t as [[]|]. Qed.

Lemma frame_on_typeData ty f w : frame w (on_providerData (on_typeData ty f) w).
Proof. by destruct ty. Qed.

Lemma frame_nicModifyFunc w r : frame w (nicModifyFunc w r).
Proof. done. Qed.

Lemma frame_vmModifyFunc w r : frame w (vmModifyFunc w r).
Proof. done. Qed.

Hint Resolve frame_refl frame_on_target frame_on_typeData
  frame_nicModifyFunc frame_vmModifyFunc : frames.

Lemma removeResource_kept client target s :
  wp (removeResource cloud client target) s (fun _ s' => ext frame tagged s s').
Proof. ext_start. unfold removeResource. ext_go. Qed.

Ltac ext_known ::=
  lazymatch goal with
  | _ : ext frame tagged _ _ |- wp (removeResource _ _ _) _ _ =>
    ext_call removeResource_kept
  end.

Lemma removeDisks_kept indices acc s :
  wp (removeDisks cloud indices acc) s (fun _ s' => ext frame tagged s s').
Proof.
  revert acc s. induction indices as [|i rest IH]; intros acc s;
    ext_start; cbn [removeDisks]; ext_go.
  ext_call IH; assumption.
Qed.

Lemma removeWorker_kept reason s :
  wp (removeWorker cloud reason) s (fun _ s' => ext frame tagged s s').
Proof.
  ext_start. unfold removeWorker. ext_go.
  ext_call removeDisks_kept; ext_go.
Qed.

Lemma handleOperation_kept op s :
  wp (handleOperation cloud op) s (fun _ s' => ext frame tagged s s').
Proof. ext_start. unfold handleOperation, errors_push. ext_go. Qed.

Ltac ext_known ::=
  lazymatch goal with
  | _ : ext frame tagged _ _ |- wp (removeResource _ _ _) _ _ =>
    ext_call removeResource_kept
  | _ : ext frame tagged _ _ |- wp (removeWorker _ _) _ _ =>
    ext_call removeWorker_kept
  | _ : ext frame tagged _ _ |- wp (handleOperation _ _) _ _ =>
    ext_call handleOperation_kept
  end.

Lemma provisionResource_kept client ty cfg modifyFn s :
  (forall w r, frame w (modifyFn w r)) ->
  wp (provisionResource cloud client ty cfg modifyFn) s
     (fun _ s' => ext frame tagged s s').
Proof. intros Hmod. ext_start. unfold provisionResource. ext_go. Qed.

Lemma provisionResources_kept s :
  wp (provisionResources cloud) s (fun _ s' => ext frame tagged s s').
Proof.
  ext_start. unfold provisionResources. ext_go.
  all: repeat (ext_call provisionResource_kept; ext_go).
Qed.

Lemma fetchVmInfo_kept s :
  wp (fetchVmInfo cloud) s (fun _ s' => ext frame tagged s s').
Proof. ext_start. unfold fetchVmInfo. ext_go. Qed.

Ltac ext_known ::=
  lazymatch goal with
  | _ : ext frame tagged _ _ |- wp (removeWorker _ _) _ _ =>
    ext_call removeWorker_kept
  | _ : ext frame tagged _ _ |- wp (provisionResources _) _ _ =>
    ext_call provisionResources_kept
  | _ : ext frame tagged _ _ |- wp (fetchVmInfo _) _ _ =>
    ext_call fetchVmInfo_kept
  end.

Lemma checkWorker_kept s :
  wp (checkWorker cloud) s (fun _ s' => ext frame tagged s s').
Proof. ext_start. unfold checkWorker, seen_add. ext_go. Qed.

Lemma scanPrepare_kept s :
  wp scanPrepare s (fun _ s' => ext frame tagged s s').
Proof. ext_start. unfold scanPrepare. ext_go. Qed.

Lemma run_op_kept op s : ext frame tagged s (run_op cloud op s).
Proof.
  destruct op; simpl.
  - apply scanPrepare_kept.
  - apply checkWorker_kept.
  - apply provisionResources_kept.
  - apply removeWorker_kept.
Qed.

Lemma run_ops_kept ops s : ext frame tagged s (run_ops cloud ops s).
Proof.
  revert s. induction ops as [|op ops IH]; intros s; simpl.
  - apply ext_refl, _.
  - eapply ext_trans; [apply _ | apply run_op_kept | apply IH].
Qed.

(** ** Tag authority *)

Lemma reserved_tags_reserved this workerGroup user key :
  key ∈ reserved_keys ->
  reserved_tags this workerGroup user !! key = computed_tag this workerGroup key.
Proof.
  unfold reserved_keys. rewrite !elem_of_cons, elem_of_nil.
  intros H. unfold reserved_tags.
  repeat (destruct H as [->|H]; [by simplify_map_eq|]). done.
Qed.

Lemma reserved_tags_other this workerGroup user key :
  key ∉ reserved_keys ->
  reserved_tags this workerGroup user !! key = user !! key.
Proof.
  unfold reserved_keys. rewrite !not_elem_of_cons.
  intros (?&?&?&?&?&?&?&_). unfold reserved_tags.
  by rewrite !lookup_insert_ne.
Qed.

Lemma provision_cfg_tags this cfg names ta rt created expires w :
  provision_cfg this cfg names ta rt created expires = Return w ->
  pd_tags (providerData w)
  = reserved_tags this (lc_location cfg) (default ∅ (lc_tags cfg)).
Proof.
  unfold provision_cfg. destruct (String.eqb _ _); [done|].
  by intros [= <-].
Qed.

(** C7 -- Tag authority.  Take the worker record that [provision] creates
    for any launch configuration and let the provider run any sequence of
    operations on it against any cloud.  In every [beginCreateOrUpdate]
    request that is issued, each reserved key carries the value the provider
    computed, whatever the user put under that key in [cfg.tags], and every
    other key carries exactly what [cfg.tags] has for it. *)
Theorem tag_authority this cfg names ta rt created expires w c sn er ops
    e client rg name body ans :
  provision_cfg this cfg names ta rt created expires = Return w ->
  e ∈ trace (run_ops cloud ops
               {| worker := w; world := c; trace := []; seen := sn; errors := er |}) ->
  event e = BeginCreateOrUpdate client rg name body ans ->
  (forall key, key ∈ reserved_keys ->
               body_tags body !! key = computed_tag this (lc_location cfg) key)
  /\ (forall key, key ∉ reserved_keys ->
                  body_tags body !! key = default ∅ (lc_tags cfg) !! key).
Proof.
  intros Hprov Hin Hev.
  destruct (run_ops_kept ops {| worker := w; world := c; trace := [];
                                seen := sn; errors := er |})
    as [_ (d & Hd & Hall)].
  simpl in Hd. rewrite Hd in Hin.
  rewrite Forall_forall in Hall. destruct (Hall e Hin) as [[Htags _] Hok].
  unfold tagged in Hok. rewrite Hev in Hok.
  rewrite Hok, Htags. simpl.
  rewrite (provision_cfg_tags _ _ _ _ _ _ _ _ Hprov).
  split; intros key Hkey.
  - by apply reserved_tags_reserved.
  - by apply reserved_tags_other.
Qed.

(** ** Legacy disk migration *)

(** C3 (as amended) -- Legacy disk migration.  For every worker whose
    [providerData] has the legacy [disk] field, whether or not [disks] is
    there already, the first thing a [checkWorker] pass does is to write a
    record whose [disks] is the one-element sequence holding the old [disk]
    value; that write keeps the legacy field, and the field is still there,
    with the same value, when the pass ends. *)
Theorem legacy_disk_migration d s :
  pd_disk (providerData (worker s)) = Some d ->
  (exists w' rest,
      trace (checkWorker cloud s).2
      = trace s ++ {| at_worker := worker s; event := Update w' |} :: rest
      /\ pd_disks (providerData w') = Some [d]
      /\ pd_disk (providerData w') = Some d)
  /\ pd_disk (providerData (worker (checkWorker cloud s).2)) = Some d.
Proof.
  intros Hd. split.
  - change (wp (checkWorker cloud) s
              (fun _ s' =>
                 exists w' rest,
                   trace s' = trace s ++ {| at_worker := worker s; event := Update w' |} :: rest
                   /\ pd_disks (providerData w') = Some [d]
                   /\ pd_disk (providerData w') = Some d)).
    unfold checkWorker. do 2 wp_struct. rewrite Hd. wp_struct.
    apply wp_update. intros s1 (Hw & _ & Ht & _). cbv beta iota.
    eapply wp_mono with (Q := fun _ s' => ext frame tagged s1 s').
    + pose proof (ext_refl frame tagged s1) as Hext.
      unfold seen_add. ext_go.
    + intros _ s' [_ (rest & Hrest & _)].
      eexists _, rest. split; [|split].
      * by rewrite Hrest, Ht, <- app_assoc.
      * reflexivity.
      * exact Hd.
  - destruct (checkWorker_kept s) as [[_ Hdisk] _]. by rewrite Hdisk.
Qed.

(** ** A stopped worker *)

Global Instance steady_preorder : PreOrder steady.
Proof.
  split.
  - by intros w.
  - intros w1 w2 w3 [] []. split; congruence.
Qed.

Lemma removeWorker_stopped reason s :
  state (worker s) = STOPPED ->
  removeWorker cloud reason s
  = (Return STOPPED,
     {| worker := worker s; world := world s;
        trace := trace s ++ [ {| at_worker := worker s;
                                 event := LogWorkerRemoved reason |} ];
        seen := seen s; errors := errors s |}).
Proof.
  intros H. unfold removeWorker, bind, emit, getWorker. simpl.
  by rewrite bool_decide_eq_true_2.
Qed.

Lemma removeWorker_stopped_steady reason s :
  state (worker s) = STOPPED ->
  wp (removeWorker cloud reason) s
     (fun r s' => r = Return STOPPED /\ ext steady quiet s s').
Proof.
  intros H. unfold wp. rewrite removeWorker_stopped by done. simpl.
  split; [done|]. split; [done|].
  eexists. split; [done|]. by repeat constructor.
Qed.

Lemma fetchVmInfo_steady s :
  wp (fetchVmInfo cloud) s (fun _ s' => ext steady quiet s s').
Proof. ext_start. unfold fetchVmInfo. ext_go. Qed.

Lemma steady_stopped s0 s :
  ext steady quiet s0 s -> state (worker s0) = STOPPED -> state (worker s) = STOPPED.
Proof. intros [[[= -> _] _] _]. done. Qed.

Lemma steady_final t a w :
  state w = a ->
  steady w (set_state a
              (set_lastChecked t
                 (if bool_decide (state w = a) then w else set_lastModified t w))).
Proof. intros <-. by rewrite bool_decide_eq_true_2. Qed.

(** Every state on the way of a stopped worker is a stopped one. *)
Ltac stopped_facts :=
  repeat match goal with
         | Hext : ext steady quiet ?s0 ?s, H0 : state (worker ?s0) = STOPPED |- _ =>
           lazymatch goal with
           | _ : state (worker s) = STOPPED |- _ => fail
           | _ => pose proof (steady_stopped s0 s Hext H0)
           end
         end.

Ltac stopped_solve := stopped_facts; congruence.

Hint Extern 2 (steady _ (set_state _ _)) =>
  apply steady_final; stopped_solve : frames.

Ltac ext_known ::=
  lazymatch goal with
  | _ : ext frame tagged _ ?s |- wp (removeResource _ _ _) ?s _ =>
    ext_call removeResource_kept
  | _ : ext frame tagged _ ?s |- wp (removeDisks _ _ _) ?s _ =>
    ext_call removeDisks_kept
  | _ : ext frame tagged _ ?s |- wp (removeWorker _ _) ?s _ =>
    ext_call removeWorker_kept
  | _ : ext frame tagged _ ?s |- wp (provisionResources _) ?s _ =>
    ext_call provisionResources_kept
  | _ : ext frame tagged _ ?s |- wp (fetchVmInfo _) ?s _ =>
    ext_call fetchVmInfo_kept
  | _ : ext steady quiet _ ?s |- wp (fetchVmInfo _) ?s _ =>
    ext_call fetchVmInfo_steady
  | Hext : ext steady quiet ?s0 ?s |- wp (removeWorker _ _) ?s _ =>
    eapply wp_mono; [apply removeWorker_stopped_steady; stopped_solve|];
    let s' := fresh "s" in
    let H := fresh "Hcall" in
    intros ? s' [-> H];
    pose proof (ext_trans steady quiet _ _ _ Hext H);
    clear H; cbv beta iota
  | _ : ext steady quiet _ ?s |- wp (provisionResources _) ?s _ =>
    exfalso; stopped_solve
  end.



(** ** Removal ordering *)

Global Instance same_names_preorder : PreOrder same_names.
Proof.
  split.
  - by intros w.
  - intros w1 w2 w3 [R1 N1] [R2 N2]. split; [congruence|].
    intros ty. by rewrite N2, N1.
Qed.

Global Instance prereq_same_preorder client : PreOrder (prereq_same client).
Proof.
  split.
  - intros w. split; reflexivity.
  - intros w1 w2 w3 [I1 N1] [I2 N2]. split; [congruence | by etrans].
Qed.

(** A write to one resource triple that keeps its name stays within the
    frame of its own client. *)
Lemma prereq_same_on_target t f w :
  (forall r, r_name (f r) = r_name r) ->
  prereq_same (client_of t) w (on_providerData (on_target t f) w).
Proof.
  intros Hf. split; [by destruct t as [[]|]|].
  split; [by destruct t as [[]|]|].
  intros ty. destruct t as [[]|], ty; simpl; auto.
Qed.

Hint Extern 1 (prereq_same _ _ (on_providerData (on_target _ _) _)) =>
  apply prereq_same_on_target; intros; repeat case_match; reflexivity : frames.

Lemma found_gone_app_l client rg name d1 d2 :
  found_gone client rg name d1 -> found_gone client rg name (d1 ++ d2).
Proof.
  intros (e & err & Hin & He & Hc). exists e, err. rewrite elem_of_app. auto.
Qed.

Lemma found_gone_app_r client rg name d1 d2 :
  found_gone client rg name d2 -> found_gone client rg name (d1 ++ d2).
Proof.
  intros (e & err & Hin & He & Hc). exists e, err. rewrite elem_of_app. auto.
Qed.

Lemma verified_gone_app_l w client d1 d2 :
  verified_gone w client d1 -> verified_gone w client (d1 ++ d2).
Proof. intros (res & Hres & Hg). exists res. split; [done | by apply found_gone_app_l]. Qed.

Lemma verified_gone_app_r w client d1 d2 :
  verified_gone w client d2 -> verified_gone w client (d1 ++ d2).
Proof. intros (res & Hres & Hg). exists res. split; [done | by apply found_gone_app_r]. Qed.

(** What was found gone for a row was found gone for every later version of
    it: the names are the same. *)
Lemma verified_gone_names w w' client d :
  same_names w w' -> verified_gone w client d -> verified_gone w' client d.
Proof.
  intros [Hrg Hn] (res & Hres & Hg).
  pose proof (Hn vm) as Hvm. pose proof (Hn nic) as Hnic. pose proof (Hn ip) as Hip.
  cbn [typeData] in Hvm, Hnic, Hip.
  destruct client; simpl in Hres; simplify_eq; eexists; (split; [reflexivity|]);
    rewrite Hrg; [by rewrite Hip | by rewrite Hnic | by rewrite Hvm].
Qed.

Lemma verified_gone_single ty w d res :
  target_resource (Single ty) w = Some res ->
  found_gone (client_of (Single ty)) (pd_resourceGroupName (providerData w)) (r_name res) d ->
  verified_gone w (client_of (Single ty)) d.
Proof. intros [= <-] Hg. exists (typeData (providerData w) ty). by destruct ty. Qed.

Lemma delete_allowed_app pre0 pre e :
  delete_allowed pre e -> delete_allowed (pre0 ++ pre) e.
Proof.
  unfold delete_allowed. destruct (event e); auto.
  destruct (prerequisite client); auto.
  intros [? ?]. split; [by apply verified_gone_app_r | done].
Qed.

Lemma ordered_nil : ordered [].
Proof. intros i e. by rewrite lookup_nil. Qed.

Lemma ordered_app d1 d2 : ordered d1 -> ordered d2 -> ordered (d1 ++ d2).
Proof.
  intros H1 H2 i e. rewrite lookup_app_Some. intros [Hi|[Hle Hi]].
  - rewrite take_app_le by (apply Nat.lt_le_incl; by eapply lookup_lt_Some).
    by apply H1.
  - rewrite take_app_ge by done. apply delete_allowed_app. by apply H2.
Qed.

(** A run of entries for one client, issued while the prerequisite was
    verified gone and its [id] cleared, keeps the trace ordered. *)
Lemma ordered_segment client d seg w :
  ordered d ->
  match prerequisite client with
  | Some p => verified_gone w p d /\ truthy (prereq_id client w) = false
  | None => True
  end ->
  Forall (fun e => prereq_same client w (at_worker e) /\ of_client client e) seg ->
  ordered (d ++ seg).
Proof.
  intros Hd Hpre Hseg i e. rewrite lookup_app_Some. intros [Hi|[Hle Hi]].
  - rewrite take_app_le by (apply Nat.lt_le_incl; by eapply lookup_lt_Some).
    by apply Hd.
  - rewrite take_app_ge by done.
    rewrite Forall_lookup in Hseg. destruct (Hseg _ _ Hi) as [Hsame Hcl].
    unfold delete_allowed. unfold of_client in Hcl.
    destruct (event e); auto. subst client0.
    destruct (prerequisite client); [|done].
    destruct Hpre as [Hg Hid]. destruct Hsame as [Hsame Hnames].
    split; [by eapply verified_gone_app_l, verified_gone_names|].
    by rewrite Hsame.
Qed.

Lemma ordered_snoc d e :
  ordered d ->
  match event e with BeginDeleteMethod _ _ _ _ => False | _ => True end ->
  ordered (d ++ [e]).
Proof.
  intros Hd He. apply ordered_app; [done|].
  intros [|i] e'; simpl; [|by rewrite lookup_nil].
  intros [= <-]. unfold delete_allowed. by destruct (event e).
Qed.

Lemma removeResource_staged target s :
  wp (removeResource cloud (client_of target) target) s
     (fun _ s' => ext (prereq_same (client_of target)) (of_client (client_of target)) s s').
Proof. ext_start. unfold removeResource. ext_go. Qed.

(** [removeResource] answers [true] only after a 404 on its GET, which asks
    for the resource the row names, in the row's resource group. *)
Lemma removeResource_true client target s :
  wp (removeResource cloud client target) s
     (fun r s' =>
        r = Return true ->
        exists d res,
          trace s' = trace s ++ d
          /\ target_resource target (worker s) = Some res
          /\ found_gone client (pd_resourceGroupName (providerData (worker s)))
                        (r_name res) d).
Proof.
  unfold removeResource.
  repeat first
    [ wp_struct | wp_case
    | lazymatch goal with
      | |- wp (enqueue _ _) _ _ => apply wp_enqueue; intros ? ? ? ? ?
      | |- wp (update _) _ _ => apply wp_update; intros ? ?
      | |- _ = Return true -> _ => intros [=]
      end ].
  all: try discriminate.
  all: lazymatch goal with
       | H0 : step_to _ _ _ (Get _ _ _ (inl ?e)) ?s1, H1 : step_to ?s1 _ _ _ _,
         Hb : bool_decide (statusCode ?e = Some 404) = true |- _ =>
         destruct H0 as (_ & _ & Ht0 & _); destruct H1 as (_ & _ & Ht1 & _);
         apply bool_decide_eq_true_1 in Hb
       end.
  all: eexists _, _; split; [by rewrite Ht1, Ht0, <- app_assoc|].
  all: split; [cbn [target_resource]; by simplify_option_eq|].
  all: eexists _, _; split; [apply list_elem_of_here|]; split; [reflexivity|done].
Qed.

Lemma wp_and {A} (m : M A) s (Q1 Q2 : outcome A -> St -> Prop) :
  wp m s Q1 -> wp m s Q2 -> wp m s (fun r s' => Q1 r s' /\ Q2 r s').
Proof. unfold wp. auto. Qed.

Lemma removeResource_staged_disks i s :
  wp (removeResource cloud disks (Disks i)) s
     (fun _ s' => ext (prereq_same disks) (of_client disks) s s').
Proof. exact (removeResource_staged (Disks i) s). Qed.

Lemma removeDisks_staged indices acc s :
  wp (removeDisks cloud indices acc) s
     (fun _ s' => ext (prereq_same disks) (of_client disks) s s').
Proof.
  revert acc s. induction indices as [|i rest IH]; intros acc s;
    ext_start; cbn [removeDisks]; ext_go.
  ext_call removeResource_staged_disks; [ext_call IH|]; assumption.
Qed.

Lemma stage_removeResource ty s0 s :
  stage (client_of (Single ty)) s0 s ->
  wp (removeResource cloud (client_of (Single ty)) (Single ty)) s
     (fun r s' =>
        stage (client_of (Single ty)) s0 s'
        /\ (r = Return true ->
            exists d, trace s' = trace s0 ++ d /\ ordered d
                      /\ verified_gone (worker s') (client_of (Single ty)) d)).
Proof.
  intros (d & Hd & Hord & Hpre).
  eapply wp_mono;
    [exact (wp_and _ _ _ _ (removeResource_staged (Single ty) s)
                   (removeResource_true (client_of (Single ty)) (Single ty) s))|].
  intros r s' [[[Hsame Hnames] (seg & Hseg & Hall)] Htrue]. cbv beta in *.
  assert (Hord' : ordered (d ++ seg)) by (by eapply ordered_segment).
  split.
  - exists (d ++ seg). split; [by rewrite Hseg, Hd, app_assoc|]. split; [done|].
    destruct (prerequisite (client_of (Single ty))); [|done].
    destruct Hpre as [Hg Hid].
    split; [by eapply verified_gone_app_l, verified_gone_names|].
    by rewrite Hsame.
  - intros Hr. destruct (Htrue Hr) as (seg' & res & Hseg' & Hres & Hg).
    rewrite Hseg in Hseg'. apply app_inv_head in Hseg'. subst seg'.
    exists (d ++ seg). split; [by rewrite Hseg, Hd, app_assoc|]. split; [done|].
    eapply verified_gone_app_r, verified_gone_names; [exact Hnames|].
    by eapply verified_gone_single.
Qed.

Lemma stage_ordered client s0 s : stage client s0 s -> ordered_since s0 s.
Proof. intros (d & ? & ? & _). by exists d. Qed.

Lemma stage_ext client s0 s s' :
  stage client s0 s ->
  ext (prereq_same client) (of_client client) s s' ->
  stage client s0 s'.
Proof.
  intros (d & Hd & Hord & Hpre) [[Hsame Hnames] (seg & Hseg & Hall)].
  exists (d ++ seg). split; [by rewrite Hseg, Hd, app_assoc|].
  split; [by eapply ordered_segment|].
  destruct (prerequisite client); [|done].
  destruct Hpre as [Hg Hid].
  split; [by eapply verified_gone_app_l, verified_gone_names|].
  by rewrite Hsame.
Qed.

Lemma ordered_since_silent s0 s s' :
  ordered_since s0 s -> silent s s' -> ordered_since s0 s'.
Proof. intros (d & Hd & Hord) (_ & _ & Ht). exists d. by rewrite Ht. Qed.

Lemma ordered_since_step s0 s w' c' ev s' :
  ordered_since s0 s -> step_to s w' c' ev s' ->
  match ev with BeginDeleteMethod _ _ _ _ => False | _ => True end ->
  ordered_since s0 s'.
Proof.
  intros (d & Hd & Hord) (_ & _ & Ht & _) Hev.
  exists (d ++ [ {| at_worker := worker s; event := ev |} ]).
  split; [by rewrite Ht, Hd, app_assoc|]. by apply ordered_snoc.
Qed.

(** The [catch] block of [removeWorker] only records the error. *)
Lemma removeWorker_catch_ordered s0 s err :
  ordered_since s0 s ->
  wp (bind getWorker
        (fun w =>
           bind get_errors
             (fun errs =>
                let m := default ∅ errs in
                let l := default [] (m !! workerPoolId w) in
                bind (set_errors (Some (<[workerPoolId w := (l ++ [deletion_error err])%list]> m)))
                     (fun _ => ret STOPPING)))) s
     (fun _ s' => ordered_since s0 s').
Proof.
  intros H. repeat wp_struct. apply wp_set_errors. intros s' Hsil _ _.
  cbv beta iota. wp_struct. by eapply ordered_since_silent.
Qed.

(** One invocation of [removeWorker] appends an ordered run of entries. *)
Lemma removeWorker_ordered reason s :
  wp (removeWorker cloud reason) s (fun _ s' => ordered_since s s').
Proof.
  unfold removeWorker. wp_struct. apply wp_emit. intros s1 Hlog. cbv beta iota.
  assert (Hvm : stage virtualMachines s s1).
  { destruct Hlog as (_ & _ & Ht & _). eexists. split; [exact Ht|].
    split; [|done]. by apply (ordered_snoc []); [apply ordered_nil|]. }
  clear Hlog. wp_struct. wp_struct. wp_case.
  { wp_struct. by eapply stage_ordered. }
  wp_struct. wp_struct.
  (* vm *)
  eapply wp_mono; [exact (stage_removeResource vm s s1 Hvm)|].
  intros [vmDeleted|e] s2 [Hst Htrue]; cbv beta iota;
    [|apply removeWorker_catch_ordered; by eapply stage_ordered].
  wp_struct. wp_struct. wp_case.
  { wp_struct. by eapply stage_ordered. }
  apply orb_false_elim in Heqb0 as [Hdel Hid]. apply negb_false_iff in Hdel. subst vmDeleted.
  destruct (Htrue eq_refl) as (d2 & Hd2 & Hord2 & Hg2).
  assert (Hnic : stage networkInterfaces s s2) by (exists d2; done).
  clear Hst Htrue Hvm d2 Hd2 Hord2 Hg2 Hid.
  (* nic *)
  wp_struct.
  eapply wp_mono; [exact (stage_removeResource nic s s2 Hnic)|].
  intros [nicDeleted|e] s3 [Hst Htrue]; cbv beta iota;
    [|apply removeWorker_catch_ordered; by eapply stage_ordered].
  wp_struct. wp_struct. wp_case.
  { wp_struct. by eapply stage_ordered. }
  apply orb_false_elim in Heqb0 as [Hdel Hid]. apply negb_false_iff in Hdel. subst nicDeleted.
  destruct (Htrue eq_refl) as (d3 & Hd3 & Hord3 & Hg3).
  assert (Hip : stage publicIPAddresses s s3) by (exists d3; done).
  clear Hst Htrue Hnic d3 Hd3 Hord3 Hg3 Hid.
  (* ip *)
  wp_struct.
  eapply wp_mono; [exact (stage_removeResource ip s s3 Hip)|].
  intros [ipDeleted|e] s4 [Hst Htrue]; cbv beta iota;
    [|apply removeWorker_catch_ordered; by eapply stage_ordered].
  wp_struct. wp_struct. wp_case.
  { wp_struct. by eapply stage_ordered. }
  apply orb_false_elim in Heqb0 as [Hdel Hid]. apply negb_false_iff in Hdel. subst ipDeleted.
  destruct (Htrue eq_refl) as (d4 & Hd4 & Hord4 & Hg4).
  assert (Hdisks : stage disks s s4) by (exists d4; done).
  clear Hst Htrue Hip d4 Hd4 Hord4 Hg4 Hid.
  (* disks *)
  wp_case.
  2:{ wp_struct. apply removeWorker_catch_ordered. by eapply stage_ordered. }
  wp_struct.
  eapply wp_mono; [apply removeDisks_staged|].
  intros r s5 Hext. cbv beta in Hext.
  pose proof (stage_ordered _ _ _ (stage_ext _ _ _ _ Hdisks Hext)) as Hord.
  destruct r as [disksDeleted|e]; cbv beta iota;
    [|by apply removeWorker_catch_ordered].
  wp_struct. wp_struct. wp_case.
  { by wp_struct. }
  wp_struct. wp_struct. wp_struct.
  apply wp_update. intros s6 Hstep. cbv beta iota. wp_struct.
  by eapply ordered_since_step.
Qed.

Lemma ordered_since_trans s1 s2 s3 :
  ordered_since s1 s2 -> ordered_since s2 s3 -> ordered_since s1 s3.
Proof.
  intros (d1 & H1 & O1) (d2 & H2 & O2).
  exists (d1 ++ d2). split; [by rewrite H2, H1, app_assoc|]. by apply ordered_app.
Qed.

Lemma removals_ordered reasons s :
  ordered_since s (run_ops cloud (map DoRemoveWorker reasons) s).
Proof.
  revert s. induction reasons as [|reason rest IH]; intros s; simpl.
  - exists []. split; [by rewrite app_nil_r | apply ordered_nil].
  - eapply ordered_since_trans; [apply removeWorker_ordered | apply IH].
Qed.

(** C5 -- Removal ordering.  Run [removeWorker] any number of times on a
    worker, against any cloud, starting from an empty trace.  Whenever the
    trace holds a [beginDeleteMethod] request at position [i], the requests
    before position [i] include a GET of the prerequisite resource that was
    answered 404, and the record held no [id] for that prerequisite when the
    delete was issued: the vm for a nic, the nic for an ip, the ip for a
    disk.  The GET is the one for the row's own prerequisite: it names the
    resource group and the resource name that the row issuing the delete
    holds for its vm, nic or ip. *)
Theorem removal_ordering reasons w c sn er i e client rg name ans :
  let s' := run_ops cloud (map DoRemoveWorker reasons)
              {| worker := w; world := c; trace := []; seen := sn; errors := er |} in
  trace s' !! i = Some e ->
  event e = BeginDeleteMethod client rg name ans ->
  match client with
  | virtualMachines => True
  | networkInterfaces =>
    verified_gone (at_worker e) virtualMachines (take i (trace s'))
    /\ truthy (r_id (vm_res (pd_vm (providerData (at_worker e))))) = false
  | publicIPAddresses =>
    verified_gone (at_worker e) networkInterfaces (take i (trace s'))
    /\ truthy (r_id (pd_nic (providerData (at_worker e)))) = false
  | disks =>
    verified_gone (at_worker e) publicIPAddresses (take i (trace s'))
    /\ truthy (r_id (pd_ip (providerData (at_worker e)))) = false
  end.
Proof.
  intros s' Hi Hev.
  destruct (removals_ordered reasons
              {| worker := w; world := c; trace := []; seen := sn; errors := er |})
    as (d & Hd & Hord).
  fold s' in Hd. simpl in Hd. rewrite Hd in Hi |- *.
  specialize (Hord i e Hi). unfold delete_allowed in Hord. rewrite Hev in Hord.
  by destruct client.
Qed.

(** ** Idempotent provisioning *)

Lemma creates_app client d1 d2 :
  creates client (d1 ++ d2) = (creates client d1 + creates client d2)%nat.
Proof. induction d1 as [|e d1 IH]; simpl; [done|]. rewrite IH. lia. Qed.

Lemma provisionResource_present client ty cfg modifyFn s :
  truthy (r_id (typeData (providerData (worker s)) ty)) = true ->
  provisionResource cloud client ty cfg modifyFn s = (Return tt, s).
Proof.
  intros H. unfold provisionResource, bind, getWorker, ret. simpl.
  by rewrite H.
Qed.

(** Primitive steps with the resulting state written out. *)
Lemma wp_update_here f s (Q : outcome unit -> St -> Prop) :
  Q (Return tt)
    {| worker := f (worker s); world := world s;
       trace := trace s ++ [ {| at_worker := worker s; event := Update (f (worker s)) |} ];
       seen := seen s; errors := errors s |} ->
  wp (update f) s Q.
Proof. done. Qed.

Lemma wp_emit_here ev s (Q : outcome unit -> St -> Prop) :
  Q (Return tt)
    {| worker := worker s; world := world s;
       trace := trace s ++ [ {| at_worker := worker s; event := ev |} ];
       seen := seen s; errors := errors s |} ->
  wp (emit ev) s Q.
Proof. done. Qed.

Lemma wp_enqueue_here {A} (call : C -> (Err + A) * C) ev s (Q : outcome A -> St -> Prop) :
  (forall e c',
      call (world s) = (inl e, c') ->
      Q (Throw e)
        {| worker := worker s; world := c';
           trace := trace s ++ [ {| at_worker := worker s; event := ev (inl e) |} ];
           seen := seen s; errors := errors s |}) ->
  (forall a c',
      call (world s) = (inr a, c') ->
      Q (Return a)
        {| worker := worker s; world := c';
           trace := trace s ++ [ {| at_worker := worker s; event := ev (inr a) |} ];
           seen := seen s; errors := errors s |}) ->
  wp (enqueue call ev) s Q.
Proof.
  intros He Ha. unfold wp, enqueue.
  destruct (call (world s)) as [[e|a] c'] eqn:E; [by apply He | by apply Ha].
Qed.

Lemma wp_set_seen_here m s (Q : outcome unit -> St -> Prop) :
  Q (Return tt)
    {| worker := worker s; world := world s; trace := trace s;
       seen := m; errors := errors s |} ->
  wp (set_seen m) s Q.
Proof. done. Qed.

Lemma wp_set_errors_here m s (Q : outcome unit -> St -> Prop) :
  Q (Return tt)
    {| worker := worker s; world := world s; trace := trace s;
       seen := seen s; errors := m |} ->
  wp (set_errors m) s Q.
Proof. done. Qed.

Ltac wp_here :=
  lazymatch goal with
  | |- wp (update _) _ _ => apply wp_update_here
  | |- wp (emit _) _ _ => apply wp_emit_here
  | |- wp (reportError _ _ _) _ _ => apply wp_emit_here
  | |- wp (enqueue _ _) _ _ => apply wp_enqueue_here; intros ? ? ?
  | |- wp (set_seen _) _ _ => apply wp_set_seen_here
  | |- wp (set_errors _) _ _ => apply wp_set_errors_here
  end;
  cbv beta iota zeta; cbn [worker world trace seen errors].

Lemma no_progress_get client rg name c ans c' :
  no_progress cloud -> api_get cloud client rg name c = (ans, c') ->
  exists err, ans = inl err /\ statusCode err = Some 404%Z.
Proof.
  intros (Hget & _) H. destruct (Hget client rg name c) as (err & He & H404).
  rewrite H in He. by exists err.
Qed.

Lemma no_progress_create client rg name body c ans c' :
  no_progress cloud -> api_beginCreateOrUpdate cloud client rg name body c = (ans, c') ->
  exists ps, ans = inr ps
             /\ truthy (default JUndef (azureAsyncOperationHeaderValue ps)) = true.
Proof.
  intros (_ & Hcreate & _) H. destruct (Hcreate client rg name body c) as (ps & He & Ht).
  rewrite H in He. by exists ps.
Qed.

Lemma no_progress_poll op c ans c' :
  no_progress cloud -> api_sendLongRunningRequest cloud op c = (ans, c') ->
  polls_in_progress ans.
Proof. intros (_ & _ & Hpoll) H. specialize (Hpoll op c). by rewrite H in Hpoll. Qed.

(** Under no progress the poller answers "in progress" and changes nothing
    but the trace, where it adds no create request. *)
Lemma handleOperation_no_progress op s :
  no_progress cloud ->
  wp (handleOperation cloud op) s
     (fun r s' => r = Return true /\ errors s' = errors s /\ worker s' = worker s
                  /\ forall client, creates client (trace s') = creates client (trace s)).
Proof.
  intros Hnp. unfold handleOperation.
  wp_struct. wp_struct. wp_struct. wp_here.
  - wp_struct. wp_struct. repeat split. intros client. rewrite creates_app. simpl. lia.
  - pose proof (no_progress_poll _ _ _ _ Hnp H) as [Hst (body & Hb & Hs)].
    wp_struct. wp_case; [by apply Z.eqb_eq in Heqb|].
    rewrite Hb, Hs. change ("InProgress" =? "InProgress")%string with true.
    cbv iota. wp_struct.
    repeat split. intros client. rewrite creates_app. simpl. lia.
Qed.

Ltac wp_red := cbv beta iota zeta; cbn [negb orb andb worker world trace seen errors].

Lemma provisionResource_no_progress ty cfg modifyFn s :
  no_progress cloud -> errors s <> None ->
  wp (provisionResource cloud (client_for ty) ty cfg modifyFn) s
     (fun r s' =>
        r = Return tt /\ errors s' = errors s
        /\ forall client,
            (creates client (trace s') + credit client (worker s')
             <= creates client (trace s) + credit client (worker s))%nat).
Proof.
  intros Hnp Herr. unfold provisionResource.
  wp_struct. wp_struct. wp_struct. wp_case.
  - wp_struct. wp_struct. wp_here.
    2:{ destruct (no_progress_get _ _ _ _ _ _ Hnp H) as (err & [=] & _). }
    destruct (no_progress_get _ _ _ _ _ _ Hnp H) as (err & [= ->] & H404).
    rewrite H404, (bool_decide_eq_true_2 _ eq_refl).
    change (negb true) with false. cbv iota. wp_case.
    + wp_struct. wp_struct. destruct (errors s) eqn:Hes; [|done].
      wp_struct.
      eapply wp_mono; [by apply handleOperation_no_progress|].
      intros r s' (-> & He & Hw & Hc). change (negb true) with false.
      cbv beta iota. cbn [worker world trace seen errors] in *.
      repeat wp_struct.
      split; [done|]. split; [congruence|].
      intros client. rewrite Hc, Hw, creates_app. simpl. lia.
    + repeat wp_struct. wp_here.
      { destruct (no_progress_create _ _ _ _ _ _ _ Hnp H0) as (ps & [=] & _). }
      destruct (no_progress_create _ _ _ _ _ _ _ Hnp H0) as (ps & [= <-] & Hh).
      wp_here. split; [done|]. split; [done|].
      intros client. rewrite !creates_app.
      apply negb_true_iff in Heqb.
      destruct ty, client; simpl in *; rewrite ?Heqb, ?Heqb0, ?Hh, ?orb_true_r; simpl; lia.
  - wp_struct. wp_struct. split; [done|]. split; [done|]. lia.
Qed.

Lemma within_credit_trans s1 s2 s3 :
  within_credit s1 s2 -> within_credit s2 s3 -> within_credit s1 s3.
Proof.
  intros [E1 H1] [E2 H2]. split; [congruence|].
  intros client. specialize (H1 client). specialize (H2 client). lia.
Qed.

Lemma within_credit_refl s : within_credit s s.
Proof. split; [done|]. intros client. lia. Qed.

Lemma provisionResources_no_progress s :
  no_progress cloud -> errors s <> None ->
  wp (provisionResources cloud) s (fun _ s' => within_credit s s').
Proof.
  intros Hnp Herr. unfold provisionResources.
  wp_struct. wp_struct. wp_struct. wp_struct.
  eapply wp_mono; [exact (provisionResource_no_progress ip _ _ s Hnp Herr)|].
  intros r s1 (-> & He1 & Hc1). cbv beta iota.
  assert (H1 : within_credit s s1) by done. clear Hc1.
  wp_struct. wp_struct. wp_case; [by wp_struct|].
  wp_struct.
  eapply wp_mono;
    [apply (provisionResource_no_progress nic _ _ s1 Hnp); congruence|].
  intros r s2 (-> & He2 & Hc2). cbv beta iota.
  assert (H2 : within_credit s s2) by (eapply within_credit_trans; [exact H1|done]).
  clear Hc2.
  wp_struct. wp_struct. wp_case; [by wp_struct|].
  wp_struct. wp_struct. wp_struct.
  eapply wp_mono;
    [apply (provisionResource_no_progress vm _ _ s2 Hnp); congruence|].
  intros r s3 (-> & He3 & Hc3). cbv beta iota.
  assert (H3 : within_credit s s3) by (eapply within_credit_trans; [exact H2|done]).
  wp_struct. wp_struct. wp_case; by wp_struct.
Qed.

Lemma repeat_provision_no_progress n s :
  no_progress cloud -> errors s <> None ->
  within_credit s (repeat_op (provisionResources cloud) n s).
Proof.
  intros Hnp. revert s. induction n as [|n IH]; intros s Herr; simpl.
  - apply within_credit_refl.
  - pose proof (provisionResources_no_progress s Hnp Herr) as H1. unfold wp in H1.
    eapply within_credit_trans; [exact H1|].
    apply IH. destruct H1 as [-> _]. done.
Qed.

(** C6 -- Idempotent provisioning.  While the cloud reports no progress
    (every GET by name is answered 404, a create request is accepted and
    returns its operation URL, the stored operation polls as in progress),
    [n] invocations of the provision pipeline in a prepared scan issue at
    most one [beginCreateOrUpdate] to each client, whatever the worker row.
    And once [providerData[type].id] is set, [provisionResource] returns at
    once: no cloud call, no update, the state is the one it was given. *)
Theorem idempotent_provisioning n s client :
  no_progress cloud -> errors s <> None ->
  (creates client (trace (repeat_op (provisionResources cloud) n s))
   <= creates client (trace s) + 1)%nat
  /\ (forall ty cl cfg modifyFn s0,
         truthy (r_id (typeData (providerData (worker s0)) ty)) = true ->
         provisionResource cloud cl ty cfg modifyFn s0 = (Return tt, s0)).
Proof.
  intros Hnp Herr. split.
  - destruct (repeat_provision_no_progress n s Hnp Herr) as [_ H].
    specialize (H client).
    assert (credit client (worker s) <= 1)%nat.
    { unfold credit. destruct client; repeat case_match; lia. }
    lia.
  - intros. by apply provisionResource_present.
Qed.

(** ** The scanner's classification *)

Lemma wp_any {A} (m : M A) s (Q : outcome A -> St -> Prop) :
  (forall r s', Q r s') -> wp m s Q.
Proof. unfold wp. auto. Qed.

(** [removeWorker] never throws. *)
Lemma removeWorker_returns reason s :
  wp (removeWorker cloud reason) s (fun r _ => exists st, r = Return st).
Proof.
  unfold removeWorker.
  repeat first
    [ wp_struct | wp_here | wp_case
    | lazymatch goal with
      | |- wp (removeResource _ _ _) _ _ => apply wp_any; intros [?|?] ?; cbv beta iota
      | |- wp (removeDisks _ _ _) _ _ => apply wp_any; intros [?|?] ?; cbv beta iota
      | |- exists st, Return _ = Return st => by eexists
      end ].
Qed.

(** The first thing [removeWorker] does is to log the removal with its
    reason. *)
Lemma removeWorker_trace reason s :
  wp (removeWorker cloud reason) s
     (fun _ s' =>
        exists d, trace s' = trace s ++ {| at_worker := worker s;
                                           event := LogWorkerRemoved reason |} :: d).
Proof.
  unfold removeWorker. wp_struct. apply wp_emit. intros s1 (_ & _ & Ht & _).
  cbv beta iota.
  eapply wp_mono with (Q := fun _ s' => ext frame tagged s1 s').
  - pose proof (ext_refl frame tagged s1) as Hext. ext_go.
  - intros _ s' [_ (d & Hd & _)]. exists d. by rewrite Hd, Ht, <- app_assoc.
Qed.


Lemma removed_with_app_l reason d1 d2 :
  removed_with reason d1 -> removed_with reason (d1 ++ d2).
Proof. intros (e & Hin & He). exists e. rewrite elem_of_app. auto. Qed.

Lemma removed_with_app_r reason d1 d2 :
  removed_with reason d2 -> removed_with reason (d1 ++ d2).
Proof. intros (e & Hin & He). exists e. rewrite elem_of_app. auto. Qed.

Lemma removed_with_here reason w d :
  removed_with reason ({| at_worker := w; event := LogWorkerRemoved reason |} :: d).
Proof. eexists. split; [apply list_elem_of_here | done]. Qed.

(** Reduce projections of records that were built by the setters. *)
Ltac rec_simpl :=
  cbn [worker world trace seen errors
       workerPoolId providerId workerGroup workerId capacity state lastModified
       lastChecked expires providerData
       pd_location pd_resourceGroupName pd_workerConfig pd_tags pd_vm pd_ip pd_nic
       pd_disks pd_disk pd_subnet_id pd_terminateAfter pd_reregistrationTimeout
       vm_res vm_computerName vm_config vm_vmId r_name r_operation r_id
       on_providerData on_typeData on_target set_providerData set_state
       set_lastModified set_lastChecked set_expires set_vm set_ip set_nic set_disks
       set_terminateAfter set_vm_res set_vm_config set_vmId set_id set_operation
       fst snd] in *.


(** ** Registration *)

Section RegistrationProperties.

Context {Message Certificate : Type}.
Context (messageFromDer : string -> option Message).
Context (messageParts : Message -> option (string * Certificate * string)).
Context (verify : Certificate -> string -> string -> bool).
Context (verifyCertificateChain : Certificate -> bool).
Context (JSON_parse : string -> option Payload).

Let register :=
  registerWorker cloud messageFromDer messageParts verify verifyCertificateChain JSON_parse.

Let signed :=
  well_signed messageFromDer messageParts verify verifyCertificateChain JSON_parse.

Lemma register_well_signed document payload s :
  signed document payload ->
  register document s = after_parsing cloud payload s.
Proof.
  intros (msg & content & crt & sig & H1 & H2 & H3 & H4 & H5).
  unfold register, registerWorker, after_parsing. by rewrite H1, H2, H3, H4, H5.
Qed.

Lemma wp_register document payload s (Q : outcome Registration -> St -> Prop) :
  signed document payload ->
  wp (after_parsing cloud payload) s Q -> wp (register document) s Q.
Proof. intros H. unfold wp. by rewrite (register_well_signed _ _ _ H). Qed.

Lemma fetchVmInfo_found s r c1 :
  truthy_str (vm_vmId (pd_vm (providerData (worker s)))) = false ->
  api_get cloud virtualMachines
    (pd_resourceGroupName (providerData (worker s)))
    (r_name (vm_res (pd_vm (providerData (worker s))))) (world s) = (inr r, c1) ->
  fetchVmInfo cloud s = (Return (res_provisioningState r, res_vmId r), fetched s c1 r).
Proof.
  intros Hno Hget. unfold fetchVmInfo, bind, getWorker, enqueue, update, ret.
  rewrite Hget. simpl. rewrite Hno. simpl. unfold fetched.
  by rewrite <- app_assoc.
Qed.

(** C10 -- The vmId fetch is persisted before the checks.  When
    [registerWorker] is called with a well-signed document on a worker whose
    [vm.vmId] is unset and the GET of the VM answers, the fetched vmId is
    written to the record first: the trace continues with that GET and that
    update, and the record ends up holding the fetched vmId whatever happens
    next.  If the attempt then throws, the record is the original one with
    [vm.vmId] newly set: the failure is not atomic with respect to the worker
    record.  The error thrown is the opaque one, unless the payload is [null]
    or carries the vmId but no [timeStamp]. *)
Theorem vmId_persisted_before_checks document payload s r c1 :
  signed document payload ->
  truthy_str (vm_vmId (pd_vm (providerData (worker s)))) = false ->
  api_get cloud virtualMachines
    (pd_resourceGroupName (providerData (worker s)))
    (r_name (vm_res (pd_vm (providerData (worker s))))) (world s) = (inr r, c1) ->
  (exists rest, trace (register document s).2 = trace (fetched s c1 r) ++ rest)
  /\ vm_vmId (pd_vm (providerData (worker (register document s).2))) = res_vmId r
  /\ (forall e, (register document s).1 = Throw e ->
                worker (register document s).2 = with_vmId (res_vmId r) (worker s)
                /\ (e = signature_error \/ unreadable payload (res_vmId r))).
Proof.
  intros Hdoc Hno Hget.
  change (wp (register document) s
            (fun res s' =>
               (exists rest, trace s' = trace (fetched s c1 r) ++ rest)
               /\ vm_vmId (pd_vm (providerData (worker s'))) = res_vmId r
               /\ (forall e, res = Throw e ->
                             worker s' = with_vmId (res_vmId r) (worker s)
                             /\ (e = signature_error \/ unreadable payload (res_vmId r))))).
  apply (wp_register _ _ _ _ Hdoc). unfold after_parsing.
  wp_struct. wp_struct. rewrite Hno. cbn [negb]. wp_struct. wp_struct.
  unfold wp at 1. rewrite (fetchVmInfo_found _ _ _ Hno Hget). cbn [fst snd].
  unfold reject, vmId_equal.
  clear Hdoc.
  repeat first [ wp_struct | wp_here | wp_case ]; rec_simpl.
  all: split;
    [eexists; first [by rewrite <- ?app_assoc | symmetry; apply app_nil_r]|].
  all: split; [done|].
  all: intros e' [= <-].
  all: split; [done|].
  all: first [ by left | right ].
  all: first [ by left | right ].
  all: match goal with
       | H : negb (bool_decide (_ = _)) = false |- _ =>
         apply negb_false_iff, bool_decide_eq_true_1 in H; by subst
       end.
Qed.

Lemma wp_eq {A} (m : M A) s r s' :
  wp m s (fun r0 s0 => r0 = r /\ s0 = s') -> m s = (r, s').
Proof. unfold wp. destruct (m s). simpl. by intros [-> ->]. Qed.

(** The vmId, timestamp and state checks on a worker that is not in state
    [requested], for a payload that passes the first two. *)
(** A payload with an unexpired timestamp is a value that carries one. *)
Lemma fresh_value payload t :
  fresh_at payload t ->
  exists e, payload = JsonValue (p_vmId payload) (Some (Some e)) /\ (t <? e) = true.
Proof.
  intros (e & He & Hlt%Z.ltb_lt).
  destruct payload as [|vmId [[e'|]|]]; simplify_eq/=. by exists e.
Qed.

Lemma checks_refused payload v s :
  state (worker s) <> REQUESTED ->
  p_vmId payload = v ->
  fresh_at payload (api_now cloud (world s)) ->
  forall k : Worker -> M Registration,
  wp (match payload with
      | JsonNull => throw (TypeError "Cannot read properties of null (reading 'vmId')")
      | JsonValue vmId timeStamp =>
        if negb (vmId_equal vmId v) then reject "vmId mismatch"
        else
        match timeStamp with
        | None =>
          throw (TypeError "Cannot read properties of undefined (reading 'expiresOn')")
        | Some expiresOn =>
          bind (now cloud)
            (fun t =>
               if negb (match expiresOn with
                        | Some e => t <? e
                        | None => false
                        end)
               then reject "Expired message"
               else
                 bind getWorker
                   (fun w =>
                      if negb (bool_decide (state w = REQUESTED))
                      then reject "Worker was already running."
                      else k w))
        end
      end)
     s (fun res s' => res = Throw signature_error /\ s' = already_running s).
Proof.
  intros Hst Hv (e & Hp & Hlt)%fresh_value k. rewrite Hp, Hv. cbv iota.
  unfold vmId_equal.
  rewrite (bool_decide_eq_true_2 _ eq_refl). cbn [negb]. cbv iota.
  wp_struct. wp_struct. rewrite Hlt.
  cbn [negb]. cbv iota. wp_struct. wp_struct.
  rewrite (bool_decide_eq_false_2 _ Hst). cbn [negb]. cbv iota.
  unfold reject. wp_struct. wp_here. wp_struct. done.
Qed.

(** C4 (as amended) -- Registration uniqueness.  For every worker whose
    state is not [requested], [registerWorker], given a document that passes
    the signature, chain, vmId and timestamp checks, throws the opaque error
    'Signature validation error'.  If the record already held a vmId it is
    not written at all.  If it held none, the one write is the vmId fetched
    from the cloud, which is made before the checks; [state],
    [terminateAfter], [lastModified] and everything else stay as they
    were. *)
Theorem duplicate_registration_refused document payload s :
  signed document payload ->
  state (worker s) <> REQUESTED ->
  (truthy_str (vm_vmId (pd_vm (providerData (worker s)))) = true ->
   p_vmId payload = vm_vmId (pd_vm (providerData (worker s))) ->
   fresh_at payload (api_now cloud (world s)) ->
   register document s = (Throw signature_error, already_running s))
  /\ (forall r c1,
         truthy_str (vm_vmId (pd_vm (providerData (worker s)))) = false ->
         api_get cloud virtualMachines
           (pd_resourceGroupName (providerData (worker s)))
           (r_name (vm_res (pd_vm (providerData (worker s))))) (world s) = (inr r, c1) ->
         p_vmId payload = res_vmId r ->
         fresh_at payload (api_now cloud c1) ->
         register document s = (Throw signature_error, already_running (fetched s c1 r))
         /\ worker (already_running (fetched s c1 r)) = with_vmId (res_vmId r) (worker s)).
Proof.
  intros Hdoc Hst. split.
  - intros Hset Hv Hfresh.
    apply wp_eq, (wp_register _ _ _ _ Hdoc). unfold after_parsing.
    wp_struct. wp_struct. rewrite Hset. cbn [negb]. wp_struct. wp_struct.
    by apply checks_refused.
  - intros r c1 Hno Hget Hv Hfresh. split; [|done].
    apply wp_eq, (wp_register _ _ _ _ Hdoc). unfold after_parsing.
    wp_struct. wp_struct. rewrite Hno. cbn [negb]. wp_struct. wp_struct.
    unfold wp at 1. rewrite (fetchVmInfo_found _ _ _ Hno Hget). cbn [fst snd].
    wp_struct. cbn [snd].
    apply checks_refused; [|done|done].
    simpl. done.
Qed.

(** X5 -- A successful registration.  For a worker in state [requested]
    and a well-signed, unexpired document that carries the worker's vmId
    (the one on the record or, when the record has none, the one fetched
    from the cloud), [registerWorker] logs [workerRunning] and writes the
    row once: [state] becomes [running], [lastModified] the time of the
    call, and [terminateAfter] the pool's [reregistrationTimeout] from now,
    or 96 hours from now when the pool has none.  The [expires] it returns is
    that [terminateAfter]. *)
Theorem registration_succeeds document payload s :
  signed document payload ->
  state (worker s) = REQUESTED ->
  (truthy_str (vm_vmId (pd_vm (providerData (worker s)))) = true ->
   p_vmId payload = vm_vmId (pd_vm (providerData (worker s))) ->
   fresh_at payload (api_now cloud (world s)) ->
   register document s
   = (Return {| reg_expires := lease (worker s) (api_now cloud (world s));
                reg_workerConfig := pd_workerConfig (providerData (worker s)) |},
      registered cloud s))
  /\ (forall r c1,
         truthy_str (vm_vmId (pd_vm (providerData (worker s)))) = false ->
         api_get cloud virtualMachines
           (pd_resourceGroupName (providerData (worker s)))
           (r_name (vm_res (pd_vm (providerData (worker s))))) (world s) = (inr r, c1) ->
         p_vmId payload = res_vmId r ->
         fresh_at payload (api_now cloud c1) ->
         register document s
         = (Return {| reg_expires := lease (worker s) (api_now cloud c1);
                      reg_workerConfig := pd_workerConfig (providerData (worker s)) |},
            registered cloud (fetched s c1 r))).
Proof.
  intros Hdoc Hst. split.
  - intros Hset Hv (e & Hp & Hlt)%fresh_value.
    apply wp_eq, (wp_register _ _ _ _ Hdoc). unfold after_parsing.
    wp_struct. wp_struct. rewrite Hset. cbn [negb]. wp_struct. wp_struct.
    rewrite Hp, Hv. cbv iota.
    unfold vmId_equal. rewrite (bool_decide_eq_true_2 _ eq_refl). cbn [negb]. cbv iota.
    wp_struct. wp_struct. rewrite Hlt. cbn [negb]. cbv iota.
    wp_struct. wp_struct. rewrite (bool_decide_eq_true_2 _ Hst). cbn [negb]. cbv iota.
    repeat first [ wp_struct | wp_here ].
    unfold registered, run_from, lease. by rewrite <- app_assoc.
  - intros r c1 Hno Hget Hv (e & Hp & Hlt)%fresh_value.
    apply wp_eq, (wp_register _ _ _ _ Hdoc). unfold after_parsing.
    wp_struct. wp_struct. rewrite Hno. cbn [negb]. wp_struct. wp_struct.
    unfold wp at 1. rewrite (fetchVmInfo_found _ _ _ Hno Hget). cbn [fst snd].
    wp_struct. cbn [snd].
    rewrite Hp, Hv. cbv iota.
    unfold vmId_equal. rewrite (bool_decide_eq_true_2 _ eq_refl). cbn [negb]. cbv iota.
    wp_struct. wp_struct. cbn [fetched world]. rewrite Hlt.
    cbn [negb]. cbv iota.
    wp_struct. wp_struct. cbn [fetched worker].
    rewrite (bool_decide_eq_true_2 _ Hst). cbn [negb]. cbv iota.
    repeat first [ wp_struct | wp_here ].
    unfold registered, run_from, lease. cbn [fetched worker world trace seen errors].
    by rewrite <- !app_assoc.
Qed.

(** A document either yields a payload, or is refused before the worker
    and the cloud are looked at. *)
Lemma signed_or_refused document s :
  (exists payload, signed document payload)
  \/ exists msg, register document s = (Throw signature_error, refused msg s).
Proof.
  unfold register, registerWorker.
  destruct (messageFromDer document) as [msg|] eqn:H1; [|right; by eexists].
  destruct (messageParts msg) as [[[content crt] sig]|] eqn:H2; [|right; by eexists].
  destruct (verify crt sig content) eqn:H3; [|right; by eexists].
  destruct (verifyCertificateChain crt) eqn:H4; [|right; by eexists].
  destruct (JSON_parse content) as [payload|] eqn:H5; [|right; by eexists].
  left. exists payload. by exists msg, content, crt, sig.
Qed.

(** X6 -- Registration failures leave the row alone, and are opaque
    whenever the payload can be read.  Whenever [registerWorker] throws,
    whatever the document and the worker, the row is as it was, or as it was
    with the fetched vmId written to [providerData.vm.vmId]; in particular
    [state], [lastModified] and [terminateAfter] are unchanged and no
    [workerRunning] was logged.  The error is the one 'Signature validation
    error', or it is the error the cloud gave to the GET of the VM, or -- for
    a well-signed document whose payload is [null] or lacks a [timeStamp],
    and only then -- it is the error raised by reading that payload, which
    is not the opaque one. *)
Theorem registration_failure_is_opaque document s e :
  (register document s).1 = Throw e ->
  (e = signature_error
   \/ (exists c1,
         api_get cloud virtualMachines
           (pd_resourceGroupName (providerData (worker s)))
           (r_name (vm_res (pd_vm (providerData (worker s))))) (world s) = (inl e, c1))
   \/ (exists payload v msg,
         signed document payload /\ unreadable payload v
         /\ e = TypeError msg /\ e <> signature_error))
  /\ (worker (register document s).2 = worker s
      \/ exists v, worker (register document s).2 = with_vmId v (worker s))
  /\ exists d, trace (register document s).2 = trace s ++ d
               /\ Forall (fun en => event en <> LogWorkerRunning) d.
Proof.
  destruct (signed_or_refused document s) as [[payload Hdoc]|[msg Hmsg]].
  2:{ rewrite Hmsg. cbn [fst snd]. intros [= <-].
      split; [by left|]. split; [by left|].
      eexists. split; [reflexivity|]. by repeat constructor. }
  revert e.
  change (wp (register document) s
            (fun res s' =>
               forall e, res = Throw e ->
                 (e = signature_error
                  \/ (exists c1,
                        api_get cloud virtualMachines
                          (pd_resourceGroupName (providerData (worker s)))
                          (r_name (vm_res (pd_vm (providerData (worker s))))) (world s)
                        = (inl e, c1))
                  \/ (exists payload v msg,
                        signed document payload /\ unreadable payload v
                        /\ e = TypeError msg /\ e <> signature_error))
                 /\ (worker s' = worker s \/ exists v, worker s' = with_vmId v (worker s))
                 /\ exists d, trace s' = trace s ++ d
                              /\ Forall (fun en => event en <> LogWorkerRunning) d)).
  apply (wp_register _ _ _ _ Hdoc). unfold after_parsing, fetchVmInfo, reject.
  repeat first [ wp_struct | wp_here | wp_case ]; rec_simpl.
  all: intros e' [= <-].
  all: split;
    [first [ by left
           | right; left; by eexists
           | right; right; eexists _, None, _;
             (split; [exact Hdoc|]); split; [left; reflexivity|];
             split; [reflexivity | discriminate]
           | right; right; eexists _, _, _;
             (split; [exact Hdoc|]); split; [right; reflexivity|];
             split; [reflexivity | discriminate] ]|].
  all: split; [first [ by left | right; by eexists ]|].
  all: rewrite <- ?app_assoc; eexists; split;
    [first [reflexivity | symmetry; apply app_nil_r]|]; simpl.
  all: repeat (constructor; [discriminate|]); constructor.
Qed.

(** X7 -- A document that fails verification costs nothing.  When the
    document does not pass the PKCS#7 extraction, the signature check, the
    certificate-chain check and the JSON parse, [registerWorker] throws the
    opaque error after one [registrationErrorWarning] log entry: the cloud is
    not called and the row is not touched, whatever the worker's state. *)
Theorem unsigned_document_is_refused document s :
  (forall payload, ~ signed document payload) ->
  exists msg, register document s = (Throw signature_error, refused msg s).
Proof.
  intros Hno. unfold register, registerWorker.
  destruct (messageFromDer document) as [msg|] eqn:H1; [|by eexists].
  destruct (messageParts msg) as [[[content crt] sig]|] eqn:H2; [|by eexists].
  destruct (verify crt sig content) eqn:H3; [|by eexists].
  destruct (verifyCertificateChain crt) eqn:H4; [|by eexists].
  destruct (JSON_parse content) as [payload|] eqn:H5; [|by eexists].
  destruct (Hno payload). by exists msg, content, crt, sig.
Qed.

(** X8 -- The vmId and the timestamp are both required.  Take a
    well-signed document and the worker's vmId: the one on the record or,
    when the record has none, the one fetched from the cloud.  When the
    payload carries another vmId, or carries that vmId and a [timeStamp]
    whose [expiresOn] is no date or is not strictly later than the time of
    the call, the document is refused with the opaque error after one log
    entry, and nothing is written beyond the vmId fetch.  When the payload is
    [null], or carries that vmId but no [timeStamp], [registerWorker] throws
    another error and logs nothing, the row again being written by the vmId
    fetch only: the handlers of the two checks read the payload once more
    for their log entry. *)
Theorem stale_or_foreign_document_is_refused document payload s :
  signed document payload ->
  (truthy_str (vm_vmId (pd_vm (providerData (worker s)))) = true ->
   (foreign payload (vm_vmId (pd_vm (providerData (worker s))))
    \/ stale payload (vm_vmId (pd_vm (providerData (worker s)))) (api_now cloud (world s)) ->
    exists msg, register document s = (Throw signature_error, refused msg s))
   /\ (unreadable payload (vm_vmId (pd_vm (providerData (worker s)))) ->
       exists msg,
         TypeError msg <> signature_error
         /\ register document s = (Throw (TypeError msg), s)))
  /\ (forall r c1,
         truthy_str (vm_vmId (pd_vm (providerData (worker s)))) = false ->
         api_get cloud virtualMachines
           (pd_resourceGroupName (providerData (worker s)))
           (r_name (vm_res (pd_vm (providerData (worker s))))) (world s) = (inr r, c1) ->
         (foreign payload (res_vmId r) \/ stale payload (res_vmId r) (api_now cloud c1) ->
          exists msg,
            register document s = (Throw signature_error, refused msg (fetched s c1 r)))
         /\ (unreadable payload (res_vmId r) ->
             exists msg,
               TypeError msg <> signature_error
               /\ register document s = (Throw (TypeError msg), fetched s c1 r))).
Proof.
  intros Hdoc.
  assert (Hchecks : forall v s1,
             (foreign payload v \/ stale payload v (api_now cloud (world s1)) ->
              exists msg, forall k : Z -> M Registration,
                wp (match payload with
                    | JsonNull =>
                      throw (TypeError "Cannot read properties of null (reading 'vmId')")
                    | JsonValue vmId timeStamp =>
                      if negb (vmId_equal vmId v) then reject "vmId mismatch"
                      else
                      match timeStamp with
                      | None =>
                        throw (TypeError
                                 "Cannot read properties of undefined (reading 'expiresOn')")
                      | Some expiresOn =>
                        bind (now cloud)
                          (fun t =>
                             if negb (match expiresOn with
                                      | Some e => t <? e
                                      | None => false
                                      end)
                             then reject "Expired message"
                             else k t)
                      end
                    end)
                   s1 (fun res s' => res = Throw signature_error /\ s' = refused msg s1))
             /\ (unreadable payload v ->
                 exists msg, TypeError msg <> signature_error
                   /\ forall k : Z -> M Registration,
                   wp (match payload with
                       | JsonNull =>
                         throw (TypeError "Cannot read properties of null (reading 'vmId')")
                       | JsonValue vmId timeStamp =>
                         if negb (vmId_equal vmId v) then reject "vmId mismatch"
                         else
                         match timeStamp with
                         | None =>
                           throw (TypeError
                                    "Cannot read properties of undefined (reading 'expiresOn')")
                         | Some expiresOn =>
                           bind (now cloud)
                             (fun t =>
                                if negb (match expiresOn with
                                         | Some e => t <? e
                                         | None => false
                                         end)
                                then reject "Expired message"
                                else k t)
                         end
                       end)
                      s1 (fun res s' => res = Throw (TypeError msg) /\ s' = s1))).
  { intros v s1. unfold vmId_equal, reject. split.
    - intros [(vmId & timeStamp & -> & Hne)|(expiresOn & -> & Hle)].
      + exists "vmId mismatch". intros k.
        rewrite (bool_decide_eq_false_2 _ Hne). cbn [negb]. cbv iota.
        wp_struct. wp_here. wp_struct. done.
      + exists "Expired message". intros k.
        rewrite (bool_decide_eq_true_2 _ eq_refl). cbn [negb]. cbv iota.
        wp_struct. wp_struct.
        assert (Hf : match expiresOn with
                     | Some e => api_now cloud (world s1) <? e
                     | None => false
                     end = false).
        { destruct expiresOn as [e|]; [|done].
          apply Z.ltb_ge. by apply Hle. }
        rewrite Hf. cbn [negb]. cbv iota. wp_struct. wp_here. wp_struct. done.
    - intros [->| ->].
      + eexists. split; [|intros k; wp_struct; split; reflexivity]. discriminate.
      + eexists. split;
          [|intros k; rewrite (bool_decide_eq_true_2 _ eq_refl); cbn [negb]; cbv iota;
            wp_struct; split; reflexivity].
        discriminate. }
  split.
  - intros Hset.
    destruct (Hchecks (vm_vmId (pd_vm (providerData (worker s)))) s) as [Hbad Hnull].
    split.
    + intros H. destruct (Hbad H) as (msg & Hwp). exists msg.
      apply wp_eq, (wp_register _ _ _ _ Hdoc). unfold after_parsing.
      wp_struct. wp_struct. rewrite Hset. cbn [negb]. wp_struct. wp_struct.
      apply Hwp.
    + intros H. destruct (Hnull H) as (msg & Hne & Hwp). exists msg. split; [done|].
      apply wp_eq, (wp_register _ _ _ _ Hdoc). unfold after_parsing.
      wp_struct. wp_struct. rewrite Hset. cbn [negb]. wp_struct. wp_struct.
      apply Hwp.
  - intros r c1 Hno Hget.
    destruct (Hchecks (res_vmId r) (fetched s c1 r)) as [Hbad Hnull].
    split.
    + intros H. destruct (Hbad H) as (msg & Hwp). exists msg.
      apply wp_eq, (wp_register _ _ _ _ Hdoc). unfold after_parsing.
      wp_struct. wp_struct. rewrite Hno. cbn [negb]. wp_struct. wp_struct.
      unfold wp at 1. rewrite (fetchVmInfo_found _ _ _ Hno Hget). cbn [fst snd].
      wp_struct. cbn [snd].
      apply Hwp.
    + intros H. destruct (Hnull H) as (msg & Hne & Hwp). exists msg. split; [done|].
      apply wp_eq, (wp_register _ _ _ _ Hdoc). unfold after_parsing.
      wp_struct. wp_struct. rewrite Hno. cbn [negb]. wp_struct. wp_struct.
      unfold wp at 1. rewrite (fetchVmInfo_found _ _ _ Hno Hget). cbn [fst snd].
      wp_struct. cbn [snd].
      apply Hwp.
Qed.


End RegistrationProperties.

(** ** What the steps leave alone

    The removal steps, the poller and the vmId fetch write [providerData]
    only, and [removeWorker] adds the final write of [state], [lastModified]
    and [lastChecked]; their entries are GETs, delete requests, polls,
    writes and the log entry of [removeWorker].  The lemmas are stated for
    any relation on records that such writes respect and any property of
    entries that such entries have. *)

Section Footprint.

Context (fr : Worker -> Worker -> Prop) `{!PreOrder fr} (ok : Entry -> Prop).
Hypothesis fr_providerData : forall w f, fr w (on_providerData f w).
Hypothesis ok_footprint : forall e, footprint_entry e -> ok e.

Local Hint Resolve fr_providerData : frames.
Local Hint Extern 1 (ok _) => apply ok_footprint; exact I : frames.

Lemma removeResource_footprint client target s :
  wp (removeResource cloud client target) s (fun _ s' => ext fr ok s s').
Proof. ext_start. unfold removeResource. ext_go. Qed.

Lemma removeDisks_footprint indices acc s :
  wp (removeDisks cloud indices acc) s (fun _ s' => ext fr ok s s').
Proof.
  revert acc s. induction indices as [|i rest IH]; intros acc s;
    ext_start; cbn [removeDisks]; ext_go.
  ext_call removeResource_footprint; [ext_call IH|]; assumption.
Qed.

Lemma handleOperation_footprint op s :
  wp (handleOperation cloud op) s (fun _ s' => ext fr ok s s').
Proof. ext_start. unfold handleOperation, errors_push. ext_go. Qed.

Lemma fetchVmInfo_footprint s :
  wp (fetchVmInfo cloud) s (fun _ s' => ext fr ok s s').
Proof. ext_start. unfold fetchVmInfo. ext_go. Qed.

Hypothesis fr_stopped :
  forall w t, fr w (set_state STOPPED (set_lastChecked t (set_lastModified t w))).

Local Hint Resolve fr_stopped : frames.

Lemma removeWorker_footprint reason s :
  wp (removeWorker cloud reason) s (fun _ s' => ext fr ok s s').
Proof.
  ext_start. unfold removeWorker. ext_go.
  all: repeat first [ ext_call removeResource_footprint
                    | ext_call removeDisks_footprint | ext_go ].
Qed.

End Footprint.

Global Instance providerData_only_preorder : PreOrder providerData_only.
Proof.
  split.
  - by intros [].
  - intros w1 w2 w3 H1 H2. unfold providerData_only in *.
    rewrite H2, H1. by destruct w1.
Qed.

Lemma providerData_only_on_providerData w f : providerData_only w (on_providerData f w).
Proof. by destruct w. Qed.

Lemma any_entry_holds e : footprint_entry e -> any_entry e.
Proof. done. Qed.

Lemma footprint_not_a_create e : footprint_entry e -> not_a_create e.
Proof. unfold footprint_entry, not_a_create. by destruct (event e). Qed.

Global Instance anything_preorder : PreOrder (fun _ _ : Worker => True).
Proof. by split. Qed.

(** The removal steps write [providerData] only. *)
Lemma removeResource_record client target s :
  wp (removeResource cloud client target) s
     (fun _ s' => ext providerData_only any_entry s s').
Proof.
  apply removeResource_footprint;
    [apply _ | apply providerData_only_on_providerData | apply any_entry_holds].
Qed.

Lemma removeDisks_record indices acc s :
  wp (removeDisks cloud indices acc) s
     (fun _ s' => ext providerData_only any_entry s s').
Proof.
  apply removeDisks_footprint;
    [apply _ | apply providerData_only_on_providerData | apply any_entry_holds].
Qed.

(** [removeWorker] issues no create request. *)
Lemma removeWorker_no_create reason s :
  wp (removeWorker cloud reason) s
     (fun _ s' => ext (fun _ _ => True) not_a_create s s').
Proof.
  apply removeWorker_footprint; [apply _ | done | apply footprint_not_a_create | done].
Qed.

(** What [removeWorker] adds to the trace. *)
Lemma removeWorker_entries reason s :
  wp (removeWorker cloud reason) s
     (fun _ s' => ext (fun _ _ => True) footprint_entry s s').
Proof. apply removeWorker_footprint; [apply _ | done | done | done]. Qed.

Lemma handleOperation_entries op s :
  wp (handleOperation cloud op) s
     (fun _ s' => ext (fun _ _ => True) footprint_entry s s').
Proof. apply handleOperation_footprint; [apply _ | done]. Qed.

Ltac ext_known ::=
  lazymatch goal with
  | _ : ext frame tagged _ ?s |- wp (removeResource _ _ _) ?s _ =>
    ext_call removeResource_kept
  | _ : ext frame tagged _ ?s |- wp (removeDisks _ _ _) ?s _ =>
    ext_call removeDisks_kept
  | _ : ext frame tagged _ ?s |- wp (removeWorker _ _) ?s _ =>
    ext_call removeWorker_kept
  | _ : ext frame tagged _ ?s |- wp (provisionResources _) ?s _ =>
    ext_call provisionResources_kept
  | _ : ext frame tagged _ ?s |- wp (fetchVmInfo _) ?s _ =>
    ext_call fetchVmInfo_kept
  | _ : ext providerData_only any_entry _ ?s |- wp (removeResource _ _ _) ?s _ =>
    ext_call removeResource_record
  | _ : ext providerData_only any_entry _ ?s |- wp (removeDisks _ _ _) ?s _ =>
    ext_call removeDisks_record
  end.

Lemma removeWorker_state reason s :
  wp (removeWorker cloud reason) s
     (fun r s' =>
        (r = Return STOPPING /\ state (worker s') <> STOPPED
         /\ providerData_only (worker s) (worker s'))
        \/ (r = Return STOPPED /\ state (worker s') = STOPPED)).
Proof.
  unfold removeWorker. wp_struct. apply wp_emit. intros s1 (Hw1 & _). cbv beta iota.
  wp_struct. wp_struct. wp_case.
  { wp_struct. right. split; [done|]. by apply bool_decide_eq_true_1 in Heqb. }
  apply bool_decide_eq_false_1 in Heqb.
  pose proof (ext_refl providerData_only any_entry s1) as Hext.
  revert Hext. generalize s1 at 2 3 as s2. intros s2 Hext.
  repeat first [ wp_struct | ext_prim | ext_known | wp_case ].
  all: try (apply wp_update; intros ? (Hw' & _); cbv beta iota; wp_struct;
            right; split; [done|]; by rewrite Hw').
  all: left; split; [done|].
  all: lazymatch goal with
       | H : ext providerData_only any_entry _ ?sx |- state (worker ?sx) <> _ /\ _ =>
         destruct H as [Hpd _]
       end.
  all: rewrite <- Hw1; split; [|done].
  all: rewrite Hpd; simpl; done.
Qed.

(** ** The scanner on a healthy VM *)

(** X9 -- A healthy worker is counted and left alone.  In a [checkWorker]
    pass of a prepared scan in which the VM and its instance view are
    answered and pass the healthy test, and [terminateAfter] is unset or not
    yet reached, the pass returns; [seen] of the worker's pool grows by the
    worker's capacity (by 1 when the capacity is 0 or unset); [expires] is
    moved to a week from now when less than a day was left, and kept
    otherwise; [state], [lastModified] and the ip, nic and vm triples stay;
    [lastChecked] is the time of the pass; and the pass does nothing but
    look at the cloud and write the row. *)
Theorem healthy_worker_is_counted s sm em r c1 powerStates c2 :
  let rg := pd_resourceGroupName (providerData (worker s)) in
  let name := r_name (vm_res (pd_vm (providerData (worker s)))) in
  let pool := workerPoolId (worker s) in
  let t := api_now cloud c2 in
  seen s = Some sm -> errors s = Some em ->
  api_get cloud virtualMachines rg name (world s) = (inr r, c1) ->
  api_instanceView cloud rg name c1 = (inr powerStates, c2) ->
  healthy r powerStates = true ->
  overdue (worker s) t = false ->
  (checkWorker cloud s).1 = Return tt
  /\ seen (checkWorker cloud s).2
     = Some (<[pool := default 0 (sm !! pool) + capacity_or_one (worker s)]> sm)
  /\ expires (worker (checkWorker cloud s).2)
     = (if expires (worker s) <? t + day then t + week else expires (worker s))
  /\ lastChecked (worker (checkWorker cloud s).2) = t
  /\ steady (worker s) (worker (checkWorker cloud s).2)
  /\ exists d, trace (checkWorker cloud s).2 = trace s ++ d /\ Forall calm d.
Proof.
  intros rg name pool t Hseen Herrors Hget Hview Hhealthy Hdue. subst rg name pool t.
  unfold healthy in Hhealthy. unfold overdue in Hdue.
  change (wp (checkWorker cloud) s
            (fun res s' =>
               res = Return tt
               /\ seen s'
                  = Some (<[workerPoolId (worker s)
                            := default 0 (sm !! workerPoolId (worker s))
                               + capacity_or_one (worker s)]> sm)
               /\ expires (worker s')
                  = (if expires (worker s) <? api_now cloud c2 + day
                     then api_now cloud c2 + week else expires (worker s))
               /\ lastChecked (worker s') = api_now cloud c2
               /\ steady (worker s) (worker s')
               /\ exists d, trace s' = trace s ++ d /\ Forall calm d)).
  unfold checkWorker, fetchVmInfo, seen_add.
  wp_struct. wp_struct. wp_struct.
  wp_case; [wp_here | wp_struct].
  all: repeat wp_struct; rec_simpl; rewrite ?Hseen; cbv iota.
  all: repeat wp_struct; wp_here; repeat wp_struct; rec_simpl; rewrite ?Herrors; cbv iota.
  all: repeat wp_struct; wp_here; repeat wp_struct; rec_simpl.
  all: wp_here; rec_simpl; rewrite Hget in H; [discriminate H | injection H as <- <-].
  all: repeat wp_struct; rec_simpl.
  all: wp_case; [wp_here | wp_struct]; repeat wp_struct; rec_simpl.
  all: wp_here; rec_simpl; rewrite Hview in H; [discriminate H | injection H as <- <-].
  all: rewrite Hhealthy; cbv iota.
  all: repeat wp_struct; rec_simpl; wp_here; repeat wp_struct; rec_simpl.
  all: wp_case; [repeat wp_struct; wp_here | wp_struct]; repeat wp_struct; rec_simpl.
  all: rewrite Hdue; cbv iota.
  all: repeat wp_struct; wp_here; rec_simpl.
  all: rewrite ?(bool_decide_eq_true_2 _ eq_refl).
  all: split; [done|].
  all: split; [by rewrite lookup_insert_eq, insert_insert_eq|].
  all: split; [done|]. all: split; [done|]. all: split; [done|].
  all: rewrite <- ?app_assoc; eexists; split; [reflexivity|]; simpl.
  all: repeat constructor.
Qed.

(** X10 -- A worker past its [terminateAfter] is removed.  In a
    [checkWorker] pass of a prepared scan in which the VM passes the healthy
    test but [terminateAfter] is set and lies before the time of the pass,
    [removeWorker] is invoked with the reason 'terminateAfter time exceeded',
    and the state the pass writes is [stopping] or [stopped]. *)
Theorem overdue_worker_is_removed s sm em r c1 powerStates c2 :
  let rg := pd_resourceGroupName (providerData (worker s)) in
  let name := r_name (vm_res (pd_vm (providerData (worker s)))) in
  seen s = Some sm -> errors s = Some em ->
  api_get cloud virtualMachines rg name (world s) = (inr r, c1) ->
  api_instanceView cloud rg name c1 = (inr powerStates, c2) ->
  healthy r powerStates = true ->
  overdue (worker s) (api_now cloud c2) = true ->
  (checkWorker cloud s).1 = Return tt
  /\ (state (worker (checkWorker cloud s).2) = STOPPING
      \/ state (worker (checkWorker cloud s).2) = STOPPED)
  /\ exists d,
      trace (checkWorker cloud s).2 = trace s ++ d
      /\ removed_with "terminateAfter time exceeded" d.
Proof.
  intros rg name Hseen Herrors Hget Hview Hhealthy Hdue. subst rg name.
  unfold healthy in Hhealthy. unfold overdue in Hdue.
  change (wp (checkWorker cloud) s
            (fun res s' =>
               res = Return tt
               /\ (state (worker s') = STOPPING \/ state (worker s') = STOPPED)
               /\ exists d, trace s' = trace s ++ d
                            /\ removed_with "terminateAfter time exceeded" d)).
  unfold checkWorker, fetchVmInfo, seen_add.
  wp_struct. wp_struct. wp_struct.
  wp_case; [wp_here | wp_struct].
  all: repeat wp_struct; rec_simpl; rewrite ?Hseen; cbv iota.
  all: repeat wp_struct; wp_here; repeat wp_struct; rec_simpl; rewrite ?Herrors; cbv iota.
  all: repeat wp_struct; wp_here; repeat wp_struct; rec_simpl.
  all: wp_here; rec_simpl; rewrite Hget in H; [discriminate H | injection H as <- <-].
  all: repeat wp_struct; rec_simpl.
  all: wp_case; [wp_here | wp_struct]; repeat wp_struct; rec_simpl.
  all: wp_here; rec_simpl; rewrite Hview in H; [discriminate H | injection H as <- <-].
  all: rewrite Hhealthy; cbv iota.
  all: repeat wp_struct; rec_simpl; wp_here; repeat wp_struct; rec_simpl.
  all: wp_case; [repeat wp_struct; wp_here | wp_struct]; repeat wp_struct; rec_simpl.
  all: rewrite Hdue; cbv iota.
  all: eapply wp_mono;
    [exact (wp_and _ _ _ _ (removeWorker_state _ _) (removeWorker_trace _ _))|].
  all: intros ? s' [Hstate (d & Hd)]; rec_simpl; cbv beta iota.
  all: destruct Hstate as [(-> & _)|(-> & _)].
  all: repeat wp_struct; wp_here; rec_simpl.
  all: split; [done|]; split; [by auto|].
  all: rewrite Hd, <- !app_assoc; eexists; split; [reflexivity|].
  all: repeat first [ apply removed_with_here
                    | apply removed_with_app_l; apply removed_with_here
                    | apply removed_with_app_r ].
Qed.

(** X11 -- A cloud failure aborts the pass.  When, in a [checkWorker] pass
    of a prepared scan, the GET of the VM or the request for its instance
    view fails with an error whose status code is not 404, the pass throws
    that very error: the row is not marked as checked ([state],
    [lastModified], [lastChecked] and [expires] are as they were; only
    [providerData] may have been written, by the disk migration and the vmId
    fetch), nothing is provisioned or removed, and no error is reported. *)
Theorem cloud_failure_aborts_pass s sm em err :
  let rg := pd_resourceGroupName (providerData (worker s)) in
  let name := r_name (vm_res (pd_vm (providerData (worker s)))) in
  seen s = Some sm -> errors s = Some em ->
  statusCode err <> Some 404 ->
  (exists c1, api_get cloud virtualMachines rg name (world s) = (inl err, c1))
  \/ (exists r c1 c2,
         api_get cloud virtualMachines rg name (world s) = (inr r, c1)
         /\ api_instanceView cloud rg name c1 = (inl err, c2)) ->
  (checkWorker cloud s).1 = Throw err
  /\ providerData_only (worker s) (worker (checkWorker cloud s).2)
  /\ exists d, trace (checkWorker cloud s).2 = trace s ++ d /\ Forall calm d.
Proof.
  intros rg name Hseen Herrors Hnot Hfail. subst rg name.
  apply (bool_decide_eq_false_2 (statusCode err = Some 404)) in Hnot.
  change (wp (checkWorker cloud) s
            (fun res s' =>
               res = Throw err
               /\ providerData_only (worker s) (worker s')
               /\ exists d, trace s' = trace s ++ d /\ Forall calm d)).
  unfold checkWorker, fetchVmInfo, seen_add.
  wp_struct. wp_struct. wp_struct.
  wp_case; [wp_here | wp_struct].
  all: repeat wp_struct; rec_simpl; rewrite ?Hseen; cbv iota.
  all: repeat wp_struct; wp_here; repeat wp_struct; rec_simpl; rewrite ?Herrors; cbv iota.
  all: repeat wp_struct; wp_here; repeat wp_struct; rec_simpl.
  all: destruct Hfail as [(ca & Hget)|(vmr & ca & cb & Hget & Hview)].
  all: wp_here; rec_simpl; rewrite Hget in H;
    first [discriminate H | injection H as <- <-].
  all: repeat wp_struct; rec_simpl; rewrite ?Hnot; cbn [negb]; cbv iota.
  all: repeat wp_struct; rec_simpl.
  all: try (wp_case; [wp_here | wp_struct]; repeat wp_struct; rec_simpl;
            wp_here; rec_simpl; rewrite Hview in H;
            first [discriminate H | injection H as <- <-];
            repeat wp_struct; rewrite ?Hnot; cbn [negb]; cbv iota;
            repeat wp_struct; rec_simpl).
  all: split; [done|]; split; [by destruct (worker s)|].
  all: rewrite <- ?app_assoc; eexists; split; [reflexivity|]; simpl.
  all: repeat constructor.
Qed.

(** X12 -- A VM the scanner cannot classify is reported, not removed.  In a
    [checkWorker] pass of a prepared scan in which the VM passes neither the
    healthy nor the failed test (an unknown provisioning state, or no power
    state reported yet), the pass returns and leaves [state],
    [lastModified] and the ip, nic and vm triples as they were; it files one
    'creation-error' report that names the provisioning state and the power
    states if the worker pool still exists, none if it does not; it issues
    no request that changes the cloud and does not invoke [removeWorker]. *)
Theorem unknown_state_is_reported s sm em r c1 powerStates c2 :
  let rg := pd_resourceGroupName (providerData (worker s)) in
  let name := r_name (vm_res (pd_vm (providerData (worker s)))) in
  seen s = Some sm -> errors s = Some em ->
  api_get cloud virtualMachines rg name (world s) = (inr r, c1) ->
  api_instanceView cloud rg name c1 = (inr powerStates, c2) ->
  healthy r powerStates = false ->
  failing r powerStates = false ->
  (checkWorker cloud s).1 = Return tt
  /\ steady (worker s) (worker (checkWorker cloud s).2)
  /\ exists d,
      trace (checkWorker cloud s).2 = trace s ++ d
      /\ Forall calm_or_report d
      /\ reports_of d
         = if api_workerPool cloud c2 then [unknown_state_report r powerStates] else [].
Proof.
  intros rg name Hseen Herrors Hget Hview Hhealthy Hfailing. subst rg name.
  unfold healthy in Hhealthy. unfold failing in Hfailing.
  change (wp (checkWorker cloud) s
            (fun res s' =>
               res = Return tt
               /\ steady (worker s) (worker s')
               /\ exists d,
                   trace s' = trace s ++ d
                   /\ Forall calm_or_report d
                   /\ reports_of d
                      = if api_workerPool cloud c2
                        then [unknown_state_report r powerStates] else [])).
  unfold checkWorker, fetchVmInfo, seen_add.
  wp_struct. wp_struct. wp_struct.
  wp_case; [wp_here | wp_struct].
  all: repeat wp_struct; rec_simpl; rewrite ?Hseen; cbv iota.
  all: repeat wp_struct; wp_here; repeat wp_struct; rec_simpl; rewrite ?Herrors; cbv iota.
  all: repeat wp_struct; wp_here; repeat wp_struct; rec_simpl.
  all: wp_here; rec_simpl; rewrite Hget in H; [discriminate H | injection H as <- <-].
  all: repeat wp_struct; rec_simpl.
  all: wp_case; [wp_here | wp_struct]; repeat wp_struct; rec_simpl.
  all: wp_here; rec_simpl; rewrite Hview in H; [discriminate H | injection H as <- <-].
  all: rewrite Hhealthy, Hfailing; cbv iota.
  all: repeat wp_struct; rec_simpl.
  all: wp_case; [wp_here | wp_struct]; repeat wp_struct; wp_here; rec_simpl.
  all: rewrite ?(bool_decide_eq_true_2 _ eq_refl).
  all: split; [done|]; split; [done|].
  all: rewrite <- ?app_assoc; simpl.
  all: eexists; split; [reflexivity|]; split; [repeat constructor|reflexivity].
Qed.

(** ** Removal *)

(** X13 -- [removeWorker] never throws and never creates.  Whatever the
    worker, the cloud and the scan state, the call returns [stopping] or
    [stopped]; it returns [stopped] exactly when the row's state is [stopped]
    afterwards; when it returns [stopping] it has written nothing but
    [providerData] (the state [stopping] is for the caller to persist); and
    it issues no create request. *)
Theorem removeWorker_never_throws reason s :
  ((removeWorker cloud reason s).1 = Return STOPPING
   /\ state (worker (removeWorker cloud reason s).2) <> STOPPED
   /\ providerData_only (worker s) (worker (removeWorker cloud reason s).2)
   \/ (removeWorker cloud reason s).1 = Return STOPPED
      /\ state (worker (removeWorker cloud reason s).2) = STOPPED)
  /\ exists d,
      trace (removeWorker cloud reason s).2 = trace s ++ d /\ Forall not_a_create d.
Proof.
  split; [exact (removeWorker_state reason s)|].
  destruct (removeWorker_no_create reason s) as [_ (d & Hd & Hall)].
  exists d. split; [done|]. eapply Forall_impl; [exact Hall|]. by intros e [_ ?].
Qed.

(** [removeResource] answers [true] only after a 404 on its GET of the
    resource the row names; what it then did is that GET and the write that
    forgets the resource. *)
Lemma removeResource_true_exact client target s :
  wp (removeResource cloud client target) s
     (fun r s' =>
        r = Return true ->
        worker s' = on_providerData (on_target target forget) (worker s)
        /\ exists d res,
            trace s' = trace s ++ d
            /\ target_resource target (worker s) = Some res
            /\ found_gone client (pd_resourceGroupName (providerData (worker s)))
                          (r_name res) d
            /\ Forall calm d).
Proof.
  unfold removeResource.
  repeat first [ wp_struct | wp_here | wp_case ].
  all: intros [=].
  all: apply bool_decide_eq_true_1 in Heqb0.
  all: split; [done|].
  all: rewrite <- app_assoc; eexists _, _; split; [reflexivity|].
  all: split; [cbn [target_resource]; by simplify_option_eq|].
  all: split; [|simpl; repeat constructor].
  all: eexists _, _; split; [apply list_elem_of_here|]; split; [reflexivity|done].
Qed.

(** Forgetting a resource triple keeps the names of the row. *)
Lemma forget_same_names t w : same_names w (on_providerData (on_target t forget) w).
Proof.
  split; [by destruct t as [[]|]|].
  intros ty. by destruct t as [[]|], ty.
Qed.

Lemma disks_only_trans w1 w2 w3 : disks_only w1 w2 -> disks_only w2 w3 -> disks_only w1 w3.
Proof. unfold disks_only. intros H1 H2. rewrite H2, H1. by destruct w1. Qed.

Lemma disks_only_refl w : disks_only w w.
Proof. by destruct w as [? ? ? ? ? ? ? ? ? []]. Qed.

(** The loop over the disks answers [true] only when every disk was found
    gone. *)
Lemma removeDisks_true indices acc s :
  wp (removeDisks cloud indices acc) s
     (fun r s' =>
        r = Return true ->
        acc = true /\ disks_only (worker s) (worker s')
        /\ exists d, trace s' = trace s ++ d /\ Forall calm d).
Proof.
  revert acc s. induction indices as [|i rest IH]; intros acc s; cbn [removeDisks].
  - wp_struct. intros [= ->]. split; [done|]. split; [apply disks_only_refl|].
    exists []. by rewrite app_nil_r.
  - wp_struct. eapply wp_mono; [apply removeResource_true_exact|].
    intros [success|e] s1 H1; cbv beta iota; [|by intros [=]].
    eapply wp_mono; [apply IH|]. intros r s2 H2 Hr. cbv beta in H2.
    destruct (H2 Hr) as (Hacc & Hdisks & d2 & Hd2 & Hcalm2).
    destruct success; [|done].
    destruct (H1 eq_refl) as (Hw1 & d1 & res1 & Hd1 & _ & _ & Hcalm1).
    split; [done|]. split.
    + eapply disks_only_trans; [|exact Hdisks]. rewrite Hw1.
      unfold disks_only. by destruct (worker s) as [? ? ? ? ? ? ? ? ? []].
    + exists (d1 ++ d2). split; [by rewrite Hd2, Hd1, app_assoc|].
      by apply Forall_app.
Qed.

Lemma existsb_false_Forall {A} (p : A -> bool) l :
  existsb p l = false -> Forall (fun x => p x = false) l.
Proof.
  induction l as [|x l IH]; simpl; [constructor|].
  intros [Hx Hl]%orb_false_iff. constructor; auto.
Qed.

(** X14 -- A worker is declared stopped only in a pass that deleted
    nothing.  When [removeWorker] takes a worker that is not yet [stopped]
    to [stopped], then in that very call the GETs of the VM, of the network
    interface and of the public IP were each answered 404 -- each GET naming
    the resource group of the row and the name the row holds for that
    resource --, the call did nothing but look at the cloud and write the row
    (no delete request), and the row ends with [vm.id], [nic.id] and [ip.id]
    all [false], no disk with an id, and [lastModified] equal to
    [lastChecked]. *)
Theorem stopped_only_when_verified reason s :
  state (worker s) <> STOPPED ->
  (removeWorker cloud reason s).1 = Return STOPPED ->
  let w' := worker (removeWorker cloud reason s).2 in
  (r_id (vm_res (pd_vm (providerData w'))) = JBool false
   /\ r_id (pd_nic (providerData w')) = JBool false
   /\ r_id (pd_ip (providerData w')) = JBool false
   /\ Forall (fun d => truthy (r_id d) = false) (default [] (pd_disks (providerData w'))))
  /\ (state w' = STOPPED /\ lastModified w' = lastChecked w')
  /\ exists d,
      trace (removeWorker cloud reason s).2
      = trace s ++ {| at_worker := worker s; event := LogWorkerRemoved reason |} :: d
      /\ Forall calm d
      /\ verified_gone (worker s) virtualMachines d
      /\ verified_gone (worker s) networkInterfaces d
      /\ verified_gone (worker s) publicIPAddresses d.
Proof.
  intros Hst. cbv zeta.
  change (wp (removeWorker cloud reason) s
            (fun r s' =>
               r = Return STOPPED ->
               (r_id (vm_res (pd_vm (providerData (worker s')))) = JBool false
                /\ r_id (pd_nic (providerData (worker s'))) = JBool false
                /\ r_id (pd_ip (providerData (worker s'))) = JBool false
                /\ Forall (fun d => truthy (r_id d) = false)
                          (default [] (pd_disks (providerData (worker s')))))
               /\ (state (worker s') = STOPPED
                   /\ lastModified (worker s') = lastChecked (worker s'))
               /\ exists d,
                   trace s'
                   = trace s ++ {| at_worker := worker s;
                                   event := LogWorkerRemoved reason |} :: d
                   /\ Forall calm d
                   /\ verified_gone (worker s) virtualMachines d
                   /\ verified_gone (worker s) networkInterfaces d
                   /\ verified_gone (worker s) publicIPAddresses d)).
  unfold removeWorker. wp_struct. wp_here. wp_struct. wp_struct.
  rewrite (bool_decide_eq_false_2 _ Hst). cbv iota.
  wp_struct. wp_struct.
  eapply wp_mono; [apply removeResource_true_exact|].
  intros [vmDeleted|e] s1 H1; cbv beta iota.
  2:{ repeat first [ wp_struct | wp_here ]. intros [=]. }
  wp_struct. wp_struct. wp_case; [wp_struct; intros [=]|].
  apply orb_false_iff in Heqb as [->%negb_false_iff Hvm].
  destruct (H1 eq_refl) as (Hw1 & d1 & res1 & Hd1 & Hres1 & Hf1 & Hc1). clear H1.
  pose proof (verified_gone_single vm _ _ _ Hres1 Hf1) as Hg1.
  assert (Hn1 : same_names (worker s) (worker s1))
    by (rewrite Hw1; apply forget_same_names).
  wp_struct.
  eapply wp_mono; [apply removeResource_true_exact|].
  intros [nicDeleted|e] s2 H2; cbv beta iota.
  2:{ repeat first [ wp_struct | wp_here ]. intros [=]. }
  wp_struct. wp_struct. wp_case; [wp_struct; intros [=]|].
  apply orb_false_iff in Heqb as [->%negb_false_iff Hnic].
  destruct (H2 eq_refl) as (Hw2 & d2 & res2 & Hd2 & Hres2 & Hf2 & Hc2). clear H2.
  pose proof (verified_gone_single nic _ _ _ Hres2 Hf2) as Hg2.
  assert (Hn2 : same_names (worker s1) (worker s2))
    by (rewrite Hw2; apply forget_same_names).
  wp_struct.
  eapply wp_mono; [apply removeResource_true_exact|].
  intros [ipDeleted|e] s3 H3; cbv beta iota.
  2:{ repeat first [ wp_struct | wp_here ]. intros [=]. }
  wp_struct. wp_struct. wp_case; [wp_struct; intros [=]|].
  apply orb_false_iff in Heqb as [->%negb_false_iff Hip].
  destruct (H3 eq_refl) as (Hw3 & d3 & res3 & Hd3 & Hres3 & Hf3 & Hc3). clear H3.
  pose proof (verified_gone_single ip _ _ _ Hres3 Hf3) as Hg3.
  wp_case.
  2:{ repeat first [ wp_struct | wp_here ]. intros [=]. }
  wp_struct.
  eapply wp_mono; [apply removeDisks_true|].
  intros [disksDeleted|e] s4 H4; cbv beta iota.
  2:{ repeat first [ wp_struct | wp_here ]. intros [=]. }
  wp_struct. wp_struct. wp_case; [wp_struct; intros [=]|].
  apply orb_false_iff in Heqb as [->%negb_false_iff Hdisks].
  destruct (H4 eq_refl) as (_ & Hw4 & d4 & Hd4 & Hc4). clear H4.
  repeat first [ wp_struct | wp_here ]. intros _.
  assert (Hvm4 : vm_res (pd_vm (providerData (worker s4)))
                 = forget (vm_res (pd_vm (providerData (worker s))))).
  { rewrite Hw4. cbn. by rewrite Hw3, Hw2, Hw1. }
  assert (Hnic4 : pd_nic (providerData (worker s4))
                  = forget (pd_nic (providerData (worker s)))).
  { rewrite Hw4. cbn. by rewrite Hw3, Hw2, Hw1. }
  assert (Hip4 : pd_ip (providerData (worker s4))
                 = forget (pd_ip (providerData (worker s)))).
  { rewrite Hw4. cbn. by rewrite Hw3, Hw2, Hw1. }
  rec_simpl. rewrite Hvm4, Hnic4, Hip4.
  split; [repeat split; by apply existsb_false_Forall|].
  split; [done|].
  rewrite Hd4, Hd3, Hd2, Hd1, <- !app_assoc. cbn [app].
  eexists. split; [reflexivity|].
  split; [rewrite !Forall_app; repeat split; try done; repeat constructor|].
  assert (Hb1 : same_names (worker s1) (worker s)).
  { destruct Hn1 as [R1 N1]. split; [done|]. intros ty. by rewrite N1. }
  assert (Hb2 : same_names (worker s2) (worker s)).
  { destruct Hn2 as [R2 N2], Hb1 as [R1 N1]. split; [congruence|].
    intros ty. by rewrite N1, N2. }
  split; [by apply verified_gone_app_l|].
  split; [exact (verified_gone_app_r _ _ _ _
                   (verified_gone_app_l _ _ _ _ (verified_gone_names _ _ _ _ Hb1 Hg2)))|].
  exact (verified_gone_app_r _ _ _ _
           (verified_gone_app_r _ _ _ _
              (verified_gone_app_l _ _ _ _ (verified_gone_names _ _ _ _ Hb2 Hg3)))).
Qed.

Lemma removeWorker_waits reason s :
  vm_being_deleted cloud ->
  truthy (r_id (vm_res (pd_vm (providerData (worker s))))) = false ->
  state (worker s) <> STOPPED ->
  wp (removeWorker cloud reason) s
     (fun r s' =>
        r = Return STOPPING /\ worker s' = worker s /\ errors s' = errors s
        /\ exists d, trace s' = trace s ++ d /\ Forall waiting d).
Proof.
  intros Hcloud Hid Hst. unfold removeWorker, removeResource.
  wp_struct. wp_here. wp_struct. wp_struct.
  rewrite (bool_decide_eq_false_2 _ Hst). cbv iota.
  repeat wp_struct. cbn [typeData]. rewrite Hid. cbn [negb]. cbv iota.
  wp_struct. wp_struct. wp_here.
  all: rec_simpl.
  all: destruct (Hcloud (pd_resourceGroupName (providerData (worker s)))
                        (r_name (vm_res (pd_vm (providerData (worker s))))) (world s))
    as (r & c1 & Hget & Hdel); rewrite Hget in H;
    first [discriminate H | injection H as <- <-].
  repeat wp_struct. rewrite Hdel. cbn [negb orb]. cbv iota.
  repeat wp_struct. cbn [negb orb]. cbv iota. wp_struct.
  repeat split. rewrite <- app_assoc. eexists. split; [reflexivity|].
  simpl. repeat constructor.
Qed.

(** X15 -- Removal waits for a deletion in progress.  While the cloud
    answers that the VM is being deleted (provisioning state Deleting,
    Deallocating or Deallocated) and the row holds no [vm.id], any number of
    [removeWorker] calls on a worker that is not [stopped] do nothing but log
    the call and look up the VM: no delete request is repeated, the nic, the
    ip and the disks are not touched, the row is not written and no error is
    recorded. *)
Theorem removal_waits_for_deletion n reason s :
  vm_being_deleted cloud ->
  truthy (r_id (vm_res (pd_vm (providerData (worker s))))) = false ->
  state (worker s) <> STOPPED ->
  worker (repeat_op (removeWorker cloud reason) n s) = worker s
  /\ errors (repeat_op (removeWorker cloud reason) n s) = errors s
  /\ exists d,
      trace (repeat_op (removeWorker cloud reason) n s) = trace s ++ d
      /\ Forall waiting d.
Proof.
  intros Hcloud. revert s. induction n as [|n IH]; intros s Hid Hst; cbn [repeat_op].
  - repeat split. exists []. by rewrite app_nil_r.
  - destruct (removeWorker_waits reason s Hcloud Hid Hst)
      as (_ & Hw & He & d1 & Hd1 & Hall1).
    destruct (IH (removeWorker cloud reason s).2) as (Hw' & He' & d2 & Hd2 & Hall2);
      [by rewrite Hw | by rewrite Hw|].
    split; [congruence|]. split; [congruence|].
    exists (d1 ++ d2). split; [by rewrite Hd2, Hd1, app_assoc|]. by apply Forall_app.
Qed.

(** X16 -- A failed removal is recorded, not thrown.  When the row holds
    the VM's id and the delete request fails, or holds none and the GET of
    the VM fails with a status other than 404, [removeWorker] on a worker
    that is not [stopped] returns [stopping], pushes a 'deletion-error' with
    the error's message and code on the error list of the worker's pool
    (creating [this.errors] and the list when the call is made outside a
    scan), and writes nothing to the row. *)
Theorem removal_error_is_recorded reason s err c1 :
  let rg := pd_resourceGroupName (providerData (worker s)) in
  let vmr := vm_res (pd_vm (providerData (worker s))) in
  let failed_call :=
    if truthy (r_id vmr)
    then BeginDeleteMethod virtualMachines rg (r_name vmr) (inl err)
    else Get virtualMachines rg (r_name vmr) (inl err) in
  state (worker s) <> STOPPED ->
  (if truthy (r_id vmr)
   then api_beginDeleteMethod cloud virtualMachines rg (r_name vmr) (world s) = (inl err, c1)
   else api_get cloud virtualMachines rg (r_name vmr) (world s) = (inl err, c1)
        /\ statusCode err <> Some 404) ->
  removeWorker cloud reason s
  = (Return STOPPING,
     {| worker := worker s; world := c1;
        trace := trace s ++ [ {| at_worker := worker s; event := LogWorkerRemoved reason |};
                              {| at_worker := worker s; event := failed_call |} ];
        seen := seen s;
        errors := pushed (workerPoolId (worker s)) (deletion_error err) (errors s) |}).
Proof.
  intros rg vmr failed_call Hst Hfail. subst rg vmr failed_call.
  apply wp_eq. unfold removeWorker, removeResource.
  wp_struct. wp_here. wp_struct. wp_struct.
  rewrite (bool_decide_eq_false_2 _ Hst). cbv iota.
  repeat wp_struct. cbn [typeData].
  destruct (truthy (r_id (vm_res (pd_vm (providerData (worker s)))))) eqn:Hid;
    cbn [negb orb]; cbv iota.
  - repeat wp_struct. wp_here; rec_simpl; rewrite Hfail in H;
      [injection H as <- <- | discriminate H].
    repeat first [ wp_struct | wp_here ]. by rewrite <- app_assoc.
  - destruct Hfail as [Hget Hnot].
    repeat wp_struct. wp_here; rec_simpl; rewrite Hget in H;
      [injection H as <- <- | discriminate H].
    rewrite (bool_decide_eq_false_2 _ Hnot). cbv iota.
    repeat first [ wp_struct | wp_here ]. by rewrite <- app_assoc.
Qed.

(** ** The order of creation *)

Lemma footprint_create_of client ty cfg w e :
  footprint_entry e -> create_of client ty cfg w e.
Proof. unfold footprint_entry, create_of. by destruct (event e). Qed.

Lemma footprint_in_order e : footprint_entry e -> in_order e.
Proof. unfold footprint_entry, in_order. by destruct (event e). Qed.

Lemma ext_entries (ok : Entry -> Prop) s s' :
  (exists d, trace s' = trace s ++ d /\ Forall ok d) <-> ext (fun _ _ => True) ok s s'.
Proof.
  split.
  - intros (d & Hd & Hall). split; [done|]. exists d. split; [done|].
    eapply Forall_impl; [exact Hall|]. done.
  - intros [_ (d & Hd & Hall)]. exists d. split; [done|].
    eapply Forall_impl; [exact Hall|]. by intros e [_ ?].
Qed.

(** Close a goal about the entries appended since [s]: the trace is the
    one of [s] followed by known entries and by those of calls. *)
Ltac entries_leaf lem :=
  rec_simpl;
  repeat match goal with
         | H : trace ?x = _ |- context [trace ?x] => rewrite H
         end;
  rec_simpl; rewrite <- ?app_assoc;
  first [ exists []; split; [by rewrite app_nil_r | constructor]
        | eexists; split; [reflexivity|];
          cbn [app];
          repeat first
            [ apply Forall_nil_2
            | apply Forall_cons_2; [first [exact I | done]|]
            | apply Forall_app_2
            | eapply Forall_impl; [eassumption|]; cbv beta; intros ? [_ ?];
              by apply lem ] ].

Lemma provisionResource_creates client ty cfg modifyFn s :
  wp (provisionResource cloud client ty cfg modifyFn) s
     (fun _ s' =>
        exists d, trace s' = trace s ++ d
                  /\ Forall (create_of client ty cfg (worker s)) d).
Proof.
  unfold provisionResource.
  repeat first
    [ wp_struct | wp_here | wp_case
    | lazymatch goal with
      | |- wp (removeWorker _ _) _ _ =>
        eapply wp_mono;
          [exact (wp_and _ _ _ _ (removeWorker_returns _ _) (removeWorker_entries _ _))|];
        intros ? ? [[? ->] [_ (? & ? & ?)]]; cbv beta iota
      | |- wp (handleOperation _ _) _ _ =>
        eapply wp_mono; [apply handleOperation_entries|];
        intros [?|?] ? [_ (? & ? & ?)]; cbv beta iota
      end ].
  all: entries_leaf footprint_create_of.
Qed.

Lemma create_of_in_order client ty cfg w e :
  create_of client ty cfg w e ->
  in_order {| at_worker := w;
              event := BeginCreateOrUpdate client (pd_resourceGroupName (providerData w))
                         (r_name (typeData (providerData w) ty))
                         {| body_config := cfg; body_tags := ∅ |} (inl (Error "")) |} ->
  in_order e.
Proof.
  unfold create_of, in_order. destruct e as [w' ev]. cbn [event at_worker].
  destruct ev; try done.
  intros (-> & -> & -> & -> & ->). cbn [body_config]. done.
Qed.

Lemma Forall_in_order client ty cfg w d :
  in_order {| at_worker := w;
              event := BeginCreateOrUpdate client (pd_resourceGroupName (providerData w))
                         (r_name (typeData (providerData w) ty))
                         {| body_config := cfg; body_tags := ∅ |} (inl (Error "")) |} ->
  Forall (create_of client ty cfg w) d -> Forall in_order d.
Proof.
  intros Hin Hall. eapply Forall_impl; [exact Hall|].
  intros e He. by eapply create_of_in_order.
Qed.

Lemma Forall_footprint_in_order d :
  Forall (fun e => True /\ footprint_entry e) d -> Forall in_order d.
Proof.
  intros Hall. eapply Forall_impl; [exact Hall|]. intros e [_ He].
  by apply footprint_in_order.
Qed.

Ltac in_order_leaf :=
  rec_simpl;
  repeat match goal with
         | H : trace ?x = _ |- context [trace ?x] => rewrite H
         end;
  rec_simpl; rewrite <- ?app_assoc;
  first [ exists []; split; [by rewrite app_nil_r | constructor]
        | eexists; split; [reflexivity|];
          cbn [app];
          repeat first
            [ apply Forall_nil_2
            | assumption
            | apply Forall_cons_2; [first [exact I | done]|]
            | apply Forall_app_2 ] ].

Lemma provisionResources_in_order s :
  wp (provisionResources cloud) s
     (fun _ s' => exists d, trace s' = trace s ++ d /\ Forall in_order d).
Proof.
  unfold provisionResources.
  wp_struct. wp_struct. wp_struct. wp_struct.
  eapply wp_mono; [apply provisionResource_creates|].
  intros r1 s1 (d1 & Hd1 & Hall1). cbv beta iota.
  apply Forall_in_order in Hall1; [|by repeat split].
  assert (Hcatch : forall err s2 d2,
             trace s2 = trace s ++ d2 -> Forall in_order d2 ->
             wp (bind (WorkerPool_get cloud)
                   (fun workerPool =>
                      bind (if workerPool : bool
                            then reportError "creation-error" "VM Creation Error"
                                             (message err)
                            else ret tt)
                        (fun _ => removeWorker cloud ("VM Creation Error: " +:+ message err))))
                s2 (fun _ s' => exists d, trace s' = trace s ++ d /\ Forall in_order d)).
  { intros err s2 d2 Hd2 Hall2.
    wp_struct. wp_struct. wp_struct. wp_case; [wp_here|wp_struct].
    all: eapply wp_mono; [apply removeWorker_entries|].
    all: intros ? ? [_ (? & ? & ?%Forall_footprint_in_order)]; cbv beta.
    all: in_order_leaf. }
  destruct r1 as [[]|err]; [|by eapply Hcatch].
  wp_struct. wp_struct. wp_case; [wp_struct; in_order_leaf|].
  apply negb_false_iff in Heqb.
  wp_struct.
  eapply wp_mono; [apply provisionResource_creates|].
  intros r2 s2 (d2 & Hd2 & Hall2). cbv beta iota.
  apply Forall_in_order in Hall2; [|by repeat split].
  destruct r2 as [[]|err];
    [|eapply Hcatch; [by rewrite Hd2, Hd1, <- app_assoc | by apply Forall_app_2]].
  wp_struct. wp_struct. wp_case; [wp_struct; in_order_leaf|].
  apply negb_false_iff in Heqb0.
  wp_struct. wp_struct. wp_struct.
  eapply wp_mono; [apply provisionResource_creates|].
  intros r3 s3 (d3 & Hd3 & Hall3). cbv beta iota.
  apply Forall_in_order in Hall3; [|repeat split; by eauto].
  destruct r3 as [[]|err].
  - wp_struct. wp_struct. wp_case; wp_struct; in_order_leaf.
  - eapply Hcatch; [by rewrite Hd3, Hd2, Hd1, <- !app_assoc|].
    by repeat apply Forall_app_2.
Qed.

Lemma provisionResources_ordered s :
  wp (provisionResources cloud) s (fun _ s' => ext (fun _ _ => True) in_order s s').
Proof.
  eapply wp_mono; [apply provisionResources_in_order|].
  intros r s' H. by apply ext_entries.
Qed.

Lemma removeWorker_ordered_creates reason s :
  wp (removeWorker cloud reason) s (fun _ s' => ext (fun _ _ => True) in_order s s').
Proof.
  apply removeWorker_footprint; [apply _ | done | apply footprint_in_order | done].
Qed.

Lemma fetchVmInfo_ordered s :
  wp (fetchVmInfo cloud) s (fun _ s' => ext (fun _ _ => True) in_order s s').
Proof. apply fetchVmInfo_footprint; [apply _ | done | apply footprint_in_order]. Qed.

Ltac ext_known ::=
  lazymatch goal with
  | _ : ext frame tagged _ ?s |- wp (removeResource _ _ _) ?s _ =>
    ext_call removeResource_kept
  | _ : ext frame tagged _ ?s |- wp (removeDisks _ _ _) ?s _ =>
    ext_call removeDisks_kept
  | _ : ext frame tagged _ ?s |- wp (removeWorker _ _) ?s _ =>
    ext_call removeWorker_kept
  | _ : ext frame tagged _ ?s |- wp (provisionResources _) ?s _ =>
    ext_call provisionResources_kept
  | _ : ext frame tagged _ ?s |- wp (fetchVmInfo _) ?s _ =>
    ext_call fetchVmInfo_kept
  | _ : ext providerData_only any_entry _ ?s |- wp (removeResource _ _ _) ?s _ =>
    ext_call removeResource_record
  | _ : ext providerData_only any_entry _ ?s |- wp (removeDisks _ _ _) ?s _ =>
    ext_call removeDisks_record
  | _ : ext _ in_order _ ?s |- wp (removeWorker _ _) ?s _ =>
    ext_call removeWorker_ordered_creates
  | _ : ext _ in_order _ ?s |- wp (provisionResources _) ?s _ =>
    ext_call provisionResources_ordered
  | _ : ext _ in_order _ ?s |- wp (fetchVmInfo _) ?s _ =>
    ext_call fetchVmInfo_ordered
  end.

Lemma checkWorker_ordered s :
  wp (checkWorker cloud) s (fun _ s' => ext (fun _ _ => True) in_order s s').
Proof. ext_start. unfold checkWorker, seen_add. ext_go. Qed.

Lemma run_ops_ordered ops s : ext (fun _ _ => True) in_order s (run_ops cloud ops s).
Proof.
  revert s. induction ops as [|op ops IH]; intros s; simpl.
  - apply ext_refl, _.
  - eapply ext_trans; [apply _ | | apply IH].
    destruct op; simpl.
    + pose proof (ext_refl (fun _ _ => True) in_order s) as Hext.
      unfold scanPrepare, bind, set_seen, set_errors. simpl.
      destruct Hext as [_ (d & Hd & Hall)]. split; [done|]. by exists d.
    + apply checkWorker_ordered.
    + apply provisionResources_ordered.
    + apply removeWorker_ordered_creates.
Qed.

(** X17 -- Resources are created in order.  In any sequence of scans,
    provision-pipeline runs and removals on a worker, against any cloud,
    every create request is for a resource of the row under the row's name
    and resource group; a request for a network interface is issued only
    while the row holds the id of the public IP, and its body names that
    very IP; a request for a VM is issued only while the row holds the id of
    the network interface, and its body is the row's [vm.config] (with the
    admin credentials added); no disk is ever created. *)
Theorem creation_is_ordered ops s :
  exists d, trace (run_ops cloud ops s) = trace s ++ d /\ Forall in_order d.
Proof. apply ext_entries, run_ops_ordered. Qed.

(** ** Errors of the provision pipeline *)

Lemma reports_of_app d1 d2 : reports_of (d1 ++ d2) = reports_of d1 ++ reports_of d2.
Proof. apply omap_app. Qed.

Lemma reports_of_cons e d :
  reports_of (e :: d)
  = match event e with
    | ReportError report => report :: reports_of d
    | _ => reports_of d
    end.
Proof. unfold reports_of. simpl. by destruct (event e). Qed.

Lemma reports_of_footprint d : Forall footprint_entry d -> reports_of d = [].
Proof.
  induction 1 as [|e d He _ IH]; [done|].
  rewrite reports_of_cons, IH.
  unfold footprint_entry in He. by destruct (event e).
Qed.

(** [removeWorker] in short: it returns [stopping] or [stopped]; the first
    entry it makes is its log entry; the others are GETs, delete requests
    and writes. *)
Lemma removeWorker_summary reason s :
  wp (removeWorker cloud reason) s
     (fun r s' =>
        (r = Return STOPPING \/ r = Return STOPPED)
        /\ exists d,
            trace s' = trace s ++ {| at_worker := worker s;
                                     event := LogWorkerRemoved reason |} :: d
            /\ Forall footprint_entry d).
Proof.
  eapply wp_mono;
    [exact (wp_and _ _ _ _ (removeWorker_state reason s)
              (wp_and _ _ _ _ (removeWorker_trace reason s)
                 (removeWorker_entries reason s)))|].
  intros r s' (Hst & (d & Hd) & [_ (d' & Hd' & Hall)]). cbv beta in *.
  split; [destruct Hst as [[-> _]|[-> _]]; auto|].
  exists d. split; [done|].
  rewrite Hd in Hd'. apply app_inv_head in Hd'. subst d'.
  apply Forall_cons_1 in Hall as [_ Hall].
  eapply Forall_impl; [exact Hall|]. by intros e [_ ?].
Qed.

(** X18 -- An error of the pipeline is reported and starts the removal.
    When the first call of the provision pipeline fails (the row holds no
    [ip.id] and the GET of the public IP fails with a status other than 404,
    or that GET answers 404, no operation is pending and the create request
    fails), [provisionResources] does not throw: it files one
    'creation-error' report with the error's message if the worker pool still
    exists, invokes [removeWorker] with the reason 'VM Creation Error: '
    followed by the message, and returns what that returns, [stopping] or
    [stopped]. *)
Theorem pipeline_error_starts_removal s err c1 :
  let p := providerData (worker s) in
  let rg := pd_resourceGroupName p in
  let name := r_name (pd_ip p) in
  truthy (r_id (pd_ip p)) = false ->
  (api_get cloud publicIPAddresses rg name (world s) = (inl err, c1)
   /\ statusCode err <> Some 404)
  \/ (truthy (r_operation (pd_ip p)) = false
      /\ exists gone c0,
          api_get cloud publicIPAddresses rg name (world s) = (inl gone, c0)
          /\ statusCode gone = Some 404
          /\ api_beginCreateOrUpdate cloud publicIPAddresses rg name
               {| body_config := IpConfig (pd_location p) "Dynamic";
                  body_tags := pd_tags p |} c0 = (inl err, c1)) ->
  ((provisionResources cloud s).1 = Return STOPPING
   \/ (provisionResources cloud s).1 = Return STOPPED)
  /\ exists d,
      trace (provisionResources cloud s).2 = trace s ++ d
      /\ reports_of d
         = (if api_workerPool cloud c1 then [creation_error_report err] else [])
      /\ removed_with ("VM Creation Error: " +:+ message err) d.
Proof.
  intros p rg name Hid Hfail. subst p rg name.
  change (wp (provisionResources cloud) s
            (fun r s' =>
               (r = Return STOPPING \/ r = Return STOPPED)
               /\ exists d,
                   trace s' = trace s ++ d
                   /\ reports_of d
                      = (if api_workerPool cloud c1
                         then [creation_error_report err] else [])
                   /\ removed_with ("VM Creation Error: " +:+ message err) d)).
  unfold provisionResources, provisionResource.
  repeat wp_struct. cbn [typeData]. rewrite Hid. cbn [negb]. cbv iota.
  wp_struct. wp_struct.
  destruct Hfail as [[Hget Hnot]|(Hop & gone & c0 & Hget & H404 & Hcreate)].
  - wp_here; rec_simpl; rewrite Hget in H; [injection H as <- <-|discriminate H].
    rewrite (bool_decide_eq_false_2 _ Hnot). cbn [negb]. cbv iota.
    repeat wp_struct.
    wp_case; [wp_here|wp_struct].
    all: eapply wp_mono; [apply removeWorker_summary|].
    all: intros r s' (Hst & d & Hd & Hall); cbv beta in *; rec_simpl.
    all: split; [done|]; rewrite Hd, <- ?app_assoc; eexists; split; [reflexivity|].
    all: cbn [app]; split;
      [rewrite !reports_of_cons; cbn [event]; by rewrite (reports_of_footprint _ Hall)|].
    all: repeat first [ apply removed_with_here
                      | apply (removed_with_app_r _ [_]) ].
  - wp_here; rec_simpl; rewrite Hget in H; [injection H as <- <-|discriminate H].
    rewrite (bool_decide_eq_true_2 _ H404), Hop. cbn [negb]. cbv iota.
    repeat wp_struct. cbn [typeData]. rewrite ?Hid. cbn [negb]. cbv iota.
    repeat wp_struct.
    wp_here; rec_simpl; rewrite Hcreate in H; [injection H as <- <-|discriminate H].
    repeat wp_struct.
    wp_case; [wp_here|wp_struct].
    all: eapply wp_mono; [apply removeWorker_summary|].
    all: intros r s' (Hst & d & Hd & Hall); cbv beta in *; rec_simpl.
    all: split; [done|]; rewrite Hd, <- ?app_assoc; eexists; split; [reflexivity|].
    all: cbn [app]; split;
      [rewrite !reports_of_cons; cbn [event]; by rewrite (reports_of_footprint _ Hall)|].
    all: repeat first [ apply removed_with_here
                      | apply (removed_with_app_r _ [_]) ].
Qed.

(** X19 -- A pending operation is polled, not repeated.  When the row
    holds no id for a resource but an operation, the GET by name answers 404
    and the scan keeps an error list for the pool, [provisionResource] polls
    the operation and issues no create request.  If the poll fails or says
    'InProgress', nothing else happens: the row is not written.  If the poll
    says anything else (404, a finished operation, an operation error), the
    operation is dropped from the row and [removeWorker] is invoked with the
    reason 'operation expired'. *)
Theorem pending_operation_is_polled client ty cfg modifyFn s em l gone c1 answer c2 :
  let res := typeData (providerData (worker s)) ty in
  let rg := pd_resourceGroupName (providerData (worker s)) in
  let polled :=
    [ {| at_worker := worker s; event := Get client rg (r_name res) (inl gone) |};
      {| at_worker := worker s; event := OpRead (r_operation res) answer |} ] in
  truthy (r_id res) = false -> truthy (r_operation res) = true ->
  errors s = Some em -> em !! workerPoolId (worker s) = Some l ->
  api_get cloud client rg (r_name res) (world s) = (inl gone, c1) ->
  statusCode gone = Some 404 ->
  api_sendLongRunningRequest cloud (r_operation res) c1 = (answer, c2) ->
  (polls_in_progress answer ->
   provisionResource cloud client ty cfg modifyFn s
   = (Return tt,
      {| worker := worker s; world := c2; trace := trace s ++ polled;
         seen := seen s; errors := errors s |}))
  /\ (~ polls_in_progress answer ->
      (provisionResource cloud client ty cfg modifyFn s).1 = Return tt
      /\ exists d,
          trace (provisionResource cloud client ty cfg modifyFn s).2
          = trace s ++ polled
            ++ {| at_worker := worker s;
                  event := Update (on_providerData
                                     (on_typeData ty (set_operation JUndef))
                                     (worker s)) |}
            :: {| at_worker := on_providerData (on_typeData ty (set_operation JUndef))
                                               (worker s);
                  event := LogWorkerRemoved "operation expired" |}
            :: d
          /\ Forall footprint_entry d).
Proof.
  intros res rg polled Hid Hop Herrs Hlist Hget H404 Hpoll. subst res rg polled.
  split.
  - intros Hprog. apply wp_eq.
    unfold provisionResource, handleOperation.
    repeat wp_struct. rewrite Hid. cbn [negb]. cbv iota.
    wp_struct. wp_struct.
    wp_here; rec_simpl; rewrite Hget in H; [injection H as <- <-|discriminate H].
    rewrite (bool_decide_eq_true_2 _ H404), Hop. cbn [negb]. cbv iota.
    repeat wp_struct. rewrite Herrs. cbv iota.
    repeat wp_struct.
    wp_here; rec_simpl; rewrite Hpoll in H; simplify_eq.
    + repeat wp_struct. cbn [negb]. cbv iota. repeat wp_struct.
      by rewrite <- app_assoc.
    + destruct Hprog as [Hst (body & Hb & Hs)].
      repeat wp_struct. rewrite (proj2 (Z.eqb_neq _ _) Hst). cbv iota.
      rewrite Hb, Hs. change ("InProgress" =? "InProgress")%string with true.
      cbv iota. repeat wp_struct. cbn [negb]. cbv iota. repeat wp_struct.
      by rewrite <- app_assoc.
  - intros Hnot.
    change (wp (provisionResource cloud client ty cfg modifyFn) s
              (fun r s' =>
                 r = Return tt
                 /\ exists d,
                     trace s'
                     = trace s
                       ++ [ {| at_worker := worker s;
                               event := Get client
                                          (pd_resourceGroupName (providerData (worker s)))
                                          (r_name (typeData (providerData (worker s)) ty))
                                          (inl gone) |};
                            {| at_worker := worker s;
                               event := OpRead
                                          (r_operation
                                             (typeData (providerData (worker s)) ty))
                                          answer |} ]
                       ++ {| at_worker := worker s;
                             event := Update (on_providerData
                                                (on_typeData ty (set_operation JUndef))
                                                (worker s)) |}
                       :: {| at_worker := on_providerData
                                            (on_typeData ty (set_operation JUndef))
                                            (worker s);
                             event := LogWorkerRemoved "operation expired" |}
                       :: d
                     /\ Forall footprint_entry d)).
    unfold provisionResource, handleOperation, errors_push.
    repeat wp_struct. rewrite Hid. cbn [negb]. cbv iota.
    wp_struct. wp_struct.
    wp_here; rec_simpl; rewrite Hget in H; [injection H as <- <-|discriminate H].
    rewrite (bool_decide_eq_true_2 _ H404), Hop. cbn [negb]. cbv iota.
    repeat wp_struct. rewrite Herrs. cbv iota.
    repeat wp_struct.
    wp_here; rec_simpl; rewrite Hpoll in H; simplify_eq.
    { destruct Hnot. done. }
    repeat wp_struct.
    repeat first
      [ wp_struct | wp_here | wp_case
      | lazymatch goal with
        | |- wp (removeWorker _ _) _ _ =>
          eapply wp_mono; [apply removeWorker_summary|];
          intros ? ? ([->| ->] & ? & ? & ?); cbv beta iota
        end ]; rec_simpl.
    all: try (exfalso; apply Hnot; split;
              [by apply Z.eqb_neq
              |eexists; split; [eassumption|by apply String.eqb_eq]]).
    all: try congruence.
    all: try by (cbn [negb] in *).
    all: split; [done|].
    all: match goal with
         | H : trace ?x = _ |- context [trace ?x] => rewrite H
         end.
    all: rewrite <- !app_assoc; eexists; split; [reflexivity|assumption].
Qed.

(** ** The scan's bookkeeping

    Once a pool has a list in [this.errors] it keeps one, and no step but
    the scanner's own counting writes [this.seen]. *)

Lemma covered_at_step pool s w c ev s' :
  step_to s w c ev s' -> covered_at pool s -> covered_at pool s'.
Proof.
  intros (_ & _ & _ & Hseen & Herr) (sm & em & ? & ? & ? & ?).
  exists sm, em. repeat split; congruence || done.
Qed.

Lemma covered_at_errors pool s s' m k v :
  covered_at pool s -> seen s' = seen s ->
  errors s' = Some (<[k := v]> m) -> m = default ∅ (errors s) ->
  covered_at pool s'.
Proof.
  intros (sm & em & Hs & He & Hcov & Hpool) Hseen Herr ->.
  rewrite He in Herr. cbn [default] in Herr.
  exists sm, (<[k := v]> em). split; [congruence|]. split; [done|].
  split.
  - intros p Hp. destruct (decide (k = p)) as [->|Hne].
    + rewrite lookup_insert_eq. by eexists.
    + rewrite lookup_insert_ne by done. by apply Hcov.
  - destruct (decide (k = pool)) as [->|Hne].
    + rewrite lookup_insert_eq. by eexists.
    + by rewrite lookup_insert_ne.
Qed.

Lemma covered_at_seen pool s s' m v :
  covered_at pool s -> errors s' = errors s ->
  seen s' = Some (<[pool := v]> m) -> m = default ∅ (seen s) ->
  covered_at pool s'.
Proof.
  intros (sm & em & Hs & He & Hcov & Hpool) Herr Hseen ->.
  rewrite Hs in Hseen. cbn [default] in Hseen.
  exists (<[pool := v]> sm), em. split; [done|]. split; [congruence|].
  split; [|done].
  intros p Hp. destruct (decide (pool = p)) as [<-|Hne]; [done|].
  rewrite lookup_insert_ne in Hp by done. by apply Hcov.
Qed.

Ltac inv_side s :=
  first [ reflexivity
        | match goal with
          | H : errors s = Some _ |- _ => rewrite H; reflexivity
          | H : seen s = Some _ |- _ => rewrite H; reflexivity
          end ].

Ltac inv_prim :=
  let s' := fresh "s" in
  let Hstep := fresh "Hstep" in
  let Hseen := fresh "Hseen" in
  let Herr := fresh "Herr" in
  lazymatch goal with
  | Hinv : covered_at ?pool ?s |- wp (set_errors _) ?s _ =>
    apply wp_set_errors; intros s' _ Hseen Herr;
    assert (covered_at pool s')
      by (eapply covered_at_errors; [exact Hinv | exact Hseen | exact Herr | inv_side s]);
    clear Hseen Herr
  | Hinv : covered_at ?pool ?s |- wp (set_seen _) ?s _ =>
    apply wp_set_seen; intros s' _ Hseen Herr;
    assert (covered_at pool s')
      by (eapply covered_at_seen; [exact Hinv | exact Herr | exact Hseen | inv_side s]);
    clear Hseen Herr
  | Hinv : covered_at ?pool ?s |- wp ?m ?s _ =>
    lazymatch m with
    | emit _ => apply wp_emit; intros s' Hstep
    | reportError _ _ _ => apply wp_reportError; intros s' Hstep
    | update _ => apply wp_update; intros s' Hstep
    | enqueue _ _ => apply wp_enqueue; intros ? ? s' ? Hstep
    end;
    pose proof (covered_at_step pool s _ _ _ s' Hstep Hinv); clear Hstep
  end;
  cbv beta iota.

Ltac inv_call lem :=
  eapply wp_mono; [solve [apply lem; eassumption]|];
  let r := fresh "r" in
  let H := fresh "Hinv" in
  intros r ? H; cbv beta in H; destruct r; cbv beta iota.

Ltac inv_known := fail.

Ltac inv_leaf :=
  lazymatch goal with
  | |- covered_at _ _ => assumption
  end.

Ltac inv_go := repeat first [ wp_struct | inv_prim | inv_known | wp_case | inv_leaf ].

Lemma removeResource_covered pool client target s :
  covered_at pool s ->
  wp (removeResource cloud client target) s (fun _ s' => covered_at pool s').
Proof. intros Hinv. unfold removeResource. inv_go. Qed.

Lemma removeDisks_covered pool indices acc s :
  covered_at pool s ->
  wp (removeDisks cloud indices acc) s (fun _ s' => covered_at pool s').
Proof.
  revert acc s. induction indices as [|i rest IH]; intros acc s Hinv;
    cbn [removeDisks]; inv_go.
  inv_call removeResource_covered; [inv_call IH|]; inv_go.
Qed.

Ltac inv_known ::=
  lazymatch goal with
  | _ : covered_at _ ?s |- wp (removeResource _ _ _) ?s _ =>
    inv_call removeResource_covered
  | _ : covered_at _ ?s |- wp (removeDisks _ _ _) ?s _ =>
    inv_call removeDisks_covered
  end.

Lemma removeWorker_covered pool reason s :
  covered_at pool s ->
  wp (removeWorker cloud reason) s (fun _ s' => covered_at pool s').
Proof. intros Hinv. unfold removeWorker. inv_go. Qed.

Lemma handleOperation_covered pool op s :
  covered_at pool s ->
  wp (handleOperation cloud op) s (fun _ s' => covered_at pool s').
Proof. intros Hinv. unfold handleOperation, errors_push. inv_go. Qed.

Ltac inv_known ::=
  lazymatch goal with
  | _ : covered_at _ ?s |- wp (removeResource _ _ _) ?s _ =>
    inv_call removeResource_covered
  | _ : covered_at _ ?s |- wp (removeDisks _ _ _) ?s _ =>
    inv_call removeDisks_covered
  | _ : covered_at _ ?s |- wp (removeWorker _ _) ?s _ =>
    inv_call removeWorker_covered
  | _ : covered_at _ ?s |- wp (handleOperation _ _) ?s _ =>
    inv_call handleOperation_covered
  end.

Lemma provisionResource_covered pool client ty cfg modifyFn s :
  covered_at pool s ->
  wp (provisionResource cloud client ty cfg modifyFn) s (fun _ s' => covered_at pool s').
Proof. intros Hinv. unfold provisionResource. inv_go. Qed.

Ltac inv_known ::=
  lazymatch goal with
  | _ : covered_at _ ?s |- wp (removeResource _ _ _) ?s _ =>
    inv_call removeResource_covered
  | _ : covered_at _ ?s |- wp (removeDisks _ _ _) ?s _ =>
    inv_call removeDisks_covered
  | _ : covered_at _ ?s |- wp (removeWorker _ _) ?s _ =>
    inv_call removeWorker_covered
  | _ : covered_at _ ?s |- wp (handleOperation _ _) ?s _ =>
    inv_call handleOperation_covered
  | _ : covered_at _ ?s |- wp (provisionResource _ _ _ _ _) ?s _ =>
    inv_call provisionResource_covered
  end.

Lemma provisionResources_covered pool s :
  covered_at pool s ->
  wp (provisionResources cloud) s (fun _ s' => covered_at pool s').
Proof. intros Hinv. unfold provisionResources. inv_go. Qed.

Lemma fetchVmInfo_covered pool s :
  covered_at pool s ->
  wp (fetchVmInfo cloud) s (fun _ s' => covered_at pool s').
Proof. intros Hinv. unfold fetchVmInfo. inv_go. Qed.

Ltac inv_known ::=
  lazymatch goal with
  | _ : covered_at _ ?s |- wp (removeWorker _ _) ?s _ =>
    inv_call removeWorker_covered
  | _ : covered_at _ ?s |- wp (provisionResources _) ?s _ =>
    inv_call provisionResources_covered
  | _ : covered_at _ ?s |- wp (fetchVmInfo _) ?s _ =>
    inv_call fetchVmInfo_covered
  end.

Lemma covered_at_covered pool s : covered_at pool s -> covered s.
Proof. intros (sm & em & ? & ? & ? & _). by exists sm, em. Qed.

Lemma checkWorker_covered s :
  covered s -> wp (checkWorker cloud) s (fun _ s' => covered s').
Proof.
  intros (sm & em & Hs & He & Hcov).
  eapply wp_mono with (Q := fun _ s' => exists pool, covered_at pool s');
    [|intros _ s' [pool H]; by eapply covered_at_covered].
  unfold checkWorker, seen_add.
  wp_struct. wp_struct. wp_struct.
  wp_case.
  - apply wp_update. intros s1 (_ & _ & _ & Hs1 & He1). cbv beta iota.
    repeat wp_struct. rewrite Hs1, Hs. cbv iota.
    repeat wp_struct. apply wp_set_seen. intros s2 (Hw2 & _) Hs2 He2. cbv beta iota.
    repeat wp_struct. rewrite He2, He1, He. cbv iota.
    repeat wp_struct. apply wp_set_errors. intros s3 (Hw3 & _) Hs3 He3. cbv beta iota.
    assert (Hinv : covered_at (workerPoolId (worker s1)) s3).
    { eexists _, _. split; [by rewrite Hs3, Hs2|]. split; [exact He3|]. split.
      - intros p Hp. destruct (decide (workerPoolId (worker s1) = p)) as [<-|Hne].
        + rewrite lookup_insert_eq. by eexists.
        + rewrite lookup_insert_ne in Hp by done. rewrite lookup_insert_ne by done.
          by apply Hcov.
      - rewrite lookup_insert_eq. by eexists. }
    inv_go.
    all: by eexists.
  - repeat wp_struct. rewrite Hs. cbv iota.
    repeat wp_struct. apply wp_set_seen. intros s2 (Hw2 & _) Hs2 He2. cbv beta iota.
    repeat wp_struct. rewrite He2, He. cbv iota.
    repeat wp_struct. apply wp_set_errors. intros s3 (Hw3 & _) Hs3 He3. cbv beta iota.
    assert (Hinv : covered_at (workerPoolId (worker s)) s3).
    { eexists _, _. split; [by rewrite Hs3, Hs2|]. split; [exact He3|]. split.
      - intros p Hp. destruct (decide (workerPoolId (worker s) = p)) as [<-|Hne].
        + rewrite lookup_insert_eq. by eexists.
        + rewrite lookup_insert_ne in Hp by done. rewrite lookup_insert_ne by done.
          by apply Hcov.
      - rewrite lookup_insert_eq. by eexists. }
    inv_go.
    all: by eexists.
Qed.

Lemma scanPrepare_covered s : covered (scanPrepare s).2.
Proof. exists ∅, ∅. repeat split. intros pool [x Hx]. by rewrite lookup_empty in Hx. Qed.

Lemma scan_covered rows s : covered s -> covered (scan cloud rows s).
Proof.
  revert s. induction rows as [|w rows IH]; intros s Hcov; [done|].
  cbn [scan fold_left]. apply IH.
  apply (checkWorker_covered (with_worker w s)).
  destruct Hcov as (sm & em & ? & ? & ?). by exists sm, em.
Qed.

Lemma cleanup_pools workerPool em (entries : list (string * Z)) :
  (forall pool v, (pool, v) ∈ entries -> is_Some (em !! pool)) ->
  first_failure (map (fun entry => cleanup_pool workerPool (Some em) entry.1) entries) = None
  /\ forall pool report,
      (pool, report)
      ∈ concat (omap returned
                     (map (fun entry => cleanup_pool workerPool (Some em) entry.1) entries))
      <-> (exists v, (pool, v) ∈ entries)
          /\ workerPool pool = true
          /\ exists reports, em !! pool = Some reports /\ report ∈ reports.
Proof.
  induction entries as [|[p v] entries IH]; intros Hall.
  - split; [done|]. intros pool report. simpl. split.
    + by intros ?%elem_of_nil.
    + by intros [[? ?%elem_of_nil] _].
  - destruct IH as [IHfail IHin].
    { intros pool x Hin. apply (Hall pool x). by right. }
    destruct (Hall p v) as [reports Hp]; [by left|].
    cbn [map fst]. unfold cleanup_pool at 1 3. rewrite Hp.
    destruct (workerPool p) eqn:Hexists; cbn [negb first_failure omap returned concat].
    + split; [done|]. intros pool report.
      simpl. rewrite elem_of_app, IHin, list_elem_of_fmap. split.
      * intros [(rep & [= -> ->] & Hrep)|(Hin & Hw & Hrest)].
        -- split; [exists v; by left|]. split; [done|]. by exists reports.
        -- split; [destruct Hin as [x Hx]; exists x; by right|]. done.
      * intros ([x Hx] & Hw & reps & Hreps & Hrep).
        apply elem_of_cons in Hx as [[= -> ->]|Hx].
        -- left. exists report. split; [done|]. congruence.
        -- right. split; [by exists x|]. split; [done|]. by exists reps.
    + split; [done|]. intros pool report.
      simpl. rewrite IHin. split.
      * intros ([x Hx] & Hrest). split; [exists x; by right|done].
      * intros ([x Hx] & Hw & Hrest).
        apply elem_of_cons in Hx as [[= -> ->]|Hx]; [congruence|].
        split; [by exists x|done].
Qed.

(** X20 -- The scan's bookkeeping is sound.  After [scanPrepare] and
    [checkWorker] passes on any rows, against any cloud and whatever each
    pass returns or throws, every pool counted in [this.seen] has a list in
    [this.errors]; so [scanCleanup] does not throw, and the error reports it
    files are exactly the recorded errors of the counted pools that still
    exist. *)
Theorem scan_bookkeeping_is_sound rows s0 workerPool :
  let s := scan cloud rows (scanPrepare s0).2 in
  covered s
  /\ (scanCleanup workerPool (seen s) (errors s)).1 = Return tt
  /\ forall pool report,
      (pool, report) ∈ (scanCleanup workerPool (seen s) (errors s)).2
      <-> is_Some (default ∅ (seen s) !! pool)
          /\ workerPool pool = true
          /\ report ∈ default [] (default ∅ (errors s) !! pool).
Proof.
  cbv zeta.
  pose proof (scan_covered rows _ (scanPrepare_covered s0)) as Hcov.
  split; [done|].
  destruct Hcov as (sm & em & -> & -> & Hcov).
  cbn [default from_option id scanCleanup fst snd].
  destruct (cleanup_pools workerPool em (map_to_list sm)) as [Hfail Hin].
  { intros pool v Hin%elem_of_map_to_list. apply Hcov. by exists v. }
  rewrite Hfail. split; [done|].
  intros pool report. rewrite Hin. split.
  - intros ([v Hv%elem_of_map_to_list] & Hw & reports & Hr & Hrep).
    split; [by exists v|]. split; [done|]. by rewrite Hr.
  - intros ([v Hv] & Hw & Hrep).
    split; [exists v; by apply elem_of_map_to_list|]. split; [done|].
    destruct (em !! pool) as [reports|] eqn:Hr; [by exists reports|].
    by apply elem_of_nil in Hrep.
Qed.

(** ** A VM that is not there *)

(** X21 -- A worker whose VM has vanished is removed.  When, in a
    [checkWorker] pass of a prepared scan on a worker that is not
    [requested], the GET of the VM answers 404, [removeWorker] is invoked,
    with the reason 'continuing removal' for a [stopping] worker and 'vm in
    <state> not found' otherwise, and the state the pass writes is
    [stopping] or [stopped]; the provision pipeline is not run. *)
Theorem vanished_vm_is_removed s sm em gone c1 :
  let rg := pd_resourceGroupName (providerData (worker s)) in
  let name := r_name (vm_res (pd_vm (providerData (worker s)))) in
  seen s = Some sm -> errors s = Some em ->
  state (worker s) <> REQUESTED ->
  api_get cloud virtualMachines rg name (world s) = (inl gone, c1) ->
  statusCode gone = Some 404 ->
  (checkWorker cloud s).1 = Return tt
  /\ (state (worker (checkWorker cloud s).2) = STOPPING
      \/ state (worker (checkWorker cloud s).2) = STOPPED)
  /\ exists d,
      trace (checkWorker cloud s).2 = trace s ++ d
      /\ removed_with (vanished_reason (state (worker s))) d
      /\ Forall not_a_create d.
Proof.
  intros rg name Hseen Herrors Hst Hget H404. subst rg name.
  change (wp (checkWorker cloud) s
            (fun res s' =>
               res = Return tt
               /\ (state (worker s') = STOPPING \/ state (worker s') = STOPPED)
               /\ exists d, trace s' = trace s ++ d
                            /\ removed_with (vanished_reason (state (worker s))) d
                            /\ Forall not_a_create d)).
  unfold checkWorker, fetchVmInfo, seen_add.
  wp_struct. wp_struct. wp_struct.
  wp_case; [wp_here | wp_struct].
  all: repeat wp_struct; rec_simpl; rewrite ?Hseen; cbv iota.
  all: repeat wp_struct; wp_here; repeat wp_struct; rec_simpl; rewrite ?Herrors; cbv iota.
  all: repeat wp_struct; wp_here; repeat wp_struct; rec_simpl.
  all: wp_here; rec_simpl; rewrite Hget in H; [injection H as <- <- | discriminate H].
  all: rewrite (bool_decide_eq_true_2 _ H404); cbn [negb]; cbv iota.
  all: assert (Hrm : forall s1 : St,
                  worker s1 = worker s1 ->
                  wp (removeWorker cloud (vanished_reason (state (worker s)))) s1
                     (fun r s' =>
                        (r = Return STOPPING \/ r = Return STOPPED)
                        /\ exists d,
                            trace s'
                            = trace s1
                              ++ {| at_worker := worker s1;
                                    event := LogWorkerRemoved
                                               (vanished_reason (state (worker s))) |} :: d
                            /\ Forall footprint_entry d))
         by (intros; apply removeWorker_summary).
  all: destruct (state (worker s)) eqn:Hstate; [done| | |].
  all: eapply wp_mono; [apply Hrm; reflexivity|].
  all: intros ? s' ([->| ->] & d & Hd & Hall); cbv beta iota; rec_simpl.
  all: repeat wp_struct; wp_here; rec_simpl.
  all: split; [done|]; split; [by auto|].
  all: rewrite Hd, <- ?app_assoc; eexists; split; [reflexivity|]; cbn [app].
  all: split;
    [repeat first [ apply removed_with_here | apply (removed_with_app_r _ [_]) ]|].
  all: repeat (apply Forall_cons_2; [exact I|]).
  all: try (apply Forall_app_2; [|by repeat constructor]).
  all: eapply Forall_impl; [exact Hall|]; apply footprint_not_a_create.
Qed.

(** ** The pipeline's last round *)

(** X22 -- The pipeline completes in one call once everything exists.
    When the row holds no id yet and the GETs by name of the public IP, the
    network interface and the VM are all answered with a resource that has
    an id and is not in a failed state, one call of [provisionResources]
    records the three ids and drops the operations, points the VM
    configuration at the network interface, lists the VM's OS disk and data
    disks as disks to delete later, issues no create request and returns
    [running]; the row's [state] is not written. *)
Theorem pipeline_completes s rip c1 rnic c2 rvm c3 :
  let p := providerData (worker s) in
  let rg := pd_resourceGroupName p in
  truthy (r_id (pd_ip p)) = false ->
  truthy (r_id (pd_nic p)) = false ->
  truthy (r_id (vm_res (pd_vm p))) = false ->
  api_get cloud publicIPAddresses rg (r_name (pd_ip p)) (world s) = (inr rip, c1) ->
  api_get cloud networkInterfaces rg (r_name (pd_nic p)) c1 = (inr rnic, c2) ->
  api_get cloud virtualMachines rg (r_name (vm_res (pd_vm p))) c2 = (inr rvm, c3) ->
  usable rip -> usable rnic -> usable rvm ->
  let p' := providerData (worker (provisionResources cloud s).2) in
  (provisionResources cloud s).1 = Return RUNNING
  /\ state (worker (provisionResources cloud s).2) = state (worker s)
  /\ (pd_ip p' = set_operation JUndef (set_id (res_id rip) (pd_ip p))
      /\ pd_nic p' = set_operation JUndef (set_id (res_id rnic) (pd_nic p))
      /\ vm_res (pd_vm p')
         = set_operation JUndef (set_id (res_id rvm) (vm_res (pd_vm p))))
  /\ vc_networkInterfaces (vm_config (pd_vm p'))
     = [ {| nr_id := res_id rnic; nr_primary := true |} ]
  /\ pd_disks p'
     = Some (attached_disk (res_osDiskName rvm)
             :: map attached_disk (default [] (res_dataDisks rvm)))
  /\ exists d, trace (provisionResources cloud s).2 = trace s ++ d /\ Forall calm d.
Proof.
  intros p rg Hip Hnic Hvm Hgip Hgnic Hgvm [Hsip Htip] [Hsnic Htnic] [Hsvm Htvm].
  subst p rg. cbv zeta.
  change (wp (provisionResources cloud) s
            (fun r s' =>
               r = Return RUNNING
               /\ state (worker s') = state (worker s)
               /\ (pd_ip (providerData (worker s'))
                   = set_operation JUndef (set_id (res_id rip)
                                                  (pd_ip (providerData (worker s))))
                   /\ pd_nic (providerData (worker s'))
                      = set_operation JUndef (set_id (res_id rnic)
                                                     (pd_nic (providerData (worker s))))
                   /\ vm_res (pd_vm (providerData (worker s')))
                      = set_operation JUndef
                          (set_id (res_id rvm) (vm_res (pd_vm (providerData (worker s))))))
               /\ vc_networkInterfaces (vm_config (pd_vm (providerData (worker s'))))
                  = [ {| nr_id := res_id rnic; nr_primary := true |} ]
               /\ pd_disks (providerData (worker s'))
                  = Some (attached_disk (res_osDiskName rvm)
                          :: map attached_disk (default [] (res_dataDisks rvm)))
               /\ exists d, trace s' = trace s ++ d /\ Forall calm d)).
  unfold provisionResources, provisionResource.
  repeat wp_struct. cbn [typeData]. rewrite Hip. cbn [negb]. cbv iota.
  repeat wp_struct.
  wp_here; rec_simpl; rewrite Hgip in H; [discriminate H|injection H as <- <-].
  repeat wp_struct. rewrite Hsip. cbv iota.
  repeat first [wp_struct | wp_here]. rec_simpl. rewrite Htip. cbn [negb]. cbv iota.
  repeat wp_struct. cbn [typeData]. rec_simpl. rewrite Hnic. cbn [negb]. cbv iota.
  repeat wp_struct.
  wp_here; rec_simpl; rewrite Hgnic in H; [discriminate H|injection H as <- <-].
  repeat wp_struct. rewrite Hsnic. cbv iota.
  repeat first [wp_struct | wp_here]. unfold nicModifyFunc. rec_simpl.
  rewrite Htnic. cbn [negb]. cbv iota.
  repeat wp_struct. cbn [typeData]. unfold nicModifyFunc. rec_simpl.
  rewrite Hvm. cbn [negb]. cbv iota.
  repeat wp_struct.
  wp_here; rec_simpl; rewrite Hgvm in H; [discriminate H|injection H as <- <-].
  repeat wp_struct. rewrite Hsvm. cbv iota.
  repeat first [wp_struct | wp_here]. unfold vmModifyFunc. rec_simpl.
  rewrite Htvm. cbn [negb]. cbv iota. wp_struct.
  unfold nicModifyFunc, vmModifyFunc. rec_simpl.
  split; [done|]. split; [done|]. split; [done|]. split; [done|]. split; [done|].
  rewrite <- !app_assoc. eexists. split; [reflexivity|]. simpl. repeat constructor.
Qed.


End Properties.

(** ** The gateway's error classifier *)

(** C9 -- Back-off classifier.  For every error and every try count: a
    status code of exactly 429 gives the back-off [base * 50] at level
    [notice]; a status code of 500 or more gives [base * 2 ^ tries] at level
    [warning]; in both cases the handler returns, which is what makes the
    gateway retry.  Every other error, including those with a 4xx status
    other than 429 and those with no status code, is thrown again
    unchanged. *)
Theorem backoff_classifier (base : Z) (err : Err) (tries : nat) :
  (statusCode err = Some 429 ->
   errorHandler base err tries
   = Return {| backoff := base * 50; reason := "rateLimit"; level := notice |})
  /\ (forall c, statusCode err = Some c -> 500 <= c ->
                errorHandler base err tries
                = Return {| backoff := base * 2 ^ Z.of_nat tries;
                            reason := "errors"; level := warning |})
  /\ ((forall c, statusCode err = Some c -> c <> 429 /\ c < 500) ->
      errorHandler base err tries = Throw err).
Proof.
  unfold errorHandler. repeat split.
  - intros H. by rewrite bool_decide_eq_true_2.
  - intros c H Hc. rewrite bool_decide_eq_false_2 by (rewrite H; intros [=]; lia).
    rewrite H. simpl. by rewrite (proj2 (Z.leb_le _ _) Hc).
  - intros H. destruct (statusCode err) as [c|] eqn:E.
    + destruct (H c eq_refl) as [Hne Hlt].
      rewrite bool_decide_eq_false_2 by congruence. simpl.
      by rewrite (proj2 (Z.leb_gt _ _) Hlt).
    + by rewrite bool_decide_eq_false_2.
Qed.

Lemma backoff_classifier_witness :
  errorHandler 1000 {| statusCode := Some 429; message := "slow down"; code := None |} 0
  = Return {| backoff := 50000; reason := "rateLimit"; level := notice |}
  /\ errorHandler 1000 {| statusCode := Some 503; message := "busy"; code := None |} 3
     = Return {| backoff := 8000; reason := "errors"; level := warning |}
  /\ errorHandler 1000 not_found 3 = Throw not_found.
Proof.
  split; [|split].
  - apply (backoff_classifier 1000 _ 0). reflexivity.
  - apply (proj1 (proj2 (backoff_classifier 1000 _ 3)) 503); [reflexivity | lia].
  - apply (proj2 (proj2 (backoff_classifier 1000 not_found 3))).
    intros c [= <-]. lia.
Defined.

(** ** Generated names *)

Lemma lower_unit_alphanumeric c :
  alphanumeric (lower_unit c) = true -> lower_alphanumeric (lower_unit c) = true.
Proof. destruct c as [[] [] [] [] [] [] [] []]; vm_compute; intros H; exact H. Qed.

Lemma all_units_app p a b :
  all_units p (a +:+ b) = all_units p a && all_units p b.
Proof. induction a as [|c a IH]; simpl; [done|]. by rewrite IH, andb_assoc. Qed.

Lemma all_units_slice p n s : all_units p s = true -> all_units p (slice n s) = true.
Proof.
  revert s. induction n as [|n IH]; intros [|c s]; simpl; try done.
  intros [Hc Hs]%andb_true_iff. rewrite Hc. by apply IH.
Qed.

Lemma all_units_weaken (p q : ascii -> bool) s :
  (forall c, p c = true -> q c = true) -> all_units p s = true -> all_units q s = true.
Proof.
  intros Hpq. induction s as [|c s IH]; simpl; [done|].
  intros [Hc Hs]%andb_true_iff. by rewrite (Hpq _ Hc), IH.
Qed.

Lemma length_slice n s : (String.length (slice n s) <= n)%nat.
Proof.
  revert s. induction n as [|n IH]; intros [|c s]; simpl; try lia.
  specialize (IH s). lia.
Qed.

Lemma length_append (a b : string) :
  String.length (a +:+ b) = (String.length a + String.length b)%nat.
Proof. induction a as [|c a IH]; simpl; [done|]. by rewrite IH. Qed.

Lemma length_toLowerCase s : String.length (toLowerCase s) = String.length s.
Proof. induction s as [|c s IH]; simpl; [done|]. by rewrite IH. Qed.

Lemma length_keep_alphanumeric s :
  (String.length (keep_alphanumeric s) <= String.length s)%nat.
Proof. induction s as [|c s IH]; simpl; [done|]. destruct (alphanumeric c); simpl; lia. Qed.

Lemma keep_lower s : all_units lower_alphanumeric (keep_alphanumeric (toLowerCase s)) = true.
Proof.
  induction s as [|c s IH]; simpl; [done|].
  destruct (alphanumeric (lower_unit c)) eqn:E; [|done].
  simpl. by rewrite (lower_unit_alphanumeric _ E).
Qed.

Lemma nicerId_units a b c : all_units lower_alphanumeric (nicerId a b c) = true.
Proof. apply keep_lower. Qed.

Lemma nicerId_name_units a b c : all_units name_unit (nicerId a b c) = true.
Proof.
  eapply all_units_weaken; [|apply nicerId_units].
  intros x Hx. unfold name_unit. by rewrite Hx.
Qed.

(** X1 -- [nicerId()] yields lower-case letters and digits only, whatever
    the three slugs are, and never more characters than the slugs have
    together. *)
Theorem nicerId_alphabet (slug1 slug2 slug3 : string) :
  all_units lower_alphanumeric (nicerId slug1 slug2 slug3) = true
  /\ (String.length (nicerId slug1 slug2 slug3)
      <= String.length slug1 + String.length slug2 + String.length slug3)%nat.
Proof.
  split; [apply nicerId_units|].
  unfold nicerId.
  etrans; [apply length_keep_alphanumeric|].
  rewrite length_toLowerCase, !length_append. lia.
Qed.

(** X2 -- The names [provision] gives a worker fit the limits the source
    quotes: the VM name, which is the worker id, has at most 38 characters,
    starts with [vm-] and is made of lower-case letters, digits and dashes;
    the computer name has at most 15 characters, letters and digits only;
    the names of the public IP and of the network interface have at most 24
    characters, start with [pip-] and [nic-], and use the same alphabet as
    the VM name. *)
Theorem generated_names_fit (slug : nat -> string) :
  let names := draw_names slug in
  ((String.length (virtualMachineName names) <= 38)%nat
   /\ starts_with "vm-" (virtualMachineName names) = true
   /\ all_units name_unit (virtualMachineName names) = true)
  /\ ((String.length (computerName names) <= 15)%nat
      /\ all_units lower_alphanumeric (computerName names) = true)
  /\ ((String.length (ipAddressName names) <= 24)%nat
      /\ starts_with "pip-" (ipAddressName names) = true
      /\ all_units name_unit (ipAddressName names) = true)
  /\ ((String.length (networkInterfaceName names) <= 24)%nat
      /\ starts_with "nic-" (networkInterfaceName names) = true
      /\ all_units name_unit (networkInterfaceName names) = true).
Proof.
  cbv zeta. unfold draw_names. cbn [virtualMachineName computerName ipAddressName
                                     networkInterfaceName].
  repeat split;
    first [ apply length_slice
          | apply all_units_slice;
            first [ apply nicerId_units
                  | by rewrite !all_units_app, !nicerId_name_units ]
          | reflexivity ].
Qed.

(** ** How many workers [provision] requests *)

Lemma capacity_of_app a b : capacity_of (a ++ b) = capacity_of a + capacity_of b.
Proof. induction a as [|x a IH]; simpl; [done|]. rewrite IH. lia. Qed.

Lemma capacity_sum_app a b : capacity_sum (a ++ b) = capacity_sum a + capacity_sum b.
Proof. induction a as [|x a IH]; simpl; [done|]. rewrite IH. lia. Qed.

(** With launch configurations of capacity at least 1, the loop ends within
    [toSpawn] rounds, and it stops at the first configuration with which the
    capacity asked for is reached. *)
Lemma pick_cfgs_enough sample :
  (forall i, exists cfg, sample i = Some cfg /\ 1 <= capacityPerInstance cfg) ->
  forall fuel i toSpawn acc,
    (Z.to_nat toSpawn <= fuel)%nat ->
    exists picked,
      pick_cfgs fuel sample i toSpawn acc = Some (Return (acc ++ picked))
      /\ (forall k cfg, picked !! k = Some cfg -> sample (i + k)%nat = Some cfg)
      /\ (toSpawn <= 0 -> picked = [])
      /\ (0 < toSpawn ->
          exists front last,
            picked = front ++ [last]
            /\ capacity_of front < toSpawn <= capacity_of front + capacityPerInstance last).
Proof.
  intros Hsample. induction fuel as [|fuel IH]; intros i toSpawn acc Hfuel.
  - assert (toSpawn <= 0) by lia.
    exists []. simpl. rewrite (proj2 (Z.ltb_ge 0 toSpawn)) by done.
    rewrite app_nil_r. repeat split; [by intros k cfg [=] | lia].
  - cbn [pick_cfgs]. destruct (0 <? toSpawn) eqn:Hpos.
    + apply Z.ltb_lt in Hpos.
      destruct (Hsample i) as (cfg & Hcfg & Hcap). rewrite Hcfg.
      destruct (IH (S i) (toSpawn - capacityPerInstance cfg) (acc ++ [cfg]))
        as (picked & Hrun & Hfrom & Hnone & Hsome); [lia|].
      exists (cfg :: picked). rewrite Hrun, <- app_assoc. split; [done|].
      split.
      { intros [|k] c; simpl.
        - intros [= <-]. by rewrite Nat.add_0_r.
        - intros Hk. rewrite <- Nat.add_succ_comm. by apply Hfrom. }
      split; [lia|]. intros _.
      destruct (Z_lt_le_dec 0 (toSpawn - capacityPerInstance cfg)) as [Hmore|Hdone].
      * destruct (Hsome Hmore) as (front & last & -> & Hlt & Hle).
        exists (cfg :: front), last. simpl. split; [done|]. lia.
      * rewrite (Hnone Hdone). exists [], cfg. simpl. split; [done|]. lia.
    + apply Z.ltb_ge in Hpos. exists []. rewrite app_nil_r.
      repeat split; [by intros k cfg [=] | lia].
Qed.

(** With launch configurations of capacity 0 or less the loop does not
    end. *)
Lemma pick_cfgs_spins sample :
  (forall i, exists cfg, sample i = Some cfg /\ capacityPerInstance cfg <= 0) ->
  forall fuel i toSpawn acc, 0 < toSpawn -> pick_cfgs fuel sample i toSpawn acc = None.
Proof.
  intros Hsample. induction fuel as [|fuel IH]; intros i toSpawn acc Hpos;
    cbn [pick_cfgs]; rewrite (proj2 (Z.ltb_lt 0 toSpawn)) by done; [done|].
  destruct (Hsample i) as (cfg & -> & Hcap). apply IH. lia.
Qed.

Lemma provision_cfg_blank this cfg names ta rt created expires :
  lc_location cfg <> "" ->
  exists w,
    provision_cfg this cfg names ta rt created expires = Return w
    /\ capacity w = Some (capacityPerInstance cfg) /\ blank w.
Proof.
  intros Hloc. unfold provision_cfg.
  rewrite (proj2 (String.eqb_neq _ _) Hloc). eexists. split; [done|]. by repeat split.
Qed.

Lemma create_all_cons_Return w results :
  create_all (Return w :: results)
  = ((create_all results).1, w :: (create_all results).2).
Proof. done. Qed.

(** When every configuration has a location, every row is created. *)
Lemma create_all_blank this (names : nat -> Names) ta rt created expires cfgs :
  Forall (fun cfg => lc_location cfg <> "") cfgs ->
  exists ws,
    create_all (imap (fun j cfg => provision_cfg this cfg (names j) ta rt created expires)
                     cfgs)
    = (Return tt, ws)
    /\ Forall2 (fun cfg w => capacity w = Some (capacityPerInstance cfg) /\ blank w) cfgs ws.
Proof.
  revert names. induction cfgs as [|cfg cfgs IH]; intros names Hall.
  - exists []. split; [done|constructor].
  - inversion Hall as [|? ? Hloc Hrest]; subst.
    destruct (provision_cfg_blank this cfg (names 0%nat) ta rt created expires Hloc)
      as (w & Hw & Hcap & Hblank).
    destruct (IH (fun j => names (S j)) Hrest) as (ws & Hws & Hrows).
    exists (w :: ws). cbn [imap]. rewrite Hw, create_all_cons_Return.
    unfold compose. rewrite Hws. split; [done|]. by constructor.
Qed.

Lemma capacity_sum_rows cfgs ws :
  Forall2 (fun cfg w => capacity w = Some (capacityPerInstance cfg) /\ blank w) cfgs ws ->
  capacity_sum ws = capacity_of cfgs /\ Forall blank ws.
Proof.
  induction 1 as [|cfg w cfgs ws [Hcap Hblank] _ [IHsum IHall]]; simpl; [done|].
  rewrite Hcap, IHsum. split; [done|]. by constructor.
Qed.

(** X3 -- [provision] requests just enough workers.  When the estimator asks
    for [toSpawn > 0] and every launch configuration drawn has a location and
    a capacity of at least 1, the sampling loop ends (within [toSpawn]
    rounds), [provision] succeeds and creates one blank row (requested,
    nothing allocated, worker id = VM name) per draw; the capacities of the
    rows add up to at least [toSpawn], and without the last row they would
    not. *)
Theorem provision_requests_enough this toSpawn sample slug ta rt created expires fuel :
  0 < toSpawn ->
  (forall i, exists cfg,
        sample i = Some cfg /\ 1 <= capacityPerInstance cfg /\ lc_location cfg <> "") ->
  (Z.to_nat toSpawn <= fuel)%nat ->
  exists rows last,
    provision this toSpawn sample slug ta rt created expires fuel
    = Some (Return tt, rows ++ [last])
    /\ capacity_sum rows < toSpawn <= capacity_sum (rows ++ [last])
    /\ Forall blank (rows ++ [last]).
Proof.
  intros Hpos Hsample Hfuel. unfold provision.
  rewrite (proj2 (Z.eqb_neq toSpawn 0)) by lia.
  destruct (pick_cfgs_enough sample) with (fuel := fuel) (i := 0%nat)
    (toSpawn := toSpawn) (acc := @nil LaunchConfig)
    as (picked & Hrun & Hfrom & _ & Hsome); [|done|].
  { intros i. destruct (Hsample i) as (cfg & ? & ? & _). by exists cfg. }
  rewrite Hrun. cbn [app].
  destruct (Hsome Hpos) as (front & lastcfg & -> & Hlt & Hle).
  destruct (create_all_blank this (fun j => draw_names (slug j)) ta rt created expires
              (front ++ [lastcfg])) as (ws & -> & Hrows).
  { apply Forall_lookup_2. intros k cfg Hk. apply Hfrom in Hk.
    destruct (Hsample (0 + k)%nat) as (cfg' & Hcfg' & _ & Hloc). congruence. }
  apply Forall2_app_inv_l in Hrows as (rows & lastrow & Hfront & Hlast & ->).
  apply Forall2_cons_inv_l in Hlast as (last & nothing & [Hcap Hblank] & Hnil & ->).
  apply Forall2_nil_inv_l in Hnil as ->.
  exists rows, last. split; [done|].
  destruct (capacity_sum_rows _ _ Hfront) as [Hsum Hall].
  assert (Hsum' : capacity_sum (rows ++ [last])
                  = capacity_of front + capacityPerInstance lastcfg).
  { rewrite capacity_sum_app, Hsum. simpl. rewrite Hcap. simpl. lia. }
  split; [lia|]. apply Forall_app. split; [done|]. by constructor.
Qed.

(** X4 -- A launch configuration without capacity hangs the provisioner.
    When the estimator asks for [toSpawn > 0] and every launch configuration
    drawn has [capacityPerInstance <= 0], the loop [while (toSpawn > 0)] does
    not end: it is still running after any number of rounds, and no row is
    created. *)
Theorem provision_spins_without_capacity this toSpawn sample slug ta rt created expires :
  0 < toSpawn ->
  (forall i, exists cfg, sample i = Some cfg /\ capacityPerInstance cfg <= 0) ->
  forall fuel, provision this toSpawn sample slug ta rt created expires fuel = None.
Proof.
  intros Hpos Hsample fuel. unfold provision.
  rewrite (proj2 (Z.eqb_neq toSpawn 0)) by lia.
  by rewrite (pick_cfgs_spins sample Hsample).
Qed.


(** ** Closed instances *)

(** Split a conjunction of closed facts and evaluate each. *)
Ltac evaluate :=
  repeat lazymatch goal with |- _ /\ _ => split end;
  vm_compute; reflexivity.

(** C1 -- what the code does on a worker that has not registered.  The
    worker is [requested], its ip and nic are allocated, the VM exists but
    its instance view answers 404.  [provisionResources] alone returns
    [running] without writing a state; the [checkWorker] pass that calls it
    writes the returned value: the record ends in state [running], with
    [lastModified] moved, though [registerWorker] never ran. *)
Lemma checkWorker_persists_running :
  state (worker unregistered_start) = REQUESTED
  /\ (provisionResources no_view_cloud unregistered_start).1 = Return RUNNING
  /\ state (worker (provisionResources no_view_cloud unregistered_start).2) = REQUESTED
  /\ state (worker (checkWorker no_view_cloud unregistered_start).2) = RUNNING
  /\ lastModified (worker (checkWorker no_view_cloud unregistered_start).2) = 5
  /\ existsb (fun ev => match ev with LogWorkerRunning => true | _ => false end)
             (events (checkWorker no_view_cloud unregistered_start).2) = false
  /\ last (events (checkWorker no_view_cloud unregistered_start).2)
     = Some (Update (worker (checkWorker no_view_cloud unregistered_start).2)).
Proof. evaluate. Qed.



(** C3, counterexample: after the pass the legacy field is still there, and
    a worker that had [disks] already gets it overwritten. *)
Lemma legacy_disk_is_kept :
  pd_disk (providerData (worker legacy_start)) = Some old_disk
  /\ pd_disks (providerData (worker legacy_start)) = None
  /\ pd_disk (providerData (worker (checkWorker healthy_cloud legacy_start).2))
     = Some old_disk
  /\ length (default [] (pd_disks (providerData (worker legacy_and_disks_start)))) = 2%nat
  /\ pd_disks (providerData (worker (checkWorker healthy_cloud legacy_and_disks_start).2))
     = Some [old_disk].
Proof. evaluate. Qed.

Lemma legacy_disk_migration_witness :
  pd_disk (providerData (worker legacy_and_disks_start)) = Some old_disk
  /\ pd_disk (providerData (worker (checkWorker healthy_cloud legacy_and_disks_start).2))
     = Some old_disk.
Proof.
  split; [reflexivity|].
  exact (proj2 (legacy_disk_migration healthy_cloud old_disk legacy_and_disks_start eq_refl)).
Defined.

(** C4, counterexample: a duplicate registration of a running worker whose
    record holds no vmId yet is refused, but the record is written. *)
Lemma duplicate_registration_writes_vmId :
  state (worker running_no_vmId_start) = RUNNING
  /\ (toy_registerWorker healthy_cloud "vm-1" running_no_vmId_start).1
     = Throw signature_error
  /\ worker (toy_registerWorker healthy_cloud "vm-1" running_no_vmId_start).2
     <> worker running_no_vmId_start.
Proof.
  split; [reflexivity|]. split; [vm_compute; reflexivity|].
  intros H. apply (f_equal (fun w => vm_vmId (pd_vm (providerData w)))) in H.
  vm_compute in H. discriminate H.
Qed.

Lemma toy_well_signed :
  well_signed toy_messageFromDer toy_messageParts toy_verify
              toy_verifyCertificateChain toy_JSON_parse "vm-1"
              (JsonValue (Some "vm-1") (Some (Some 1000))).
Proof. exists "vm-1", "vm-1", tt, "signature". repeat split. Defined.

Lemma toy_fresh : fresh_at (JsonValue (Some "vm-1") (Some (Some 1000))) 5.
Proof. exists 1000. split; [reflexivity | lia]. Defined.

Lemma duplicate_registration_refused_witness :
  state (worker running_start) <> REQUESTED
  /\ toy_registerWorker healthy_cloud "vm-1" running_start
     = (Throw signature_error, already_running running_start).
Proof.
  assert (H : state (worker running_start) <> REQUESTED) by discriminate.
  split; [exact H|].
  exact (proj1 (duplicate_registration_refused healthy_cloud _ _ _ _ _ "vm-1" _
                  running_start toy_well_signed H)
               eq_refl eq_refl toy_fresh).
Defined.

Lemma vmId_persisted_before_checks_witness :
  truthy_str (vm_vmId (pd_vm (providerData (worker running_no_vmId_start)))) = false
  /\ vm_vmId (pd_vm (providerData
                       (worker (toy_registerWorker healthy_cloud "vm-1"
                                                   running_no_vmId_start).2)))
     = Some "vm-1".
Proof.
  split; [reflexivity|].
  exact (proj1 (proj2 (vmId_persisted_before_checks healthy_cloud _ _ _ _ _ "vm-1" _
                         running_no_vmId_start
                         (found "id/some vm" "Succeeded" (Some "vm-1")) 5
                         toy_well_signed eq_refl eq_refl))).
Defined.



Lemma empty_cloud_no_progress : no_progress empty_cloud.
Proof.
  split; [|split].
  - intros client rg name c. by exists not_found.
  - intros client rg name body c. by eexists.
  - intros op c. simpl. split; [done|]. by eexists.
Defined.

Lemma idempotent_provisioning_witness :
  errors fresh_start <> None
  /\ (creates publicIPAddresses
        (trace (repeat_op (provisionResources empty_cloud) 3 fresh_start)) <= 1)%nat.
Proof.
  assert (H : errors fresh_start <> None) by discriminate.
  split; [exact H|].
  exact (proj1 (idempotent_provisioning empty_cloud 3 fresh_start publicIPAddresses
                  empty_cloud_no_progress H)).
Defined.

(** Three calls of [removeWorker] on the allocated worker while nothing is
    left in the cloud: the seventh entry is the delete of the nic. *)
Lemma removal_ordering_witness :
  exists e,
    trace (run_ops empty_cloud (map DoRemoveWorker ["test"; "test"; "test"])
                   allocated_start) !! 6%nat = Some e
    /\ event e = BeginDeleteMethod networkInterfaces "rgrp" "some nic"
                   (inr {| azureAsyncOperationHeaderValue := Some (JStr "op/some nic") |})
    /\ verified_gone (at_worker e) virtualMachines
         (take 6 (trace (run_ops empty_cloud (map DoRemoveWorker ["test"; "test"; "test"])
                                 allocated_start)))
    /\ truthy (r_id (vm_res (pd_vm (providerData (at_worker e))))) = false.
Proof.
  eexists. split; [vm_compute; reflexivity|]. split; [reflexivity|].
  lazymatch goal with
  | |- _ /\ truthy (r_id (vm_res (pd_vm (providerData (at_worker ?e))))) = false =>
    assert (Hi : trace (run_ops empty_cloud (map DoRemoveWorker ["test"; "test"; "test"])
                                allocated_start) !! 6%nat = Some e)
      by (vm_compute; reflexivity);
    exact (removal_ordering empty_cloud ["test"; "test"; "test"]
             (worker allocated_start) 5 (Some ∅) (Some ∅) 6 e
             networkInterfaces "rgrp" "some nic"
             (inr {| azureAsyncOperationHeaderValue := Some (JStr "op/some nic") |})
             Hi eq_refl)
  end.
Defined.

(** The first scan of a freshly provisioned worker asks for its ip; the
    request carries the provider's [created-by], not the user's. *)
Lemma tag_authority_witness :
  provision_cfg sample_this sample_cfg sample_names (Some 6000) None 5 (5 + week)
  = Return sample_provisioned
  /\ exists e body,
      trace (run_ops empty_cloud [DoScanPrepare; DoCheckWorker] provisioned_start) !! 2%nat
      = Some e
      /\ event e = BeginCreateOrUpdate publicIPAddresses "rgrp" "pip-abc" body
                     (inr {| azureAsyncOperationHeaderValue := Some (JStr "op/pip-abc") |})
      /\ body_tags body !! "created-by" = Some "taskcluster-wm-azure"
      /\ body_tags body !! "mytag" = Some "myvalue".
Proof.
  assert (Hprov : provision_cfg sample_this sample_cfg sample_names (Some 6000) None 5
                                (5 + week) = Return sample_provisioned)
    by (vm_compute; reflexivity).
  split; [exact Hprov|].
  eexists _, _. split; [vm_compute; reflexivity|].
  lazymatch goal with |- event ?e = _ /\ _ => pose (e0 := e) end.
  assert (Hi : trace (run_ops empty_cloud [DoScanPrepare; DoCheckWorker] provisioned_start)
               !! 2%nat = Some e0) by (vm_compute; reflexivity).
  split; [reflexivity|].
  assert (Hnot : "mytag" ∉ reserved_keys).
  { unfold reserved_keys. rewrite !not_elem_of_cons.
    repeat split; (discriminate || apply not_elem_of_nil). }
  lazymatch goal with
  | |- body_tags ?b !! _ = _ /\ _ =>
    destruct (tag_authority empty_cloud sample_this sample_cfg sample_names
                (Some 6000) None 5 (5 + week) sample_provisioned 5 None None
                [DoScanPrepare; DoCheckWorker] e0 publicIPAddresses "rgrp" "pip-abc" b
                (inr {| azureAsyncOperationHeaderValue := Some (JStr "op/pip-abc") |})
                Hprov (list_elem_of_lookup_2 _ _ _ Hi) eq_refl) as [Hres Hoth]
  end.
  split.
  - rewrite (Hres "created-by" (list_elem_of_here _ _)). reflexivity.
  - rewrite (Hoth "mytag" Hnot). vm_compute. reflexivity.
Defined.

(** ** Closed instances of the further properties *)

Lemma provision_requests_enough_witness :
  exists rows last,
    provision sample_this 2 (fun _ => Some sample_cfg) sample_slug (Some 6000) None
              5 (5 + week) 2
    = Some (Return tt, rows ++ [last])
    /\ capacity_sum rows < 2 <= capacity_sum (rows ++ [last])
    /\ Forall blank (rows ++ [last]).
Proof.
  apply provision_requests_enough; [lia | | apply le_n].
  intros i. exists sample_cfg. split; [reflexivity|]. split; [simpl; lia|discriminate].
Defined.

Lemma provision_spins_without_capacity_witness :
  provision sample_this 1 (fun _ => Some idle_cfg) sample_slug (Some 6000) None
            5 (5 + week) 1000 = None.
Proof.
  apply provision_spins_without_capacity; [lia|].
  intros i. exists idle_cfg. split; [reflexivity|simpl; lia].
Defined.

(** In the toy PKCS#7 machinery any non-empty document is well signed; the
    document "null" carries the JSON [null], any other carries itself as
    vmId. *)
Lemma toy_signs (document : string) :
  document <> "" -> document <> "null" ->
  well_signed toy_messageFromDer toy_messageParts toy_verify
              toy_verifyCertificateChain toy_JSON_parse document
              (JsonValue (Some document) (Some (Some 1000))).
Proof.
  intros Hne Hnn. exists document, document, tt, "signature".
  unfold toy_messageFromDer, toy_JSON_parse.
  rewrite (proj2 (String.eqb_neq _ _) Hne), (proj2 (String.eqb_neq _ _) Hnn).
  repeat split.
Defined.

Lemma toy_signs_null :
  well_signed toy_messageFromDer toy_messageParts toy_verify
              toy_verifyCertificateChain toy_JSON_parse "null" JsonNull.
Proof. exists "null", "null", tt, "signature". repeat split. Defined.

Lemma toy_unsigned payload :
  ~ well_signed toy_messageFromDer toy_messageParts toy_verify
                toy_verifyCertificateChain toy_JSON_parse "" payload.
Proof. intros (msg & content & crt & sig & H1 & _). discriminate H1. Defined.

Lemma registration_succeeds_witness :
  state (worker requested_start) = REQUESTED
  /\ toy_registerWorker healthy_cloud "vm-1" requested_start
     = (Return {| reg_expires := 5 + hours96; reg_workerConfig := None |},
        registered healthy_cloud requested_start).
Proof.
  split; [reflexivity|].
  exact (proj1 (registration_succeeds healthy_cloud _ _ _ _ _ "vm-1" _ requested_start
                  toy_well_signed eq_refl)
               eq_refl eq_refl toy_fresh).
Defined.

Lemma registration_failure_is_opaque_witness :
  (toy_registerWorker healthy_cloud "vm-1" running_no_vmId_start).1 = Throw signature_error
  /\ (worker (toy_registerWorker healthy_cloud "vm-1" running_no_vmId_start).2
      = worker running_no_vmId_start
      \/ exists v,
          worker (toy_registerWorker healthy_cloud "vm-1" running_no_vmId_start).2
          = with_vmId v (worker running_no_vmId_start)).
Proof.
  assert (H : (toy_registerWorker healthy_cloud "vm-1" running_no_vmId_start).1
              = Throw signature_error) by (vm_compute; reflexivity).
  split; [exact H|].
  exact (proj1 (proj2 (registration_failure_is_opaque healthy_cloud _ _ _ _ _ "vm-1"
                         running_no_vmId_start signature_error H))).
Defined.

Lemma unsigned_document_is_refused_witness :
  exists msg,
    toy_registerWorker healthy_cloud "" requested_start
    = (Throw signature_error, refused msg requested_start).
Proof.
  exact (unsigned_document_is_refused healthy_cloud _ _ _ _ _ "" requested_start
           toy_unsigned).
Defined.

Lemma stale_or_foreign_document_is_refused_witness :
  foreign (JsonValue (Some "vm-2") (Some (Some 1000)))
          (vm_vmId (pd_vm (providerData (worker requested_start))))
  /\ (exists msg,
        toy_registerWorker healthy_cloud "vm-2" requested_start
        = (Throw signature_error, refused msg requested_start))
  /\ exists msg,
      TypeError msg <> signature_error
      /\ toy_registerWorker healthy_cloud "null" requested_start
         = (Throw (TypeError msg), requested_start).
Proof.
  assert (H : foreign (JsonValue (Some "vm-2") (Some (Some 1000)))
                      (vm_vmId (pd_vm (providerData (worker requested_start)))))
    by (eexists _, _; split; [reflexivity | discriminate]).
  split; [exact H|].
  assert (Hne : "vm-2" <> "") by discriminate.
  assert (Hnn : "vm-2" <> "null") by discriminate.
  split.
  - exact (proj1 (proj1 (stale_or_foreign_document_is_refused healthy_cloud _ _ _ _ _
                           "vm-2" _ requested_start (toy_signs "vm-2" Hne Hnn))
                        eq_refl)
                 (or_introl H)).
  - exact (proj2 (proj1 (stale_or_foreign_document_is_refused healthy_cloud _ _ _ _ _
                           "null" _ requested_start toy_signs_null)
                        eq_refl)
                 (or_introl eq_refl)).
Defined.

Lemma healthy_worker_is_counted_witness :
  healthy (found "id/some vm" "Succeeded" (Some "vm-1")) ["PowerState/running"] = true
  /\ overdue (worker running_start) 5 = false
  /\ seen (checkWorker healthy_cloud running_start).2 = Some (<["foo/bar" := 1]> ∅)
  /\ lastChecked (worker (checkWorker healthy_cloud running_start).2) = 5.
Proof.
  split; [reflexivity|]. split; [reflexivity|].
  pose proof (healthy_worker_is_counted healthy_cloud running_start ∅ ∅
                (found "id/some vm" "Succeeded" (Some "vm-1")) 5 ["PowerState/running"] 5
                eq_refl eq_refl eq_refl eq_refl eq_refl eq_refl)
    as (_ & Hseen & _ & Hchecked & _).
  split; [exact Hseen|exact Hchecked].
Defined.

Lemma overdue_worker_is_removed_witness :
  overdue (worker overdue_start) 5 = true
  /\ exists d,
      trace (checkWorker healthy_cloud overdue_start).2 = trace overdue_start ++ d
      /\ removed_with "terminateAfter time exceeded" d.
Proof.
  split; [reflexivity|].
  exact (proj2 (proj2 (overdue_worker_is_removed healthy_cloud overdue_start ∅ ∅
                         (found "id/some vm" "Succeeded" (Some "vm-1")) 5
                         ["PowerState/running"] 5
                         eq_refl eq_refl eq_refl eq_refl eq_refl eq_refl))).
Defined.

Lemma cloud_failure_aborts_pass_witness :
  statusCode server_error <> Some 404
  /\ (checkWorker broken_cloud running_start).1 = Throw server_error.
Proof.
  assert (H : statusCode server_error <> Some 404) by discriminate.
  split; [exact H|].
  exact (proj1 (cloud_failure_aborts_pass broken_cloud running_start ∅ ∅ server_error
                  eq_refl eq_refl H (or_introl (ex_intro _ 5 eq_refl)))).
Defined.

Lemma unknown_state_is_reported_witness :
  healthy (found "id/some vm" "Succeeded" (Some "vm-1")) [] = false
  /\ failing (found "id/some vm" "Succeeded" (Some "vm-1")) [] = false
  /\ exists d,
      trace (checkWorker silent_cloud running_start).2 = trace running_start ++ d
      /\ Forall calm_or_report d
      /\ reports_of d
         = [unknown_state_report (found "id/some vm" "Succeeded" (Some "vm-1")) []].
Proof.
  split; [reflexivity|]. split; [reflexivity|].
  exact (proj2 (proj2 (unknown_state_is_reported silent_cloud running_start ∅ ∅
                         (found "id/some vm" "Succeeded" (Some "vm-1")) 5 [] 5
                         eq_refl eq_refl eq_refl eq_refl eq_refl eq_refl))).
Defined.

Lemma stopped_only_when_verified_witness :
  state (worker gone_start) <> STOPPED
  /\ (removeWorker empty_cloud "continuing removal" gone_start).1 = Return STOPPED
  /\ state (worker (removeWorker empty_cloud "continuing removal" gone_start).2) = STOPPED
  /\ lastModified (worker (removeWorker empty_cloud "continuing removal" gone_start).2)
     = lastChecked (worker (removeWorker empty_cloud "continuing removal" gone_start).2).
Proof.
  assert (H : state (worker gone_start) <> STOPPED) by discriminate.
  assert (H' : (removeWorker empty_cloud "continuing removal" gone_start).1
               = Return STOPPED) by (vm_compute; reflexivity).
  split; [exact H|]. split; [exact H'|].
  exact (proj1 (proj2 (stopped_only_when_verified empty_cloud "continuing removal"
                         gone_start H H'))).
Defined.

Lemma deleting_cloud_deletes : vm_being_deleted deleting_cloud.
Proof. intros rg name c. eexists _, _. split; reflexivity. Defined.

Lemma removal_waits_for_deletion_witness :
  state (worker deleting_start) <> STOPPED
  /\ worker (repeat_op (removeWorker deleting_cloud "continuing removal") 3 deleting_start)
     = worker deleting_start.
Proof.
  assert (H : state (worker deleting_start) <> STOPPED) by discriminate.
  split; [exact H|].
  exact (proj1 (removal_waits_for_deletion deleting_cloud 3 "continuing removal"
                  deleting_start deleting_cloud_deletes eq_refl H)).
Defined.

Lemma removal_error_is_recorded_witness :
  state (worker gone_start) <> STOPPED
  /\ (removeWorker broken_cloud "continuing removal" gone_start).1 = Return STOPPING
  /\ errors (removeWorker broken_cloud "continuing removal" gone_start).2
     = pushed "foo/bar" (deletion_error server_error) (Some ∅).
Proof.
  assert (H : state (worker gone_start) <> STOPPED) by discriminate.
  assert (Hnot : statusCode server_error <> Some 404) by discriminate.
  split; [exact H|].
  pose proof (removal_error_is_recorded broken_cloud "continuing removal" gone_start
                server_error 5 H (conj eq_refl Hnot)) as Heq.
  split; [exact (f_equal (fun x => x.1) Heq) | exact (f_equal (fun x => errors x.2) Heq)].
Defined.

Lemma pipeline_error_starts_removal_witness :
  statusCode server_error <> Some 404
  /\ exists d,
      trace (provisionResources broken_cloud fresh_start).2 = trace fresh_start ++ d
      /\ reports_of d = [creation_error_report server_error]
      /\ removed_with "VM Creation Error: internal error" d.
Proof.
  assert (Hnot : statusCode server_error <> Some 404) by discriminate.
  split; [exact Hnot|].
  exact (proj2 (pipeline_error_starts_removal broken_cloud fresh_start server_error 5
                  eq_refl (or_introl (conj eq_refl Hnot)))).
Defined.

Lemma in_progress_polls : polls_in_progress (inr in_progress).
Proof. split; [discriminate|]. eexists. split; reflexivity. Defined.

Lemma pending_operation_is_polled_witness :
  polls_in_progress (inr in_progress)
  /\ (provisionResource empty_cloud publicIPAddresses ip (IpConfig "westus" "Dynamic")
                        (fun w _ => w) pending_start).1 = Return tt
  /\ worker (provisionResource empty_cloud publicIPAddresses ip (IpConfig "westus" "Dynamic")
                               (fun w _ => w) pending_start).2
     = worker pending_start.
Proof.
  split; [exact in_progress_polls|].
  pose proof (proj1 (pending_operation_is_polled empty_cloud publicIPAddresses ip
                       (IpConfig "westus" "Dynamic") (fun w _ => w) pending_start
                       (<["foo/bar" := []]> ∅) [] not_found 5 (inr in_progress) 5
                       eq_refl eq_refl eq_refl eq_refl eq_refl eq_refl eq_refl)
                    in_progress_polls) as Heq.
  split; [exact (f_equal (fun x => x.1) Heq) | exact (f_equal (fun x => worker x.2) Heq)].
Defined.

Lemma vanished_vm_is_removed_witness :
  state (worker running_start) <> REQUESTED
  /\ exists d,
      trace (checkWorker empty_cloud running_start).2 = trace running_start ++ d
      /\ removed_with "vm in running not found" d
      /\ Forall not_a_create d.
Proof.
  assert (H : state (worker running_start) <> REQUESTED) by discriminate.
  split; [exact H|].
  exact (proj2 (proj2 (vanished_vm_is_removed empty_cloud running_start ∅ ∅ not_found 5
                         eq_refl eq_refl H eq_refl eq_refl))).
Defined.

Lemma found_is_usable : usable (found "id/found" "Succeeded" (Some "vm-1")).
Proof. split; reflexivity. Defined.

Lemma pipeline_completes_witness :
  usable (found "id/found" "Succeeded" (Some "vm-1"))
  /\ (provisionResources complete_cloud fresh_start).1 = Return RUNNING
  /\ state (worker (provisionResources complete_cloud fresh_start).2) = REQUESTED.
Proof.
  split; [exact found_is_usable|].
  pose proof (pipeline_completes complete_cloud fresh_start
                (found "id/found" "Succeeded" (Some "vm-1")) 5
                (found "id/found" "Succeeded" (Some "vm-1")) 5
                (found "id/found" "Succeeded" (Some "vm-1")) 5
                eq_refl eq_refl eq_refl eq_refl eq_refl eq_refl
                found_is_usable found_is_usable found_is_usable)
    as (Hret & Hstate & _).
  split; [exact Hret|exact Hstate].
Defined.
